(** * Azure AD provider of saml2aws: a shallow embedding of [pkg/provider/aad/aad.go]

    The Go file drives a browser-less sign-in against Azure AD: a loop reads a
    page, recognises its kind from marker substrings and hands it to a handler
    that performs the next HTTP turn.  The embedding keeps Go's byte strings as
    [string], Go's [(value, error)] results as [outcome], run-time panics as a
    third result, and the HTTP client as an explicit session state with the
    remote side given as a function. *)

From stdpp Require Import gmap strings list pretty.
From Stdlib Require Import ZArith QArith Ascii.

Local Open Scope string_scope.
Local Open Scope Z_scope.

(** ** Results of Go calls *)

(** A Go [error] value that is not nil, by its message. *)
Definition error := string.

(** What a call yields: a value (the error result is nil), an error, or a
    run-time panic (slice bounds, nil dereference) that unwinds the caller.
    The two [for] loops of the file have no bound, so their embeddings count
    iterations down from a given number; [Unfinished] says that the call was
    still running when the count was used up. *)
Inductive outcome (A : Type) : Type :=
| Ok (a : A)
| Err (e : error)
| Panic (msg : string)
| Unfinished.
Arguments Ok {A} a.
Arguments Err {A} e.
Arguments Panic {A} msg.
Arguments Unfinished {A}.

(** Sequencing of calls without effects: the first error or panic ends it. *)
Definition obind {A B} (o : outcome A) (k : A -> outcome B) : outcome B :=
  match o with
  | Ok a => k a
  | Err e => Err e
  | Panic msg => Panic msg
  | Unfinished => Unfinished
  end.

Definition is_Ok {A} (o : outcome A) : bool :=
  match o with Ok _ => true | _ => false end.

Definition is_Panic {A} (o : outcome A) : bool :=
  match o with Panic _ => true | _ => false end.

(** [errors.Wrap(err, msg)] of github.com/pkg/errors: nil stays nil. *)
Definition Wrap (err : option error) (msg : string) : option error :=
  match err with
  | None => None
  | Some e => Some (msg +:+ ": " +:+ e)
  end.

(** [errors.Wrap] at a place where [err] is known not to be nil. *)
Definition wrap (e : error) (msg : string) : error := msg +:+ ": " +:+ e.

(** [if err != nil { return ..., errors.Wrap(err, msg) }] after a call. *)
Definition wrapped {A} (o : outcome A) (msg : string) : outcome A :=
  match o with
  | Err e => Err (wrap e msg)
  | _ => o
  end.

(** ** The functions of Go's [strings] package that the file calls *)

Module strings.

Definition len (s : string) : Z := Z.of_nat (String.length s).

(** [strings.HasPrefix(s, prefix)] *)
Fixpoint HasPrefix (s prefix : string) {struct prefix} : bool :=
  match prefix with
  | EmptyString => true
  | String c prefix' =>
      match s with
      | EmptyString => false
      | String d s' => if Ascii.eqb c d then HasPrefix s' prefix' else false
      end
  end.

(** [strings.Index(s, substr)]: the byte offset of the first occurrence of
    [substr] in [s], or -1. *)
Fixpoint Index (s substr : string) : Z :=
  if HasPrefix s substr then 0
  else match s with
       | EmptyString => -1
       | String _ s' =>
           let i := Index s' substr in
           if i <? 0 then -1 else i + 1
       end.

(** [strings.Contains(s, substr)] is [Index(s, substr) >= 0]. *)
Definition Contains (s substr : string) : bool := 0 <=? Index s substr.

(** [strings.Split(s, sep)] for a separator of one byte, the only way the
    file calls it ([";"]): the pieces between the separators, one more than
    there are separators. *)
Fixpoint Split (s : string) (sep : Ascii.ascii) : list string :=
  match s with
  | EmptyString => [EmptyString]
  | String c s' =>
      if Ascii.eqb c sep then EmptyString :: Split s' sep
      else match Split s' sep with
           | [] => [String c EmptyString]
           | piece :: pieces => String c piece :: pieces
           end
  end.

(** The slice expression [s[lo:hi]]; Go panics unless [0 <= lo <= hi <= len(s)]. *)
Definition slice (s : string) (lo hi : Z) : outcome string :=
  if (0 <=? lo) && (lo <=? hi) && (hi <=? len s)
  then Ok (String.substring (Z.to_nat lo) (Z.to_nat (hi - lo)) s)
  else Panic "slice bounds out of range".

(** The slice expression [s[lo:]]. *)
Definition slice_from (s : string) (lo : Z) : outcome string :=
  slice s lo (len s).

End strings.

(** ** Page kinds *)

(** The arms of the [switch] in [Authenticate], in their order. *)
Inductive page_kind : Type :=
| SIGNIN
| PROOFUP_REDIRECT
| KMSI
| TFA
| SAMLREQ
| HIDDEN_FORM
| UNKNOWN.

#[global] Instance page_kind_eq_dec : EqDecision page_kind.
Proof. solve_decision. Defined.

(** The byte 0x22, the double quote. *)
Definition dquote : string := String (Ascii.ascii_of_nat 34) EmptyString.

(** The byte 0x27, the single quote. *)
Definition squote : string := "'".

(** [isHiddenForm] *)
Definition isHiddenForm (resBodyStr : string) : bool :=
  strings.HasPrefix resBodyStr "<html><head><title>Working...</title>"
  && strings.Contains resBodyStr ("name=" +:+ dquote +:+ "hiddenform" +:+ dquote).

(** The guards of the [switch] of [Authenticate], tried from the top. *)
Definition classify (resBodyStr : string) : page_kind :=
  if strings.Contains resBodyStr "ConvergedSignIn" then SIGNIN
  else if strings.Contains resBodyStr "ConvergedProofUpRedirect" then PROOFUP_REDIRECT
  else if strings.Contains resBodyStr "KmsiInterrupt" then KMSI
  else if strings.Contains resBodyStr "ConvergedTFA" then TFA
  else if strings.Contains resBodyStr "SAMLRequest" then SAMLREQ
  else if isHiddenForm resBodyStr then HIDDEN_FORM
  else UNKNOWN.

(** ** Data model *)

(** [userProof] *)
Record userProof : Type := {
  up_AuthMethodID : string;
  up_Data : string;
  up_Display : string;
  up_IsDefault : bool
}.

(** [ConvergedResponse], the decoded [$Config] object of a page.  The polling
    intervals are Go [float64] seconds; they are kept as rationals. *)
Record ConvergedResponse : Type := {
  URLGetCredentialType : string;
  ArrUserProofs : list userProof;
  URLSkipMfaRegistration : string;
  OPerAuthPollingInterval : gmap string Q;
  URLBeginAuth : string;
  URLEndAuth : string;
  URLPost : string;
  SErrorCode : string;
  SErrTxt : string;
  SPOSTUsername : string;
  SFT : string;
  SFTName : string;
  SCtx : string;
  Hpgact : Z;
  Hpgid : Z;
  Pgid : string;
  APICanary : string;
  Canary : string;
  CorrelationID : string;
  SessionID : string
}.

(** [GetCredentialTypeRequest]: the fields the file sets; the others keep
    their zero values in every request. *)
Record GetCredentialTypeRequest : Type := {
  ct_Username : string;
  ct_IsOtherIdpSupported : bool;
  ct_CheckPhones : bool;
  ct_IsRemoteNGCSupported : bool;
  ct_IsCookieBannerShown : bool;
  ct_IsFidoSupported : bool;
  ct_OriginalRequest : string;
  ct_FlowToken : string
}.

(** [GetCredentialTypeResponse]: the one field the file reads,
    [Credentials.FederationRedirectUrl]. *)
Record GetCredentialTypeResponse : Type := {
  FederationRedirectURL : string
}.

(** [mfaRequest] *)
Record mfaRequest : Type := {
  rq_AuthMethodID : string;
  rq_Method : string;
  rq_Ctx : string;
  rq_FlowToken : string;
  rq_SessionID : string;
  rq_AdditionalAuthData : string
}.

(** [mfaResponse]: the fields the file reads. *)
Record mfaResponse : Type := {
  rs_Success : bool;
  rs_Message : string;
  rs_AuthMethodID : string;
  rs_ErrCode : Z;
  rs_Retry : bool;
  rs_FlowToken : string;
  rs_Ctx : string;
  rs_SessionID : string;
  rs_Entropy : Z
}.

(** [creds.LoginDetails] *)
Record LoginDetails : Type := {
  Username : string;
  Password : string;
  MFAToken : string
}.

(** [cfg.IDPAccount]: the fields the file reads. *)
Record IDPAccount : Type := {
  acc_URL : string;
  acc_AppID : string;
  acc_MFA : string
}.

(** ** HTTP *)

(** [url.URL] of the request that produced a response: the two parts
    [fullUrl] reads and the rendering [String()] used as referer. *)
Record URL : Type := {
  Scheme : string;
  Host : string;
  UrlString : string
}.

(** [url.Values] under [Set] holds one value per key. *)
Abbreviation Values := (gmap string string).

(** The body handed to [http.NewRequest].  [url.Values.Encode] and
    [json.Marshal] are injective on what the file passes to them, so the body
    is kept as the value they are applied to. *)
Inductive payload : Type :=
| NoBody
| FormBody (v : Values)
| CredentialTypeBody (r : GetCredentialTypeRequest)
| MfaBody (r : mfaRequest).

Record Request : Type := {
  Method : string;
  Target : string;
  Header : list (string * string);
  ReqBody : payload
}.

(** [http.Response]: [res.Request.URL] and the bytes of [res.Body]. *)
Record Response : Type := {
  RequestURL : URL;
  Body : string
}.

(** What the program does to the outside, in order. *)
Inductive event : Type :=
| Exchange (follow : bool) (req : Request) (reply : Response + error)
| Prompted (prompt : string) (answer : string)
| Logged (line : string)
| Slept (nanoseconds : Z).

(** Modelled from the spec: the HTTP session of [provider.HTTPClient], whose
    file is not part of the sources at hand.  The spec gives it a session-wide
    redirect-following switch that [DisableFollowRedirect] and
    [EnableFollowRedirect] flip until toggled back; [history] records the
    exchanges made through it. *)
Record Session : Type := {
  follow_redirect : bool;
  history : list event
}.

(** An element of a parsed HTML page, as goquery shows it: tag and attributes. *)
Record Node : Type := {
  tag : string;
  attrs : list (string * string)
}.

(** Everything outside the file: the remote side, the user at the prompt, and
    the libraries ([encoding/json], [net/http], goquery). *)
Record World : Type := {
  (** the reply of the network to a request, given the session so far *)
  transport : Session -> Request -> Response + error;
  (** [prompter.StringRequired] *)
  StringRequired : Session -> string -> string;
  (** [json.NewDecoder(r).Decode] into a [*ConvergedResponse] held in an
      interface: an error, or the pointer after decoding, nil for JSON null *)
  decodeConverged : string -> error + option ConvergedResponse;
  (** [Decode] into a [GetCredentialTypeResponse] *)
  decodeCredentialType : string -> error + GetCredentialTypeResponse;
  (** [Decode] into an [mfaResponse] *)
  decodeMfa : string -> error + mfaResponse;
  (** the error of [http.NewRequest(method, url, body)], if any *)
  NewRequestError : string -> string -> option error;
  (** [goquery.NewDocumentFromReader]: the elements in document order *)
  parseDocument : string -> error + list Node
}.

(** ** Calls with effects on the session *)

Definition M (A : Type) : Type := Session -> Session * outcome A.

Definition ret {A} (a : A) : M A := fun s => (s, Ok a).

Definition lift {A} (o : outcome A) : M A := fun s => (s, o).

Definition fail {A} (e : error) : M A := lift (Err e).

Definition bind {A B} (m : M A) (k : A -> M B) : M B :=
  fun s =>
    match m s with
    | (s', Ok a) => k a s'
    | (s', Err e) => (s', Err e)
    | (s', Panic msg) => (s', Panic msg)
    | (s', Unfinished) => (s', Unfinished)
    end.

Notation "x <- m ;; k" := (bind m (fun x => k))
  (at level 100, m at next level, right associativity).

(** [if err != nil { return res, errors.Wrap(err, msg) }] after a call. *)
Definition wrappedM {A} (m : M A) (msg : string) : M A :=
  fun s => let '(s', o) := m s in (s', wrapped o msg).

Definition record (e : event) : M unit :=
  fun s => ({| follow_redirect := follow_redirect s;
               history := history s ++ [e] |}, Ok tt).

(** Modelled from the spec: [DisableFollowRedirect] of the HTTP session, which
    affects the calls after it until toggled back. *)
Definition DisableFollowRedirect : M unit :=
  fun s => ({| follow_redirect := false; history := history s |}, Ok tt).

(** Modelled from the spec: [EnableFollowRedirect] of the HTTP session. *)
Definition EnableFollowRedirect : M unit :=
  fun s => ({| follow_redirect := true; history := history s |}, Ok tt).

(** [log.Println] and [log.Printf] *)
Definition logPrint (line : string) : M unit := record (Logged line).

(** A product or sum of [int64] values: the low 64 bits, read as signed. *)
Definition int64 (z : Z) : Z :=
  let m := z mod 2 ^ 64 in
  if m <? 2 ^ 63 then m else m - 2 ^ 64.

(** [time.Duration(x)] of a [float64]: the conversion truncates towards
    zero.  Where the value does not fit an [int64] Go leaves the result to
    the implementation; this is the one of amd64, the smallest [int64]. *)
Definition Duration (x : Q) : Z :=
  let t := Z.quot (Qnum x) (Z.pos (Qden x)) in
  if (- 2 ^ 63 <=? t) && (t <? 2 ^ 63) then t else - 2 ^ 63.

(** [time.Second], in nanoseconds. *)
Definition Second : Z := 1000000000.

(** [time.Sleep(time.Duration(x) * time.Second)]: the product is taken in
    [int64] and wraps around; [time.Sleep] returns at once when its argument
    is zero or negative.  The event keeps the argument, in nanoseconds. *)
Definition sleepSeconds (x : Q) : M unit :=
  record (Slept (int64 (Duration x * Second))).

(** Go's [int] is 64 bits wide here; [i++] wraps around. *)
Definition int_succ (i : Z) : Z :=
  if i + 1 <? 2 ^ 63 then i + 1 else i + 1 - 2 ^ 64.

(** [s.Attr(name)] of goquery: the value of the first attribute of that name. *)
Fixpoint lookupAttr (l : list (string * string)) (name : string) : option string :=
  match l with
  | [] => None
  | (k, v) :: rest => if String.eqb k name then Some v else lookupAttr rest name
  end.

Definition Attr (n : Node) (name : string) : option string :=
  lookupAttr (attrs n) name.

(** [doc.Find(name)] for a tag name: the elements of that tag, in order. *)
Definition Find (doc : list Node) (name : string) : list Node :=
  filter (fun n => tag n = name) doc.

(** [formValues.Set(key, value)] *)
Definition ValuesSet (key value : string) (formValues : Values) : Values :=
  <[key := value]> formValues.

(** [req.Header.Add(key, value)] *)
Definition HeaderAdd (key value : string) (req : Request) : Request :=
  {| Method := Method req; Target := Target req;
     Header := Header req ++ [(key, value)]; ReqBody := ReqBody req |}.

(** A field read through a [*ConvergedResponse]: a nil pointer panics. *)
Definition deref (p : option ConvergedResponse) : outcome ConvergedResponse :=
  match p with
  | Some c => Ok c
  | None => Panic "nil pointer dereference"
  end.

(** [fullUrl] *)
Definition fullUrl (res : Response) (urlFragment : string) : string :=
  if strings.HasPrefix urlFragment "/"
  then Scheme (RequestURL res) +:+ "://" +:+ Host (RequestURL res) +:+ urlFragment
  else urlFragment.

(** The [for _, v := range mfas { if cond(v) { mfa = v; break } }] loops of
    [processMfaBeginAuth]: [mfa] is the variable the loop may assign. *)
Fixpoint rangeFirst (cond : userProof -> bool) (mfas : list userProof)
    (mfa : userProof) : userProof :=
  match mfas with
  | [] => mfa
  | v :: rest => if cond v then v else rangeFirst cond rest mfa
  end.

(** The choice of the method at the head of [processMfaBeginAuth]:
    [mfa := mfas[0]] and the [switch ac.idpAccount.MFA]. *)
Definition selectMfa (MFA : string) (mfas : list userProof) : outcome userProof :=
  match mfas with
  | [] => Panic "index out of range [0] with length 0"
  | mfa :: _ =>
      Ok (if String.eqb MFA "Auto"
          then rangeFirst up_IsDefault mfas mfa
          else rangeFirst (fun v => String.eqb (up_AuthMethodID v) MFA) mfas mfa)
  end.

(** The body of the [for _, v := range oidcResponseList] loop of
    [processSAMLRequest] for a segment that contains [SAMLRequest]: the new
    value of [samlRequestUrl]. *)
Definition segmentUrl (v : string) : outcome string :=
  let startURLPos := strings.Index v "https://" in
  obind (strings.slice_from v startURLPos) (fun rest =>
  let endURLPos := strings.Index rest squote in
  let endURLPos :=
    if endURLPos =? -1 then strings.Index rest dquote else endURLPos in
  strings.slice v startURLPos (startURLPos + endURLPos)).

(** The loop of [processSAMLRequest] over the segments. *)
Fixpoint scanSegments (oidcResponseList : list string) (samlRequestUrl : string)
    : outcome string :=
  match oidcResponseList with
  | [] => Ok samlRequestUrl
  | v :: rest =>
      if strings.Contains v "SAMLRequest"
      then obind (segmentUrl v) (scanSegments rest)
      else scanSegments rest samlRequestUrl
  end.

(** The URL [processSAMLRequest] goes on to fetch. *)
Definition samlRequestUrlOf (srcBodyStr : string) : outcome string :=
  scanSegments (strings.Split srcBodyStr ";"%char) "".

(** ** The client *)

Section Client.

Variable w : World.
Variable idpAccount : IDPAccount.
Variable loginDetails : LoginDetails.

(** Modelled from the spec: [Do] of the HTTP session.  The exchange is
    recorded with the switch as it stood when the request went out. *)
Definition Do (req : Request) : M Response :=
  fun s =>
    let reply := transport w s req in
    ({| follow_redirect := follow_redirect s;
        history := history s ++ [Exchange (follow_redirect s) req reply] |},
     match reply with
     | inl res => Ok res
     | inr e => Err e
     end).

(** Modelled from the spec: [Get] of the HTTP session. *)
Definition Get (url : string) : M Response :=
  Do {| Method := "GET"; Target := url; Header := []; ReqBody := NoBody |}.

(** [http.NewRequest] *)
Definition NewRequest (method url : string) (body : payload) : outcome Request :=
  match NewRequestError w method url with
  | Some e => Err e
  | None => Ok {| Method := method; Target := url; Header := []; ReqBody := body |}
  end.

(** [prompter.StringRequired] *)
Definition promptString (prompt : string) : M string :=
  fun s =>
    let answer := StringRequired w s prompt in
    ({| follow_redirect := follow_redirect s;
        history := history s ++ [Prompted prompt answer] |}, Ok answer).

(** [unmarshalEmbeddedJson]: the pointer the decoder leaves in [v]. *)
Definition unmarshalEmbeddedJson (resBodyStr : string)
    : outcome (option ConvergedResponse) :=
  let startIndex := strings.Index resBodyStr "$Config=" + 8 in
  obind (strings.slice_from resBodyStr startIndex) (fun rest =>
  match decodeConverged w rest with
  | inl e => Err e
  | inr v => Ok v
  end).

(** [reSubmitFormData] *)
Definition reSubmitFormData (resBodyStr : string) : outcome (Values * string) :=
  match parseDocument w resBodyStr with
  | inl e => Err (wrap e "failed to build document from response")
  | inr doc =>
      let formValues :=
        foldl (fun formValues s =>
                 match Attr s "name" with
                 | None => formValues
                 | Some name =>
                     match Attr s "value" with
                     | None => formValues
                     | Some value => ValuesSet name value formValues
                     end
                 end) (∅ : Values) (Find doc "input") in
      let formSubmitUrl :=
        foldl (fun formSubmitUrl s =>
                 match Attr s "action" with
                 | None => formSubmitUrl
                 | Some action => action
                 end) "" (Find doc "form") in
      Ok (formValues, formSubmitUrl)
  end.

(** [getSamlAssertion] *)
Definition getSamlAssertion (resBodyStr : string) : outcome string :=
  match parseDocument w resBodyStr with
  | inl e => Err (wrap e "failed to build document from response")
  | inr doc =>
      Ok (foldl (fun samlAssertion s =>
                   match Attr s "name" with
                   | None => samlAssertion
                   | Some attrName =>
                       if String.eqb attrName "SAMLResponse"
                       then default "" (Attr s "value")
                       else samlAssertion
                   end) "" (Find doc "input"))
  end.

(** [requestGetCredentialType] *)
Definition requestGetCredentialType (refererUrl : string)
    (convergedResponse : ConvergedResponse) : M GetCredentialTypeResponse :=
  let reqBodyObj :=
    {| ct_Username := Username loginDetails;
       ct_IsOtherIdpSupported := true;
       ct_CheckPhones := false;
       ct_IsRemoteNGCSupported := false;
       ct_IsCookieBannerShown := false;
       ct_IsFidoSupported := false;
       ct_OriginalRequest := SCtx convergedResponse;
       ct_FlowToken := SFT convergedResponse |} in
  req <- lift (wrapped (NewRequest "POST" (URLGetCredentialType convergedResponse)
                          (CredentialTypeBody reqBodyObj))
                 "error building GetCredentialType request") ;;
  let req := HeaderAdd "canary" (APICanary convergedResponse) req in
  let req := HeaderAdd "client-request-id" (CorrelationID convergedResponse) req in
  let req := HeaderAdd "hpgact" (pretty (Hpgact convergedResponse)) req in
  let req := HeaderAdd "hpgid" (pretty (Hpgid convergedResponse)) req in
  let req := HeaderAdd "hpgrequestid" (SessionID convergedResponse) req in
  let req := HeaderAdd "Referer" refererUrl req in
  res <- wrappedM (Do req) "error retrieving GetCredentialType results" ;;
  match decodeCredentialType w (Body res) with
  | inl e => fail (wrap e "error decoding GetCredentialType results")
  | inr getCredentialTypeResponse => ret getCredentialTypeResponse
  end.

(** [processADFSAuthentication] *)
Definition processADFSAuthentication (federationUrl : string) : M Response :=
  res <- wrappedM (Get federationUrl) "error retrieving ADFS url" ;;
  let resBodyStr := Body res in
  form <- lift (wrapped (reSubmitFormData resBodyStr)
                  "failed to parse ADFS login form") ;;
  let '(formValues, formSubmitUrl) := form in
  if String.eqb formSubmitUrl "" then fail "unable to locate ADFS form submit URL"
  else
    let formValues := ValuesSet "UserName" (Username loginDetails) formValues in
    let formValues := ValuesSet "Password" (Password loginDetails) formValues in
    let formValues := ValuesSet "AuthMethod" "FormsAuthentication" formValues in
    req <- lift (wrapped (NewRequest "POST" (fullUrl res formSubmitUrl)
                            (FormBody formValues))
                   "error building ADFS login request") ;;
    let req := HeaderAdd "Content-Type" "application/x-www-form-urlencoded" req in
    wrappedM (Do req) "error retrieving ADFS login results".

(** The test that opens [processAuthentication] and
    [processConvergedProofUpRedirect]:
    [SErrorCode != "" && SErrorCode != "50058"]. *)
Definition fatalErrorCode (convergedResponse : ConvergedResponse) : bool :=
  negb (String.eqb (SErrorCode convergedResponse) "")
  && negb (String.eqb (SErrorCode convergedResponse) "50058").

(** [processAuthentication] *)
Definition processAuthentication (loginUrl refererUrl : string)
    (convergedResponse : ConvergedResponse) : M Response :=
  if fatalErrorCode convergedResponse
  then fail ("login error " +:+ SErrorCode convergedResponse)
  else
    let formValues := (∅ : Values) in
    let formValues := ValuesSet "canary" (Canary convergedResponse) formValues in
    let formValues := ValuesSet "hpgrequestid" (SessionID convergedResponse) formValues in
    let formValues :=
      ValuesSet (SFTName convergedResponse) (SFT convergedResponse) formValues in
    let formValues := ValuesSet "ctx" (SCtx convergedResponse) formValues in
    let formValues := ValuesSet "login" (Username loginDetails) formValues in
    let formValues := ValuesSet "loginfmt" (Username loginDetails) formValues in
    let formValues := ValuesSet "passwd" (Password loginDetails) formValues in
    req <- lift (wrapped (NewRequest "POST" loginUrl (FormBody formValues))
                   "error building login request") ;;
    let req := HeaderAdd "Content-Type" "application/x-www-form-urlencoded" req in
    let req := HeaderAdd "Referer" refererUrl req in
    wrappedM (Do req) "error retrieving login results".

(** [processConvergedSignIn] *)
Definition processConvergedSignIn (res : Response) (srcBodyStr : string) : M Response :=
  v <- lift (wrapped (unmarshalEmbeddedJson srcBodyStr)
               "ConvergedSignIn response unmarshal error") ;;
  convergedResponse <- lift (deref v) ;;
  let loginRequestUrl := fullUrl res (URLPost convergedResponse) in
  let refererUrl := UrlString (RequestURL res) in
  getCredentialTypeResponse <-
    wrappedM (requestGetCredentialType refererUrl convergedResponse)
      "error processing GetCredentialType request" ;;
  let federationRedirectURL := FederationRedirectURL getCredentialTypeResponse in
  if negb (String.eqb federationRedirectURL "")
  then processADFSAuthentication federationRedirectURL
  else processAuthentication loginRequestUrl refererUrl convergedResponse.

(** [processKmsiInterrupt] *)
Definition processKmsiInterrupt (res : Response) (srcBodyStr : string) : M Response :=
  v <- lift (wrapped (unmarshalEmbeddedJson srcBodyStr)
               "KMSI request unmarshal error") ;;
  convergedResponse <- lift (deref v) ;;
  let formValues := (∅ : Values) in
  let formValues :=
    ValuesSet (SFTName convergedResponse) (SFT convergedResponse) formValues in
  let formValues := ValuesSet "ctx" (SCtx convergedResponse) formValues in
  let formValues := ValuesSet "LoginOptions" "1" formValues in
  req <- lift (wrapped (NewRequest "POST" (fullUrl res (URLPost convergedResponse))
                          (FormBody formValues))
                 "error building KMSI request") ;;
  let req := HeaderAdd "Content-Type" "application/x-www-form-urlencoded" req in
  _ <- DisableFollowRedirect ;;
  res <- wrappedM (Do req) "error retrieving KMSI results" ;;
  _ <- EnableFollowRedirect ;;
  ret res.

(** [processMfaBeginAuth] *)
Definition processMfaBeginAuth (mfas : list userProof)
    (convergedResponse : ConvergedResponse) : M mfaResponse :=
  mfa <- lift (selectMfa (acc_MFA idpAccount) mfas) ;;
  let mfaReqObj :=
    {| rq_AuthMethodID := up_AuthMethodID mfa;
       rq_Method := "BeginAuth";
       rq_Ctx := SCtx convergedResponse;
       rq_FlowToken := SFT convergedResponse;
       rq_SessionID := "";
       rq_AdditionalAuthData := "" |} in
  req <- lift (wrapped (NewRequest "POST" (URLBeginAuth convergedResponse)
                          (MfaBody mfaReqObj))
                 "error building MFA BeginAuth request") ;;
  let req := HeaderAdd "Content-Type" "application/json" req in
  res <- wrappedM (Do req) "error retrieving MFA BeginAuth results" ;;
  match decodeMfa w (Body res) with
  | inl e => fail (wrap e "error decoding MFA BeginAuth results")
  | inr mfaResp =>
      if negb (rs_Success mfaResp)
      then fail ("MFA BeginAuth result is not success: " +:+ rs_Message mfaResp)
      else ret mfaResp
  end.

(** [processMfaEndAuth] *)
Definition processMfaEndAuth (mfaReqObj : mfaRequest)
    (convergedResponse : ConvergedResponse) : M mfaResponse :=
  req <- lift (wrapped (NewRequest "POST" (URLEndAuth convergedResponse)
                          (MfaBody mfaReqObj))
                 "error building MFA EndAuth request") ;;
  let req := HeaderAdd "Content-Type" "application/json" req in
  res <- wrappedM (Do req) "error retrieving MFA EndAuth results" ;;
  match decodeMfa w (Body res) with
  | inl e => fail (wrap e "error decoding MFA EndAuth results")
  | inr mfaResp => ret mfaResp
  end.

(** [processMfaAuth] *)
Definition processMfaAuth (mfaResp : mfaResponse)
    (convergedResponse : ConvergedResponse) : M Response :=
  let formValues := (∅ : Values) in
  let formValues :=
    ValuesSet (SFTName convergedResponse) (rs_FlowToken mfaResp) formValues in
  let formValues := ValuesSet "request" (rs_Ctx mfaResp) formValues in
  let formValues := ValuesSet "login" (SPOSTUsername convergedResponse) formValues in
  req <- lift (wrapped (NewRequest "POST" (URLPost convergedResponse)
                          (FormBody formValues))
                 "error building MFA ProcessAuth request") ;;
  let req := HeaderAdd "Content-Type" "application/x-www-form-urlencoded" req in
  wrappedM (Do req) "error retrieving MFA ProcessAuth results".

(** The request that an iteration of the loop of [processMfa] builds from
    the response it holds. *)
Definition endAuthRequest (mfaResp : mfaResponse) : mfaRequest :=
  {| rq_AuthMethodID := rs_AuthMethodID mfaResp;
     rq_Method := "EndAuth";
     rq_Ctx := rs_Ctx mfaResp;
     rq_FlowToken := rs_FlowToken mfaResp;
     rq_SessionID := rs_SessionID mfaResp;
     rq_AdditionalAuthData := "" |}.

Definition withAdditionalAuthData (verifyCode : string) (r : mfaRequest) : mfaRequest :=
  {| rq_AuthMethodID := rq_AuthMethodID r;
     rq_Method := rq_Method r;
     rq_Ctx := rq_Ctx r;
     rq_FlowToken := rq_FlowToken r;
     rq_SessionID := rq_SessionID r;
     rq_AdditionalAuthData := verifyCode |}.

(** The first [if] of the loop body of [processMfa]: the code methods get
    the verification code, from [loginDetails] or from the prompt. *)
Definition withVerifyCode (mfaReq : mfaRequest) : M mfaRequest :=
  if String.eqb (rq_AuthMethodID mfaReq) "PhoneAppOTP"
     || String.eqb (rq_AuthMethodID mfaReq) "OneWaySMS"
  then
    verifyCode <-
      (if String.eqb (MFAToken loginDetails) ""
       then promptString "Enter verification code"
       else ret (MFAToken loginDetails)) ;;
    ret (withAdditionalAuthData verifyCode mfaReq)
  else ret mfaReq.

(** The second [if] of the loop body: the notice for a phone approval. *)
Definition approvalNotice (mfaReq : mfaRequest) (i : Z) (mfaResp : mfaResponse)
    : M unit :=
  if String.eqb (rq_AuthMethodID mfaReq) "PhoneAppNotification" && (i =? 0)
  then
    if rs_Entropy mfaResp =? 0
    then logPrint "Phone approval required."
    else logPrint ("Phone approval required. Entropy is: "
                   +:+ pretty (rs_Entropy mfaResp))
  else ret tt.

(** The [for i := 0; ; i++] loop of [processMfa], at most [n] iterations of
    it: the response held when the loop breaks. *)
Fixpoint pollLoop (n : nat) (i : Z) (mfaResp : mfaResponse)
    (convergedResponse : ConvergedResponse) : M mfaResponse :=
  match n with
  | O => lift Unfinished
  | S n' =>
      mfaReq <- withVerifyCode (endAuthRequest mfaResp) ;;
      _ <- approvalNotice mfaReq i mfaResp ;;
      mfaResp <- wrappedM (processMfaEndAuth mfaReq convergedResponse)
                   "error processing MFA EndAuth" ;;
      if negb (rs_ErrCode mfaResp =? 0)
      then fail ("error processing MFA, errcode: " +:+ pretty (rs_ErrCode mfaResp)
                 +:+ ", message: " +:+ rs_Message mfaResp)
      else if rs_Success mfaResp then ret mfaResp
      else if negb (rs_Retry mfaResp) then ret mfaResp
      else
        _ <- sleepSeconds
               (default 0%Q
                  (OPerAuthPollingInterval convergedResponse
                     !! rs_AuthMethodID mfaResp)) ;;
        pollLoop n' (int_succ i) mfaResp convergedResponse
  end.

(** [processMfa] *)
Definition processMfa (n : nat) (mfas : list userProof)
    (convergedResponse : ConvergedResponse) : M Response :=
  if (length mfas =? 0)%nat then fail "MFA not found"
  else
    mfaResp <- wrappedM (processMfaBeginAuth mfas convergedResponse)
                 "error processing MFA BeginAuth" ;;
    mfaResp <- pollLoop n 0 mfaResp convergedResponse ;;
    if negb (rs_Success mfaResp) then fail "error processing MFA"
    else wrappedM (processMfaAuth mfaResp convergedResponse)
           "error processing MFA ProcessAuth".

(** [processConvergedTFA] *)
Definition processConvergedTFA (n : nat) (res : Response) (srcBodyStr : string)
    : M Response :=
  v <- lift (wrapped (unmarshalEmbeddedJson srcBodyStr)
               "ConvergedTFA response unmarshal error") ;;
  convergedResponse <- lift (deref v) ;;
  let mfas := ArrUserProofs convergedResponse in
  if negb (String.eqb (URLSkipMfaRegistration convergedResponse) "")
  then wrappedM (Get (URLSkipMfaRegistration convergedResponse))
         "error retrieving skip MFA results"
  else if negb (length mfas =? 0)%nat
  then processMfa n mfas convergedResponse
  else ret res.

(** [processSAMLRequest] *)
Definition processSAMLRequest (res : Response) (srcBodyStr : string) : M Response :=
  samlRequestUrl <- lift (samlRequestUrlOf srcBodyStr) ;;
  if String.eqb samlRequestUrl "" then fail "unable to locate SAMLRequest URL"
  else wrappedM (Get samlRequestUrl) "error retrieving SAMLRequest results".

(** [processConvergedProofUpRedirect].  Where the skip URL is empty the Go
    code returns [errors.Wrap(err, ...)] with [err] still nil, which is nil:
    the page it was given comes back with no error. *)
Definition processConvergedProofUpRedirect (res : Response) (srcBodyStr : string)
    : M Response :=
  v <- lift (wrapped (unmarshalEmbeddedJson srcBodyStr)
               "skip MFA response unmarshal error") ;;
  convergedResponse <- lift (deref v) ;;
  if fatalErrorCode convergedResponse
  then fail ("login error " +:+ SErrorCode convergedResponse)
  else if String.eqb (URLSkipMfaRegistration convergedResponse) ""
  then match Wrap None "skip MFA not possible" with
       | Some e => fail e
       | None => ret res
       end
  else wrappedM (Get (URLSkipMfaRegistration convergedResponse))
         "error processing skip MFA request".

(** [reProcessForm] *)
Definition reProcessForm (srcBodyStr : string) : M Response :=
  form <- lift (wrapped (reSubmitFormData srcBodyStr)
                  "failed to parse hiddenform form") ;;
  let '(formValues, formSubmitUrl) := form in
  if String.eqb formSubmitUrl "" then fail "unable to locate hiddenform submit URL"
  else
    req <- lift (wrapped (NewRequest "POST" formSubmitUrl (FormBody formValues))
                   "error building hiddenform request") ;;
    let req := HeaderAdd "Content-Type" "application/x-www-form-urlencoded" req in
    wrappedM (Do req) "error retrieving hiddenform results".

(** The ways out of the loop of [Authenticate]. *)
Inductive exit : Type :=
| AssertionFound (samlAssertion : string)   (* [return samlAssertion, nil] *)
| HandlerError (err : error)                (* [return samlAssertion, err] *)
| UnknownPage (err : error).                (* the [default] arm *)

(** The [default] arm of the [switch] of [Authenticate]. *)
Definition unknownStep (resBodyStr : string) : outcome exit :=
  if strings.Contains resBodyStr "$Config"
  then
    match unmarshalEmbeddedJson resBodyStr with
    | Ok v => obind (deref v) (fun _ => Ok (UnknownPage "failed get SAMLAssertion"))
    | Err e => Ok (UnknownPage (wrap e "unmarshal error"))
    | Panic msg => Panic msg
    | Unfinished => Unfinished
    end
  else Ok (UnknownPage "failed get SAMLAssertion").

(** What one iteration of the loop of [Authenticate] ends in: the next
    response to look at, or a way out. *)
Inductive turn : Type :=
| Next (res : Response)
| Leave (e : exit).

(** [res, err = handler(...)] followed by [if err != nil { return ... }]. *)
Definition afterHandler (m : M Response) : M turn :=
  fun s =>
    match m s with
    | (s', Ok res) => (s', Ok (Next res))
    | (s', Err err) => (s', Ok (Leave (HandlerError err)))
    | (s', Panic msg) => (s', Panic msg)
    | (s', Unfinished) => (s', Unfinished)
    end.

(** One iteration of the loop of [Authenticate]: the [switch] and the test
    of [err] after it.  [n] bounds the loop of [processMfa]. *)
Definition authStep (n : nat) (res : Response) : M turn :=
  let resBodyStr := Body res in
  match classify resBodyStr with
  | SIGNIN => afterHandler (processConvergedSignIn res resBodyStr)
  | PROOFUP_REDIRECT => afterHandler (processConvergedProofUpRedirect res resBodyStr)
  | KMSI => afterHandler (processKmsiInterrupt res resBodyStr)
  | TFA => afterHandler (processConvergedTFA n res resBodyStr)
  | SAMLREQ => afterHandler (processSAMLRequest res resBodyStr)
  | HIDDEN_FORM =>
      let samlAssertion :=
        match getSamlAssertion resBodyStr with
        | Ok a => a
        | _ => ""
        end in
      if negb (String.eqb samlAssertion "")
      then ret (Leave (AssertionFound samlAssertion))
      else afterHandler (reProcessForm resBodyStr)
  | UNKNOWN =>
      fun s =>
        match unknownStep resBodyStr with
        | Ok e => (s, Ok (Leave e))
        | Err e => (s, Err e)
        | Panic msg => (s, Panic msg)
        | Unfinished => (s, Unfinished)
        end
  end.

(** The [AuthProcessor] loop of [Authenticate], at most [n] iterations. *)
Fixpoint AuthProcessor (n : nat) (res : Response) : M exit :=
  match n with
  | O => lift Unfinished
  | S n' =>
      t <- authStep n' res ;;
      match t with
      | Next res' => AuthProcessor n' res'
      | Leave e => ret e
      end
  end.

(** [Authenticate] *)
Definition Authenticate (n : nat) : M string :=
  let startURL :=
    acc_URL idpAccount
    +:+ "/applications/redirecttofederatedapplication.aspx?Operation=LinkedSignIn&applicationId="
    +:+ acc_AppID idpAccount in
  res <- wrappedM (Get startURL) "error retrieving entry URL" ;;
  e <- AuthProcessor n res ;;
  match e with
  | AssertionFound samlAssertion => ret samlAssertion
  | HandlerError err => fail err
  | UnknownPage err => fail err
  end.

End Client.

(** * The specification's wording and sample inputs *)

Section Wording.

Import strings.

(** The classifier as the specification words it: rules tried from the top,
    the first whose test holds gives the kind, and [UNKNOWN] is left when
    none does. *)
Definition pageRules : list ((string -> bool) * page_kind) :=
  [ (fun b => Contains b "ConvergedSignIn", SIGNIN);
    (fun b => Contains b "ConvergedProofUpRedirect", PROOFUP_REDIRECT);
    (fun b => Contains b "KmsiInterrupt", KMSI);
    (fun b => Contains b "ConvergedTFA", TFA);
    (fun b => Contains b "SAMLRequest", SAMLREQ);
    (fun b => HasPrefix b "<html><head><title>Working...</title>"
              && Contains b ("name=" +:+ dquote +:+ "hiddenform" +:+ dquote),
     HIDDEN_FORM) ].

Fixpoint firstMatch (rules : list ((string -> bool) * page_kind)) (b : string)
    : page_kind :=
  match rules with
  | [] => UNKNOWN
  | (test, kind) :: rest => if test b then kind else firstMatch rest b
  end.

(** The choice as the specification words it: with ["Auto"] the first
    default proof, with another value the first proof of that method, and
    [user_proofs[0]] when there is none. *)
Definition methodSelect (user_proofs : list userProof) (preferred_mfa : string)
    : option userProof :=
  let wanted :=
    if String.eqb preferred_mfa "Auto"
    then List.find up_IsDefault user_proofs
    else List.find (fun p => String.eqb (up_AuthMethodID p) preferred_mfa) user_proofs in
  match wanted with
  | Some p => Some p
  | None => head user_proofs
  end.

Definition proofSms : userProof :=
  {| up_AuthMethodID := "OneWaySMS"; up_Data := ""; up_Display := "+1 55";
     up_IsDefault := false |}.

Definition proofApp : userProof :=
  {| up_AuthMethodID := "PhoneAppNotification"; up_Data := ""; up_Display := "";
     up_IsDefault := true |}.

(** A segment the loop body cannot slice: it mentions [SAMLRequest] but has
    no [https://], or no quote of either kind from [https://] on. *)
Definition unsliceable (v : string) : Prop :=
  Contains v "SAMLRequest" = true
  /\ (Contains v "https://" = false
      \/ exists pre rest,
           v = pre +:+ rest
           /\ Index v "https://" = len pre
           /\ Contains rest squote = false
           /\ Contains rest dquote = false).

(** The relay as the specification words it: the slice from [https://] to
    the nearer of the first single and the first double quote. *)
Definition nearestQuoteUrl (v : string) : outcome string :=
  let startURLPos := Index v "https://" in
  obind (slice_from v startURLPos) (fun rest =>
  slice v startURLPos
    (startURLPos + Z.min (Index rest squote) (Index rest dquote))).

(** A page that assigns the location with double quotes and goes on with a
    single-quoted string. *)
Definition bothQuotesSegment : string :=
  "window.location = " +:+ dquote +:+ "https://login.example/?SAMLRequest=abc"
  +:+ dquote +:+ " + 'x'".

End Wording.

(** * Reading the history of a session *)

Section Traces.

Variable w : World.

(** The three tokens an MFA request carries, and the three a response brings. *)
Definition sentTriple (r : mfaRequest) : string * string * string :=
  (rq_Ctx r, rq_FlowToken r, rq_SessionID r).

Definition receivedTriple (r : mfaResponse) : string * string * string :=
  (rs_Ctx r, rs_FlowToken r, rs_SessionID r).

(** The MFA response a reply decodes to, if it does. *)
Definition decodedMfa (reply : Response + error) : option mfaResponse :=
  match reply with
  | inl res =>
      match decodeMfa w (Body res) with
      | inr mfaResp => Some mfaResp
      | inl _ => None
      end
  | inr _ => None
  end.

(** The MFA requests of a given [Method] in a history, in order, each with
    the response that came back. *)
Fixpoint mfaExchanges (method : string) (h : list event)
    : list (mfaRequest * option mfaResponse) :=
  match h with
  | [] => []
  | Exchange _ req reply :: rest =>
      match ReqBody req with
      | MfaBody m =>
          if String.eqb (rq_Method m) method
          then (m, decodedMfa reply) :: mfaExchanges method rest
          else mfaExchanges method rest
      | _ => mfaExchanges method rest
      end
  | _ :: rest => mfaExchanges method rest
  end.

(** Each request carries the tokens that came last: those of [prev] for the
    first one, and then those of the response before it; after a reply that
    did not decode there is no further request. *)
Fixpoint chained (prev : string * string * string)
    (xs : list (mfaRequest * option mfaResponse)) : Prop :=
  match xs with
  | [] => True
  | (req, reply) :: rest =>
      sentTriple req = prev
      /\ match reply with
         | Some mfaResp => chained (receivedTriple mfaResp) rest
         | None => rest = []
         end
  end.

(** The targets of the requests in a history, in order. *)
Fixpoint sentTargets (h : list event) : list string :=
  match h with
  | [] => []
  | Exchange _ req _ :: rest => Target req :: sentTargets rest
  | _ :: rest => sentTargets rest
  end.

(** The targets of the requests made between two states of a session. *)
Definition targetsAdded (s s' : Session) : list string :=
  sentTargets (drop (length (history s)) (history s')).

(** What a way out of the loop of [Authenticate] says about the page that
    was looked at last: an assertion comes from a hidden form and is not
    empty, a handler error from a page of a known kind, and the unknown-page
    exit from a page of no known kind. *)
Definition exitFrom (e : exit) (last : Response) : Prop :=
  match e with
  | AssertionFound samlAssertion =>
      classify (Body last) = HIDDEN_FORM
      /\ getSamlAssertion w (Body last) = Ok samlAssertion
      /\ samlAssertion <> ""
  | HandlerError _ => classify (Body last) <> UNKNOWN
  | UnknownPage _ => classify (Body last) = UNKNOWN
  end.








(** A call respects a relation on sessions when the session it leaves is
    related to the one it found. *)
Definition respects {A} (R : Session -> Session -> Prop) (m : M A) : Prop :=
  forall s, R s (fst (m s)).

(** The history of the later session continues that of the earlier one. *)
Definition grows (s s' : Session) : Prop :=
  exists evs, history s' = (history s ++ evs)%list.

(** The redirect switch stands as it stood. *)
Definition sameSwitch (s s' : Session) : Prop :=
  follow_redirect s' = follow_redirect s.

(** The events of a history that are questions put to the user. *)
Definition isPrompt (e : event) : bool :=
  match e with
  | Prompted _ _ => true
  | _ => false
  end.

(** The events of a history that are lines written to the log. *)
Definition isLogged (e : event) : bool :=
  match e with
  | Logged _ => true
  | _ => false
  end.

(** The requests of a history, in order. *)
Fixpoint sentRequests (h : list event) : list Request :=
  match h with
  | [] => []
  | Exchange _ req _ :: rest => req :: sentRequests rest
  | _ :: rest => sentRequests rest
  end.

(** The requests made between two states of a session. *)
Definition requestsAdded (s s' : Session) : list Request :=
  sentRequests (drop (length (history s)) (history s')).


(** The request [requestGetCredentialType] builds. *)
Definition credentialTypeProbe (refererUrl : string) (loginDetails : LoginDetails)
    (convergedResponse : ConvergedResponse) : Request :=
  {| Method := "POST";
     Target := URLGetCredentialType convergedResponse;
     Header := [("canary", APICanary convergedResponse);
                ("client-request-id", CorrelationID convergedResponse);
                ("hpgact", pretty (Hpgact convergedResponse));
                ("hpgid", pretty (Hpgid convergedResponse));
                ("hpgrequestid", SessionID convergedResponse);
                ("Referer", refererUrl)];
     ReqBody :=
       CredentialTypeBody
         {| ct_Username := Username loginDetails;
            ct_IsOtherIdpSupported := true;
            ct_CheckPhones := false;
            ct_IsRemoteNGCSupported := false;
            ct_IsCookieBannerShown := false;
            ct_IsFidoSupported := false;
            ct_OriginalRequest := SCtx convergedResponse;
            ct_FlowToken := SFT convergedResponse |} |}.

(** What [processMfa] hands to [time.Sleep] before it polls again, for the
    method named in the reply: the interval of the page config in whole
    seconds, zero when the config has none for the method, as nanoseconds
    in [int64]. *)
Definition pollPause (convergedResponse : ConvergedResponse) (method : string) : Z :=
  let x := default 0%Q (OPerAuthPollingInterval convergedResponse !! method) in
  int64 (Duration x * Second).

(** The events of the poll loop of [processMfa] with at most [n] iterations
    to go and the counter at [i]: in each iteration perhaps a prompt for the
    code, a notice only when the counter is zero, at most one exchange, and,
    before the next iteration, a sleep of [pollPause]. *)
Inductive pollTrace (convergedResponse : ConvergedResponse)
    : nat -> Z -> list event -> Prop :=
| poll_not_begun (i : Z) : pollTrace convergedResponse 0 i []
| poll_last (n : nat) (i : Z) (asked noticed exchanged : list event) :
    (asked = [] \/ exists prompt answer, asked = [Prompted prompt answer]) ->
    (noticed = [] \/ (i = 0 /\ exists line, noticed = [Logged line])) ->
    (exchanged = [] \/ exists follow req reply, exchanged = [Exchange follow req reply]) ->
    pollTrace convergedResponse (S n) i (asked ++ noticed ++ exchanged)
| poll_again (n : nat) (i : Z) (asked noticed exchanged : list event)
    (method : string) (rest : list event) :
    (asked = [] \/ exists prompt answer, asked = [Prompted prompt answer]) ->
    (noticed = [] \/ (i = 0 /\ exists line, noticed = [Logged line])) ->
    (exchanged = [] \/ exists follow req reply, exchanged = [Exchange follow req reply]) ->
    pollTrace convergedResponse n (int_succ i) rest ->
    pollTrace convergedResponse (S n) i
      (asked ++ noticed ++ exchanged
       ++ Slept (pollPause convergedResponse method) :: rest).

(** The first request of every run of [Authenticate]. *)
Definition entryRequest (idpAccount : IDPAccount) : Request :=
  {| Method := "GET";
     Target :=
       acc_URL idpAccount
       +:+ "/applications/redirecttofederatedapplication.aspx?Operation=LinkedSignIn&applicationId="
       +:+ acc_AppID idpAccount;
     Header := [];
     ReqBody := NoBody |}.

(** A call that never panics, whatever the session it starts from. *)
Definition calm {A} (m : M A) : Prop :=
  forall s, is_Panic (snd (m s)) = false.

End Traces.

(** * Replay fixtures

    Sample pages and a scripted outside world, to run the handlers on. *)

Section Fixtures.

Import strings.

(** A string between double quotes, as it stands in JSON text. *)
Definition quoted (x : string) : string := dquote +:+ x +:+ dquote.

(** A [$Config] object with the given fields and zero values elsewhere. *)
Definition config (urlPost sftName sft sCtx urlSkipMfaRegistration sErrorCode : string)
    (arrUserProofs : list userProof) : ConvergedResponse :=
  {| URLGetCredentialType := "https://login.microsoftonline.com/common/GetCredentialType";
     ArrUserProofs := arrUserProofs;
     URLSkipMfaRegistration := urlSkipMfaRegistration;
     OPerAuthPollingInterval := ∅;
     URLBeginAuth := "https://login.microsoftonline.com/common/SAS/BeginAuth";
     URLEndAuth := "https://login.microsoftonline.com/common/SAS/EndAuth";
     URLPost := urlPost;
     SErrorCode := sErrorCode;
     SErrTxt := "";
     SPOSTUsername := "user@example.com";
     SFT := sft;
     SFTName := sftName;
     SCtx := sCtx;
     Hpgact := 0;
     Hpgid := 0;
     Pgid := "";
     APICanary := "";
     Canary := "";
     CorrelationID := "";
     SessionID := "" |}.

(** A [$Config] object that names its page and nothing else. *)
Definition emptyConfig (pgid : string) : ConvergedResponse :=
  {| URLGetCredentialType := "";
     ArrUserProofs := [];
     URLSkipMfaRegistration := "";
     OPerAuthPollingInterval := ∅;
     URLBeginAuth := "";
     URLEndAuth := "";
     URLPost := "";
     SErrorCode := "";
     SErrTxt := "";
     SPOSTUsername := "";
     SFT := "";
     SFTName := "";
     SCtx := "";
     Hpgact := 0;
     Hpgid := 0;
     Pgid := pgid;
     APICanary := "";
     Canary := "";
     CorrelationID := "";
     SessionID := "" |}.

(** A JSON member with a string value. *)
Definition member (key value : string) : string :=
  quoted key +:+ ":" +:+ quoted value.

(** A JSON member with a value that is written as it is: a number, [true],
    [false], an array. *)
Definition memberRaw (key value : string) : string :=
  quoted key +:+ ":" +:+ value.

Definition boolJson (b : bool) : string := if b then "true" else "false".

Fixpoint commaSeparated (items : list string) : string :=
  match items with
  | [] => ""
  | [item] => item
  | item :: rest => item +:+ "," +:+ commaSeparated rest
  end.

Definition proofJson (p : userProof) : string :=
  "{" +:+ commaSeparated
            [member "authMethodId" (up_AuthMethodID p);
             member "data" (up_Data p);
             member "display" (up_Display p);
             memberRaw "isDefault" (boolJson (up_IsDefault p))] +:+ "}".

(** The JSON text of a page config with no polling intervals, member by
    member under the names the fields are tagged with; the strings of the
    sample pages need no escaping.  Decoding the text gives the config. *)
Definition configJson (c : ConvergedResponse) : string :=
  "{" +:+ commaSeparated
            [member "urlGetCredentialType" (URLGetCredentialType c);
             memberRaw "arrUserProofs"
               ("[" +:+ commaSeparated (map proofJson (ArrUserProofs c)) +:+ "]");
             member "urlSkipMfaRegistration" (URLSkipMfaRegistration c);
             member "urlBeginAuth" (URLBeginAuth c);
             member "urlEndAuth" (URLEndAuth c);
             member "urlPost" (URLPost c);
             member "sErrorCode" (SErrorCode c);
             member "sErrTxt" (SErrTxt c);
             member "sPOST_Username" (SPOSTUsername c);
             member "sFT" (SFT c);
             member "sFTName" (SFTName c);
             member "sCtx" (SCtx c);
             memberRaw "hpgact" (pretty (Hpgact c));
             memberRaw "hpgid" (pretty (Hpgid c));
             member "pgid" (Pgid c);
             member "apiCanary" (APICanary c);
             member "canary" (Canary c);
             member "correlationId" (CorrelationID c);
             member "sessionId" (SessionID c)] +:+ "}".

(** The JSON text of an MFA response, in the same way. *)
Definition mfaJson (r : mfaResponse) : string :=
  "{" +:+ commaSeparated
            [memberRaw "Success" (boolJson (rs_Success r));
             member "Message" (rs_Message r);
             member "AuthMethodId" (rs_AuthMethodID r);
             memberRaw "ErrCode" (pretty (rs_ErrCode r));
             memberRaw "Retry" (boolJson (rs_Retry r));
             member "FlowToken" (rs_FlowToken r);
             member "Ctx" (rs_Ctx r);
             member "SessionId" (rs_SessionID r);
             memberRaw "Entropy" (pretty (rs_Entropy r))] +:+ "}".

(** A decoder that knows the JSON values of a table: input that begins with
    one of them decodes to its entry, whatever follows the value. *)
Definition tableDecoder {A} (table : list (string * A)) (input : string) : error + A :=
  match List.find (fun entry => HasPrefix input (fst entry)) table with
  | Some entry => inr (snd entry)
  | None => inl "invalid character looking for beginning of value"
  end.

Definition isExchange (e : event) : bool :=
  match e with
  | Exchange _ _ _ => true
  | _ => false
  end.

(** A network that answers the requests of a session, in order, with a list
    of replies, and fails when the list is used up. *)
Definition replay (replies : list (Response + error)) (s : Session) (_ : Request)
    : Response + error :=
  nth (length (List.filter isExchange (history s))) replies (inr "EOF").

Definition fixtureWorld (pages : list (string * option ConvergedResponse))
    (mfaReplies : list (string * mfaResponse))
    (documents : list (string * list Node))
    (replies : list (Response + error)) : World :=
  {| transport := replay replies;
     StringRequired := fun _ _ => "123456";
     decodeConverged := tableDecoder pages;
     decodeCredentialType := tableDecoder [("{}", {| FederationRedirectURL := "" |})];
     decodeMfa := tableDecoder mfaReplies;
     NewRequestError := fun _ _ => None;
     parseDocument := tableDecoder documents |}.

Definition account : IDPAccount :=
  {| acc_URL := "https://account.activedirectory.windowsazure.com";
     acc_AppID := "app";
     acc_MFA := "Auto" |}.

Definition login : LoginDetails :=
  {| Username := "user@example.com"; Password := "secret"; MFAToken := "123456" |}.

(** The same login with no MFA token given. *)
Definition loginWithoutToken : LoginDetails :=
  {| Username := "user@example.com"; Password := "secret"; MFAToken := "" |}.

Definition loginURL : URL :=
  {| Scheme := "https";
     Host := "login.microsoftonline.com";
     UrlString := "https://login.microsoftonline.com/common/login" |}.

Definition pageAt (body : string) : Response :=
  {| RequestURL := loginURL; Body := body |}.

(** A fresh session: redirects are followed, nothing has happened. *)
Definition freshSession : Session := {| follow_redirect := true; history := [] |}.

(** A "Keep me signed in" page. *)
Definition kmsiConfig : ConvergedResponse := config "/kmsi" "flowToken" "f0" "c0" "" "" [].

Definition kmsiJson : string := configJson kmsiConfig.

Definition kmsiBody : string :=
  "<html><script>//KmsiInterrupt<![CDATA[ $Config=" +:+ kmsiJson +:+ "; ]]></script></html>".

(** The network is down when the KMSI form is posted. *)
Definition kmsiOffline : World :=
  fixtureWorld [(kmsiJson, Some kmsiConfig)] [] [] [inr "dial tcp: i/o timeout"].

(** A page that mentions [KmsiInterrupt] inside a JSON object of its own and
    carries no [$Config=] at all. *)
Definition strayJson : string := "{" +:+ quoted "pgid" +:+ ":" +:+ quoted "KmsiInterrupt" +:+ "}".

Definition strayBody : string := "<html> " +:+ strayJson.

Definition strayWorld : World :=
  fixtureWorld [(strayJson, Some (emptyConfig "KmsiInterrupt"))] [] [] [].

(** The request [processKmsiInterrupt] builds from a page and its config. *)
Definition kmsiPost (res : Response) (convergedResponse : ConvergedResponse) : Request :=
  {| Method := "POST";
     Target := fullUrl res (URLPost convergedResponse);
     Header := [("Content-Type", "application/x-www-form-urlencoded")];
     ReqBody :=
       FormBody
         (ValuesSet "LoginOptions" "1"
            (ValuesSet "ctx" (SCtx convergedResponse)
               (ValuesSet (SFTName convergedResponse) (SFT convergedResponse) ∅))) |}.

(** The request [processAuthentication] builds. *)
Definition passwordPost (loginUrl refererUrl : string) (loginDetails : LoginDetails)
    (convergedResponse : ConvergedResponse) : Request :=
  {| Method := "POST";
     Target := loginUrl;
     Header := [("Content-Type", "application/x-www-form-urlencoded");
                ("Referer", refererUrl)];
     ReqBody :=
       FormBody
         (ValuesSet "passwd" (Password loginDetails)
            (ValuesSet "loginfmt" (Username loginDetails)
               (ValuesSet "login" (Username loginDetails)
                  (ValuesSet "ctx" (SCtx convergedResponse)
                     (ValuesSet (SFTName convergedResponse) (SFT convergedResponse)
                        (ValuesSet "hpgrequestid" (SessionID convergedResponse)
                           (ValuesSet "canary" (Canary convergedResponse) ∅))))))) |}.

(** The session after one more event. *)
Definition after (s : Session) (follow : bool) (e : event) : Session :=
  {| follow_redirect := follow; history := history s ++ [e] |}.

(** The error of the primary-auth handler for a fatal [sErrorCode]. *)
Definition LoginError (code : string) : error := "login error " +:+ code.

(** A sign-in page that carries the error code 50126, and a network that
    would answer. *)
Definition badPasswordConfig : ConvergedResponse :=
  config "/common/login" "flowToken" "f0" "c0" "" "50126" [].

Definition signedOutConfig : ConvergedResponse :=
  config "/common/login" "flowToken" "f0" "c0" "" "50058" [].

Definition online : World :=
  fixtureWorld [] [] [] [inl (pageAt "<html></html>")].

(** A TFA page with one proof, a phone approval that is polled: BeginAuth,
    an EndAuth that asks to retry, an EndAuth that succeeds, and the final
    POST.  The page gives its [urlPost] as a path. *)
Definition tfaConfig : ConvergedResponse :=
  config "/common/SAS/ProcessAuth" "flowToken" "f0" "c0" "" ""
    [{| up_AuthMethodID := "PhoneAppNotification"; up_Data := ""; up_Display := "";
        up_IsDefault := true |}].

Definition tfaBody : string :=
  "<html><script>//ConvergedTFA<![CDATA[ $Config=" +:+ configJson tfaConfig
  +:+ "; ]]></script></html>".

Definition mfaReply (success retry : bool) (ctx flowToken sessionId : string)
    : mfaResponse :=
  {| rs_Success := success;
     rs_Message := "";
     rs_AuthMethodID := "PhoneAppNotification";
     rs_ErrCode := 0;
     rs_Retry := retry;
     rs_FlowToken := flowToken;
     rs_Ctx := ctx;
     rs_SessionID := sessionId;
     rs_Entropy := 42 |}.

(** The forms and inputs of a sample page are listed with the page: they are
    the only elements the program looks for. *)
Definition hiddenFormBody : string :=
  "<html><head><title>Working...</title></head><body><form name="
  +:+ quoted "hiddenform" +:+ "><input name=" +:+ quoted "SAMLResponse"
  +:+ " value=" +:+ quoted "BASE64==" +:+ "></form></body></html>".

Definition hiddenFormDocument : list Node :=
  [{| tag := "form"; attrs := [("name", "hiddenform")] |};
   {| tag := "input"; attrs := [("name", "SAMLResponse"); ("value", "BASE64==")] |}].

Definition tfaWorld : World :=
  fixtureWorld
    [(configJson tfaConfig, Some tfaConfig)]
    [(mfaJson (mfaReply true false "c1" "f1" "s1"), mfaReply true false "c1" "f1" "s1");
     (mfaJson (mfaReply false true "c2" "f2" "s2"), mfaReply false true "c2" "f2" "s2");
     (mfaJson (mfaReply true false "c3" "f3" "s3"), mfaReply true false "c3" "f3" "s3")]
    [(hiddenFormBody, hiddenFormDocument)]
    [inl (pageAt (mfaJson (mfaReply true false "c1" "f1" "s1")));
     inl (pageAt (mfaJson (mfaReply false true "c2" "f2" "s2")));
     inl (pageAt (mfaJson (mfaReply true false "c3" "f3" "s3")));
     inl (pageAt hiddenFormBody)].

(** The resolution rule as the specification words it: a fragment that begins
    with [/] gets [scheme://host] of the current response's request URL in
    front, any other is taken as it is. *)
Definition resolve (current : Response) (fragment : string) : string :=
  match fragment with
  | String "/" _ =>
      Scheme (RequestURL current) +:+ "://" +:+ Host (RequestURL current) +:+ fragment
  | _ => fragment
  end.

(** A hidden form without an assertion whose action is a path. *)
Definition relayFormBody : string :=
  "<html><head><title>Working...</title></head><body><form name="
  +:+ quoted "hiddenform" +:+ " action=" +:+ quoted "/saml" +:+ "><input name="
  +:+ quoted "RelayState" +:+ " value=" +:+ quoted "x" +:+ "></form></body></html>".

Definition relayWorld : World :=
  fixtureWorld [] []
    [(relayFormBody,
      [{| tag := "form"; attrs := [("name", "hiddenform"); ("action", "/saml")] |};
       {| tag := "input"; attrs := [("name", "RelayState"); ("value", "x")] |}])]
    [inl (pageAt "<html></html>")].

(** A world where the KMSI form is posted and answered. *)
Definition kmsiOnline : World :=
  fixtureWorld [(kmsiJson, Some kmsiConfig)] [] [] [inl (pageAt hiddenFormBody)].





(** A TFA page whose one proof is a code from the authenticator app, the
    replies to BeginAuth and EndAuth, and the page with the assertion that
    answers the final POST: JSON and HTML as they would come over the wire,
    with what the decoders of Go and goquery make of them. *)
Definition otpJson : string :=
  "{" +:+ member "pgid" "ConvergedTFA"
  +:+ "," +:+ quoted "arrUserProofs" +:+ ":[{" +:+ member "authMethodId" "PhoneAppOTP"
  +:+ "," +:+ quoted "isDefault" +:+ ":true}]"
  +:+ "," +:+ member "urlBeginAuth" "https://login.microsoftonline.com/common/SAS/BeginAuth"
  +:+ "," +:+ member "urlEndAuth" "https://login.microsoftonline.com/common/SAS/EndAuth"
  +:+ "," +:+ member "urlPost" "https://login.microsoftonline.com/common/SAS/ProcessAuth"
  +:+ "," +:+ member "sPOST_Username" "user@example.com"
  +:+ "," +:+ member "sFT" "f0"
  +:+ "," +:+ member "sFTName" "flowToken"
  +:+ "," +:+ member "sCtx" "c0" +:+ "}".

Definition otpConfig : ConvergedResponse :=
  {| URLGetCredentialType := "";
     ArrUserProofs :=
       [{| up_AuthMethodID := "PhoneAppOTP"; up_Data := ""; up_Display := "";
           up_IsDefault := true |}];
     URLSkipMfaRegistration := "";
     OPerAuthPollingInterval := ∅;
     URLBeginAuth := "https://login.microsoftonline.com/common/SAS/BeginAuth";
     URLEndAuth := "https://login.microsoftonline.com/common/SAS/EndAuth";
     URLPost := "https://login.microsoftonline.com/common/SAS/ProcessAuth";
     SErrorCode := "";
     SErrTxt := "";
     SPOSTUsername := "user@example.com";
     SFT := "f0";
     SFTName := "flowToken";
     SCtx := "c0";
     Hpgact := 0;
     Hpgid := 0;
     Pgid := "ConvergedTFA";
     APICanary := "";
     Canary := "";
     CorrelationID := "";
     SessionID := "" |}.

Definition otpBody : string :=
  "<html><script>//<![CDATA[ $Config=" +:+ otpJson +:+ "; ]]></script></html>".

Definition otpReply (ctx flowToken sessionId : string) : mfaResponse :=
  {| rs_Success := true;
     rs_Message := "";
     rs_AuthMethodID := "PhoneAppOTP";
     rs_ErrCode := 0;
     rs_Retry := false;
     rs_FlowToken := flowToken;
     rs_Ctx := ctx;
     rs_SessionID := sessionId;
     rs_Entropy := 0 |}.

Definition assertionBody : string :=
  "<html><head><title>Working...</title></head><body><form method=" +:+ quoted "POST"
  +:+ " name=" +:+ quoted "hiddenform"
  +:+ " action=" +:+ quoted "https://signin.aws.amazon.com/saml"
  +:+ "><input type=" +:+ quoted "hidden" +:+ " name=" +:+ quoted "SAMLResponse"
  +:+ " value=" +:+ quoted "BASE64==" +:+ " /></form></body></html>".

Definition assertionDocument : list Node :=
  [{| tag := "form";
      attrs := [("method", "POST"); ("name", "hiddenform");
                ("action", "https://signin.aws.amazon.com/saml")] |};
   {| tag := "input";
      attrs := [("type", "hidden"); ("name", "SAMLResponse"); ("value", "BASE64==")] |}].


(** The entry URL answers with the TFA page; BeginAuth, EndAuth and the
    final POST are answered in turn. *)
Definition otpWorld : World :=
  fixtureWorld
    [(otpJson, Some otpConfig)]
    [(mfaJson (otpReply "c1" "f1" "s1"), otpReply "c1" "f1" "s1");
     (mfaJson (otpReply "c2" "f2" "s2"), otpReply "c2" "f2" "s2")]
    [(assertionBody, assertionDocument)]
    [inl (pageAt otpBody);
     inl (pageAt (mfaJson (otpReply "c1" "f1" "s1")));
     inl (pageAt (mfaJson (otpReply "c2" "f2" "s2")));
     inl (pageAt assertionBody)].

(** A server that answers every request with the same page, one that sends
    the browser on to a SAMLRequest URL. *)
Definition relayBody : string :=
  "<script>window.location = 'https://login.example/?SAMLRequest=abc';</script>".

Definition relayForever : World :=
  {| transport := fun _ _ => inl (pageAt relayBody);
     StringRequired := fun _ _ => "123456";
     decodeConverged := tableDecoder [];
     decodeCredentialType := tableDecoder [];
     decodeMfa := tableDecoder [];
     NewRequestError := fun _ _ => None;
     parseDocument := tableDecoder [] |}.

(** The shortest run: the entry URL answers with the hidden form that holds
    the assertion. *)
Definition happyWorld : World :=
  fixtureWorld [] []
    [(hiddenFormBody, hiddenFormDocument)]
    [inl (pageAt hiddenFormBody)].

(** A login form as an ADFS server sends it: the user name field comes
    twice, one field has no value, and there are two forms. *)
Definition adfsFormBody : string :=
  "<html><body><form id=" +:+ quoted "options" +:+ "><input name=" +:+ quoted "UserName"
  +:+ " value=" +:+ quoted "first" +:+ "></form><form action=" +:+ quoted "/adfs/ls"
  +:+ "><input name=" +:+ quoted "UserName" +:+ " value=" +:+ quoted "second"
  +:+ "><input name=" +:+ quoted "Kmsi" +:+ "><input name=" +:+ quoted "SAMLResponse"
  +:+ " value=" +:+ quoted "old" +:+ "><input name=" +:+ quoted "SAMLResponse"
  +:+ " value=" +:+ quoted "new" +:+ "></form></body></html>".

Definition adfsDocument : list Node :=
  [ {| tag := "form"; attrs := [("id", "options")] |};
    {| tag := "input"; attrs := [("name", "UserName"); ("value", "first")] |};
    {| tag := "form"; attrs := [("action", "/adfs/ls")] |};
    {| tag := "input"; attrs := [("name", "UserName"); ("value", "second")] |};
    {| tag := "input"; attrs := [("name", "Kmsi")] |};
    {| tag := "input"; attrs := [("name", "SAMLResponse"); ("value", "old")] |};
    {| tag := "input"; attrs := [("name", "SAMLResponse"); ("value", "new")] |} ].

Definition adfsWorld : World :=
  fixtureWorld [] [] [(adfsFormBody, adfsDocument)]
    [inl (pageAt adfsFormBody); inl (pageAt hiddenFormBody)].

(** A sign-in page that carries the error code 50126; the credential-type
    probe is answered and names no federation. *)
Definition signInBody : string :=
  "<html><script>//ConvergedSignIn<![CDATA[ $Config=" +:+ configJson badPasswordConfig
  +:+ "; ]]></script></html>".

Definition signInWorld : World :=
  fixtureWorld [(configJson badPasswordConfig, Some badPasswordConfig)] [] [] [inl (pageAt "{}")].

(** A ProofUp page that offers no skip URL. *)
Definition proofUpBody : string :=
  "<html><script>//ConvergedProofUpRedirect<![CDATA[ $Config="
  +:+ configJson signedOutConfig +:+ "; ]]></script></html>".

Definition proofUpWorld : World :=
  fixtureWorld [(configJson signedOutConfig, Some signedOutConfig)] [] [] [].

(** The session of [tfaWorld] when BeginAuth has been answered. *)
Definition afterBegin : Session :=
  fst (processMfaBeginAuth tfaWorld account (ArrUserProofs tfaConfig) tfaConfig
         freshSession).

End Fixtures.

(** * Properties *)

(** ** Facts about the string functions *)

Section StringFacts.

Import strings.

Lemma len_nonneg (s : string) : 0 <= len s.
Proof. unfold len. lia. Qed.

Lemma len_cons (c : Ascii.ascii) (s : string) : len (String c s) = len s + 1.
Proof. unfold len. simpl. lia. Qed.

Lemma app_nil_l (b : string) : "" +:+ b = b.
Proof. reflexivity. Qed.

Lemma app_cons (c : Ascii.ascii) (a b : string) :
  String c a +:+ b = String c (a +:+ b).
Proof. reflexivity. Qed.

Lemma len_app (a b : string) : len (a +:+ b) = len a + len b.
Proof.
  induction a as [|c a IH].
  - rewrite app_nil_l. unfold len. simpl. lia.
  - rewrite app_cons, !len_cons, IH. lia.
Qed.

Lemma Index_nil (substr : string) :
  Index "" substr = if HasPrefix "" substr then 0 else -1.
Proof. reflexivity. Qed.

Lemma Index_cons (c : Ascii.ascii) (s substr : string) :
  Index (String c s) substr =
  if HasPrefix (String c s) substr then 0
  else if Index s substr <? 0 then -1 else Index s substr + 1.
Proof. reflexivity. Qed.

Lemma Index_bounds (s substr : string) :
  Index s substr = -1 \/ (0 <= Index s substr <= len s).
Proof.
  induction s as [|c s IH].
  - rewrite Index_nil.
    destruct (HasPrefix "" substr); [right; unfold len; simpl; lia | left; reflexivity].
  - rewrite Index_cons. destruct (HasPrefix (String c s) substr).
    + right. pose proof (len_nonneg (String c s)). lia.
    + destruct (Z.ltb_spec (Index s substr) 0); [left; reflexivity|].
      right. rewrite len_cons. lia.
Qed.

Lemma Contains_false_Index (s substr : string) :
  Contains s substr = false <-> Index s substr = -1.
Proof.
  unfold Contains. destruct (Index_bounds s substr) as [H|H].
  - rewrite H. simpl. tauto.
  - split; intros H'; [apply Z.leb_gt in H' | ]; lia.
Qed.

Lemma Contains_true_Index (s substr : string) :
  Contains s substr = true <-> 0 <= Index s substr.
Proof. unfold Contains. apply Z.leb_le. Qed.

(** The index of a byte: the recursion of [Index] at a pattern of length one. *)
Lemma Index_byte_cons (a c : Ascii.ascii) (s : string) :
  Index (String a s) (String c "") =
  if Ascii.eqb c a then 0
  else if Index s (String c "") <? 0 then -1 else Index s (String c "") + 1.
Proof. rewrite Index_cons. simpl. destruct (Ascii.eqb c a); reflexivity. Qed.

Lemma Index_byte_nil (c : Ascii.ascii) : Index "" (String c "") = -1.
Proof. reflexivity. Qed.

(** The first occurrence of a byte that does not occur in [u] is right
    after [u]. *)
Lemma Index_byte_app (c : Ascii.ascii) (u post : string) :
  Index u (String c "") = -1 ->
  Index (u +:+ String c post) (String c "") = len u.
Proof.
  induction u as [|a u IH]; intros H.
  - rewrite app_nil_l, Index_byte_cons, Ascii.eqb_refl. reflexivity.
  - rewrite app_cons.
    rewrite Index_byte_cons in *.
    destruct (Ascii.eqb c a); [discriminate|].
    destruct (Z.ltb_spec (Index u (String c "")) 0) as [Hlt|Hge]; [|lia].
    destruct (Index_bounds u (String c "")) as [Hm|Hb]; [|lia].
    rewrite (IH Hm), len_cons.
    pose proof (len_nonneg u).
    destruct (Z.ltb_spec (len u) 0); [lia|reflexivity].
Qed.

(** A byte that occurs neither in [u] nor in [post] does not occur in
    [u +:+ post]. *)
Lemma Index_byte_app_none (c : Ascii.ascii) (u post : string) :
  Index u (String c "") = -1 ->
  Index post (String c "") = -1 ->
  Index (u +:+ post) (String c "") = -1.
Proof.
  induction u as [|a u IH]; intros Hu Hp; [exact Hp|].
  rewrite app_cons.
  rewrite Index_byte_cons in *.
  destruct (Ascii.eqb c a); [discriminate|].
  destruct (Z.ltb_spec (Index u (String c "")) 0) as [Hlt|Hge]; [|lia].
  destruct (Index_bounds u (String c "")) as [Hm|Hb]; [|lia].
  rewrite (IH Hm Hp). reflexivity.
Qed.

Lemma substring_zero_app (x post : string) :
  String.substring 0 (String.length x) (x +:+ post) = x.
Proof.
  induction x as [|c x IH].
  - rewrite app_nil_l. destruct post; reflexivity.
  - rewrite app_cons. simpl. rewrite IH. reflexivity.
Qed.

Lemma substring_app_mid (pre x post : string) :
  String.substring (String.length pre) (String.length x) (pre +:+ x +:+ post) = x.
Proof.
  induction pre as [|c pre IH].
  - rewrite app_nil_l. apply substring_zero_app.
  - rewrite app_cons. simpl. exact IH.
Qed.

Lemma string_app_nil_r (x : string) : x +:+ "" = x.
Proof.
  induction x as [|c x IH]; [reflexivity|].
  rewrite app_cons, IH. reflexivity.
Qed.

(** [(pre + x + post)[len(pre) : len(pre)+len(x)]] is [x]. *)
Lemma slice_app_mid (pre x post : string) :
  slice (pre +:+ x +:+ post) (len pre) (len pre + len x) = Ok x.
Proof.
  unfold slice.
  pose proof (len_nonneg pre). pose proof (len_nonneg x). pose proof (len_nonneg post).
  rewrite !len_app.
  replace ((0 <=? len pre) && (len pre <=? len pre + len x)
           && (len pre + len x <=? len pre + (len x + len post))) with true
    by (symmetry; rewrite !andb_true_iff, !Z.leb_le; lia).
  replace (len pre + len x - len pre) with (len x) by lia.
  unfold len. rewrite !Nat2Z.id, substring_app_mid. reflexivity.
Qed.

(** [(pre + x)[len(pre):]] is [x]. *)
Lemma slice_from_app (pre x : string) :
  slice_from (pre +:+ x) (len pre) = Ok x.
Proof.
  unfold slice_from. rewrite len_app.
  pose proof (slice_app_mid pre x "") as H.
  rewrite string_app_nil_r in H. exact H.
Qed.

(** A slice expression yields a string or panics. *)
Lemma slice_Ok_or_Panic (s : string) (lo hi : Z) :
  (exists x, slice s lo hi = Ok x) \/ (exists msg, slice s lo hi = Panic msg).
Proof.
  unfold slice.
  destruct ((0 <=? lo) && (lo <=? hi) && (hi <=? len s)); eauto.
Qed.

Lemma slice_negative (s : string) (lo hi : Z) :
  lo < 0 -> is_Panic (slice s lo hi) = true.
Proof.
  intros H. unfold slice.
  destruct (Z.leb_spec 0 lo); [lia|reflexivity].
Qed.

Lemma slice_inverted (s : string) (lo hi : Z) :
  hi < lo -> is_Panic (slice s lo hi) = true.
Proof.
  intros H. unfold slice.
  destruct (Z.leb_spec lo hi); [lia|].
  rewrite andb_false_r. reflexivity.
Qed.

End StringFacts.

(** ** Page classification *)

Section Classification.

Import strings.

Lemma classify_firstMatch (b : string) : classify b = firstMatch pageRules b.
Proof. reflexivity. Qed.

Lemma classify_HIDDEN_FORM (b : string) :
  classify b = HIDDEN_FORM -> isHiddenForm b = true.
Proof.
  unfold classify.
  repeat match goal with
         | |- context [if ?c then _ else _] => destruct c eqn:?
         end; congruence.
Qed.

(** C9: the page kind is a function of the body alone, computed by the
    rules SIGNIN, PROOFUP_REDIRECT, KMSI, TFA, SAMLREQ, HIDDEN_FORM in this
    order with the first match winning and UNKNOWN otherwise.  A body that
    contains both [ConvergedTFA] and [SAMLRequest] is never a SAMLREQ page:
    it is a TFA page unless one of the three markers ranked above TFA occurs
    as well.  A HIDDEN_FORM page begins with the [Working...] prefix and
    contains [name="hiddenform"]. *)
Theorem classify_first_match_wins (b : string) :
  classify b = firstMatch pageRules b
  /\ (Contains b "ConvergedTFA" = true ->
      Contains b "SAMLRequest" = true ->
      classify b <> SAMLREQ
      /\ (Contains b "ConvergedSignIn" = false ->
          Contains b "ConvergedProofUpRedirect" = false ->
          Contains b "KmsiInterrupt" = false ->
          classify b = TFA))
  /\ (classify b = HIDDEN_FORM ->
      HasPrefix b "<html><head><title>Working...</title>" = true
      /\ Contains b ("name=" +:+ dquote +:+ "hiddenform" +:+ dquote) = true).
Proof.
  split; [apply classify_firstMatch|]. split.
  - intros Htfa Hsaml. unfold classify. rewrite Htfa. split.
    + repeat match goal with
             | |- context [if ?c then _ else _] => destruct c
             end; discriminate.
    + intros -> -> ->. reflexivity.
  - intros H. apply classify_HIDDEN_FORM in H.
    unfold isHiddenForm in H. apply andb_true_iff in H. exact H.
Qed.

Lemma classify_first_match_wins_witness :
  classify "<script>$Config={};//ConvergedTFA;window.location='?SAMLRequest='</script>"
  = TFA.
Proof.
  apply (classify_first_match_wins
           "<script>$Config={};//ConvergedTFA;window.location='?SAMLRequest='</script>");
    reflexivity.
Defined.

End Classification.

(** ** Choice of the MFA method *)

Section MethodSelection.

Lemma rangeFirst_find (cond : userProof -> bool) (mfas : list userProof)
    (mfa : userProof) :
  rangeFirst cond mfas mfa = default mfa (List.find cond mfas).
Proof.
  induction mfas as [|v rest IH]; simpl; [reflexivity|].
  destruct (cond v); [reflexivity | exact IH].
Qed.

(** C7: for a list of proofs that is not empty, the method chosen at the
    head of [processMfaBeginAuth] is, with ["Auto"], the first proof that is
    the default one, and with any other preference the first proof whose
    method id equals it; in both cases the first proof of the list when
    there is no such proof. *)
Theorem selectMfa_methodSelect (MFA : string) (mfas : list userProof)
    (first : userProof) :
  head mfas = Some first ->
  let wanted :=
    if String.eqb MFA "Auto"
    then List.find up_IsDefault mfas
    else List.find (fun p => String.eqb (up_AuthMethodID p) MFA) mfas in
  selectMfa MFA mfas = Ok (default first wanted)
  /\ methodSelect mfas MFA = Some (default first wanted).
Proof.
  intros Hhd. destruct mfas as [|m ms]; [discriminate|].
  injection Hhd as ->.
  unfold selectMfa, methodSelect.
  destruct (String.eqb MFA "Auto"); rewrite rangeFirst_find; simpl.
  - destruct (if up_IsDefault first then Some first else List.find up_IsDefault ms);
      split; reflexivity.
  - destruct (if String.eqb (up_AuthMethodID first) MFA then Some first
              else List.find (fun p => String.eqb (up_AuthMethodID p) MFA) ms);
      split; reflexivity.
Qed.

Lemma selectMfa_methodSelect_witness :
  selectMfa "Auto" [proofSms; proofApp] = Ok proofApp
  /\ methodSelect [proofSms; proofApp] "Auto" = Some proofApp.
Proof.
  apply (selectMfa_methodSelect "Auto" [proofSms; proofApp] proofSms). reflexivity.
Defined.

Lemma selectMfa_fallback_example :
  selectMfa "PhoneAppOTP" [proofSms; proofApp] = Ok proofSms.
Proof. reflexivity. Qed.

End MethodSelection.

(** ** The SAMLRequest relay *)

Section SamlRequest.

Import strings.

Lemma squote_cons (post : string) : squote +:+ post = String "'"%char post.
Proof. reflexivity. Qed.

Lemma dquote_cons (post : string) :
  dquote +:+ post = String (Ascii.ascii_of_nat 34) post.
Proof. reflexivity. Qed.

(** The loop body yields a URL or panics; it has no error of its own. *)
Lemma segmentUrl_Ok_or_Panic (v : string) :
  (exists u, segmentUrl v = Ok u) \/ (exists msg, segmentUrl v = Panic msg).
Proof.
  unfold segmentUrl, slice_from.
  destruct (slice_Ok_or_Panic v (Index v "https://") (len v)) as [[r ->]|[msg ->]];
    simpl; [|eauto].
  apply slice_Ok_or_Panic.
Qed.

Lemma segmentUrl_unsliceable (v : string) :
  unsliceable v -> is_Panic (segmentUrl v) = true.
Proof.
  intros [_ [Hno | (pre & rest & -> & Hidx & Hs & Hd)]]; unfold segmentUrl.
  - apply Contains_false_Index in Hno. rewrite Hno.
    unfold slice_from.
    pose proof (slice_negative v (-1) (len v) ltac:(lia)) as Hp.
    destruct (slice v (-1) (len v)); try discriminate. reflexivity.
  - rewrite Hidx, slice_from_app. simpl.
    apply Contains_false_Index in Hs, Hd. rewrite Hs, Hd. simpl.
    apply slice_inverted. lia.
Qed.

Lemma scanSegments_unsliceable (l : list string) :
  (exists v, v ∈ l /\ unsliceable v) ->
  forall samlRequestUrl, is_Panic (scanSegments l samlRequestUrl) = true.
Proof.
  induction l as [|x l IH]; intros [v [Hin Hbad]] acc.
  - apply elem_of_nil in Hin. destruct Hin.
  - apply elem_of_cons in Hin. simpl.
    destruct Hin as [<- | Hin].
    + destruct Hbad as [Hc Hrest]. rewrite Hc.
      pose proof (segmentUrl_unsliceable v (conj Hc Hrest)) as Hp.
      destruct (segmentUrl v); try discriminate. reflexivity.
    + destruct (Contains x "SAMLRequest"); [|apply IH; eauto].
      destruct (segmentUrl_Ok_or_Panic x) as [[u ->]|[msg ->]]; simpl;
        [apply IH; eauto | reflexivity].
Qed.

(** C10: [processSAMLRequest] is not total.  A body with a segment between
    semicolons that contains [SAMLRequest] and either no [https://] or no
    quote of either kind from [https://] on makes a slice expression go out
    of range: the call panics, whatever the session and the outside world,
    performs no request, and does not return the error "unable to locate
    SAMLRequest URL". *)
Theorem processSAMLRequest_panics (w : World) (res : Response)
    (srcBodyStr : string) (s : Session) :
  (exists v, v ∈ Split srcBodyStr ";"%char /\ unsliceable v) ->
  exists msg, processSAMLRequest w res srcBodyStr s = (s, Panic msg).
Proof.
  intros H. unfold processSAMLRequest, bind, lift, samlRequestUrlOf.
  pose proof (scanSegments_unsliceable _ H "") as Hp.
  destruct (scanSegments (Split srcBodyStr ";"%char) ""); try discriminate.
  eauto.
Qed.

(** C4, as the code has it: the URL taken from a segment ends at the first
    single quote after [https://] when there is one, also when a double
    quote comes before it, and at the first double quote when there is no
    single quote after [https://]. *)
Theorem segmentUrl_single_quote_first (v pre url post : string) :
  Index v "https://" = len pre ->
  Contains url squote = false ->
  (v = pre +:+ url +:+ squote +:+ post -> segmentUrl v = Ok url)
  /\ (v = pre +:+ url +:+ dquote +:+ post ->
      Contains url dquote = false ->
      Contains post squote = false ->
      segmentUrl v = Ok url).
Proof.
  intros Hidx Hs. apply Contains_false_Index in Hs.
  pose proof (len_nonneg url) as Hlen.
  split.
  - intros ->. unfold segmentUrl.
    rewrite Hidx, slice_from_app. simpl.
    rewrite squote_cons. rewrite (Index_byte_app _ _ _ Hs).
    destruct (Z.eqb_spec (len url) (-1)); [lia|].
    rewrite <- squote_cons. apply slice_app_mid.
  - intros -> Hd Hp. apply Contains_false_Index in Hd, Hp.
    unfold segmentUrl. rewrite Hidx, slice_from_app. simpl.
    assert (Index (url +:+ dquote +:+ post) squote = -1) as ->.
    { apply Index_byte_app_none; [exact Hs|].
      rewrite dquote_cons. unfold squote. rewrite Index_byte_cons.
      simpl. unfold squote in Hp. rewrite Hp. reflexivity. }
    simpl. rewrite dquote_cons. rewrite (Index_byte_app _ _ _ Hd).
    rewrite <- dquote_cons. apply slice_app_mid.
Qed.

Lemma segmentUrl_single_quote_first_witness :
  segmentUrl bothQuotesSegment
  = Ok ("https://login.example/?SAMLRequest=abc" +:+ dquote +:+ " + ").
Proof.
  refine (proj1 (segmentUrl_single_quote_first bothQuotesSegment
                   ("window.location = " +:+ dquote)
                   ("https://login.example/?SAMLRequest=abc" +:+ dquote +:+ " + ")
                   "x'" _ _) _); reflexivity.
Defined.

(** C4, as stated, fails: in a segment where a double quote comes before the
    first single quote, both after [https://], the code does not stop at
    the nearer one. *)
Lemma segmentUrl_not_nearest_quote :
  Contains bothQuotesSegment "SAMLRequest" = true
  /\ nearestQuoteUrl bothQuotesSegment = Ok "https://login.example/?SAMLRequest=abc"
  /\ segmentUrl bothQuotesSegment
     = Ok ("https://login.example/?SAMLRequest=abc" +:+ dquote +:+ " + ")
  /\ segmentUrl bothQuotesSegment <> nearestQuoteUrl bothQuotesSegment.
Proof. repeat split. vm_compute. discriminate. Qed.

End SamlRequest.

(** ** The embedded configuration *)

Section EmbeddedConfig.

Import strings.

Variable w : World.

(** With the marker in the page, what follows it goes to the decoder. *)
Lemma unmarshalEmbeddedJson_marker (pre rest : string) :
  Index (pre +:+ "$Config=" +:+ rest) "$Config=" = len pre ->
  unmarshalEmbeddedJson w (pre +:+ "$Config=" +:+ rest)
  = match decodeConverged w rest with
    | inl e => Err e
    | inr v => Ok v
    end.
Proof.
  intros Hidx. unfold unmarshalEmbeddedJson. rewrite Hidx.
  change 8 with (len "$Config=").
  rewrite <- len_app.
  replace (pre +:+ "$Config=" +:+ rest) with ((pre +:+ "$Config=") +:+ rest).
  - rewrite slice_from_app. reflexivity.
  - clear Hidx. induction pre as [|c pre IH]; [reflexivity|].
    rewrite !app_cons, IH. reflexivity.
Qed.

(** The part of C3 that holds: when what follows the marker does not parse,
    the call fails with the decoder's error. *)
Lemma unmarshalEmbeddedJson_unparseable (pre rest : string) (e : error) :
  Index (pre +:+ "$Config=" +:+ rest) "$Config=" = len pre ->
  decodeConverged w rest = inl e ->
  unmarshalEmbeddedJson w (pre +:+ "$Config=" +:+ rest) = Err e.
Proof. intros Hidx He. rewrite unmarshalEmbeddedJson_marker, He; auto. Qed.

(** Without the marker [strings.Index] is -1 and [startIndex] is 7: a page
    shorter than that panics. *)
Lemma unmarshalEmbeddedJson_short (resBodyStr : string) :
  Contains resBodyStr "$Config=" = false ->
  len resBodyStr < 7 ->
  unmarshalEmbeddedJson w resBodyStr = Panic "slice bounds out of range".
Proof.
  intros Hc Hlen. apply Contains_false_Index in Hc.
  unfold unmarshalEmbeddedJson, slice_from, slice. rewrite Hc.
  change (-1 + 8) with 7.
  destruct (Z.leb_spec 7 (len resBodyStr)); [lia|reflexivity].
Qed.

(** Without the marker, a page of seven bytes or more has its bytes from
    offset 7 on decoded. *)
Lemma unmarshalEmbeddedJson_unrelated (resBodyStr : string) :
  Contains resBodyStr "$Config=" = false ->
  7 <= len resBodyStr ->
  exists rest,
    slice_from resBodyStr 7 = Ok rest
    /\ unmarshalEmbeddedJson w resBodyStr
       = match decodeConverged w rest with
         | inl e => Err e
         | inr v => Ok v
         end.
Proof.
  intros Hc Hlen. apply Contains_false_Index in Hc.
  unfold unmarshalEmbeddedJson. rewrite Hc.
  change (-1 + 8) with 7.
  unfold slice_from, slice.
  destruct (Z.leb_spec 7 (len resBodyStr)); [|lia].
  rewrite Z.leb_refl. simpl. eexists. split; reflexivity.
Qed.

End EmbeddedConfig.

(** C3 fails on the code.  [strayBody] has no [$Config=]; the call does not
    fail on it: the bytes from offset 7 on, a JSON object that has nothing to
    do with the marker, go to the decoder, and the call returns what the
    decoder made of them.  On the empty page the call panics. *)
Theorem unmarshalEmbeddedJson_marker_absent (w : World) :
  strings.Contains strayBody "$Config=" = false
  /\ strings.slice_from strayBody 7 = Ok strayJson
  /\ unmarshalEmbeddedJson w strayBody
     = match decodeConverged w strayJson with
       | inl e => Err e
       | inr v => Ok v
       end
  /\ is_Ok (unmarshalEmbeddedJson strayWorld strayBody) = true
  /\ strings.Contains "" "$Config=" = false
  /\ unmarshalEmbeddedJson w "" = Panic "slice bounds out of range".
Proof. repeat split. Qed.

Lemma processSAMLRequest_panics_witness :
  exists msg,
    processSAMLRequest strayWorld (pageAt "var a = 1;var b = 'SAMLRequest';")
      "var a = 1;var b = 'SAMLRequest';" freshSession
    = (freshSession, Panic msg).
Proof.
  apply (processSAMLRequest_panics strayWorld
           (pageAt "var a = 1;var b = 'SAMLRequest';")
           "var a = 1;var b = 'SAMLRequest';" freshSession).
  exists "var b = 'SAMLRequest'". split.
  - assert (strings.Split "var a = 1;var b = 'SAMLRequest';" ";"%char
            = ["var a = 1"; "var b = 'SAMLRequest'"; ""]) as -> by reflexivity.
    apply list_elem_of_further, list_elem_of_here.
  - split; [reflexivity | left; reflexivity].
Defined.

(** In a goal that runs a handler up to a call of the network, give the
    request and the session of the call the names they have in a hypothesis. *)
Ltac name_call req st :=
  match goal with
  | |- context [transport _ ?s0 ?r] => change r with req; change s0 with st
  end.

(** ** The KMSI handler and the redirect switch *)

Section Kmsi.

Variable w : World.
Variable res : Response.
Variable srcBodyStr : string.
Variable s : Session.

(** Nothing is sent, and the switch is not touched, when the page has no
    config or the request cannot be built. *)
Lemma processKmsiInterrupt_before_post (s' : Session) (r : outcome Response) :
  processKmsiInterrupt w res srcBodyStr s = (s', r) ->
  history s' = history s -> s' = s.
Proof.
  unfold processKmsiInterrupt, bind, lift, NewRequest, wrappedM, Do,
    DisableFollowRedirect, EnableFollowRedirect, ret.
  destruct (unmarshalEmbeddedJson w srcBodyStr) as [[cr|]| | |]; simpl;
    try (intros [= <- <-]; reflexivity).
  destruct (NewRequestError w "POST" (fullUrl res (URLPost cr))); simpl;
    try (intros [= <- <-]; reflexivity).
  destruct (transport w _ _); simpl; intros [= <- <-]; simpl; intros H;
    apply (f_equal length) in H; rewrite length_app in H; simpl in H; lia.
Qed.

(** The POST succeeds: the switch is on afterwards. *)
Lemma processKmsiInterrupt_posted (convergedResponse : ConvergedResponse)
    (res' : Response) :
  unmarshalEmbeddedJson w srcBodyStr = Ok (Some convergedResponse) ->
  NewRequestError w "POST" (fullUrl res (URLPost convergedResponse)) = None ->
  let req := kmsiPost res convergedResponse in
  transport w {| follow_redirect := false; history := history s |} req = inl res' ->
  processKmsiInterrupt w res srcBodyStr s
  = (after s true (Exchange false req (inl res')), Ok res').
Proof.
  intros Hcfg Hreq req Hnet.
  unfold processKmsiInterrupt, bind, lift, NewRequest, wrappedM, Do,
    DisableFollowRedirect, EnableFollowRedirect, ret.
  rewrite Hcfg. simpl. rewrite Hreq. simpl.
  name_call req {| follow_redirect := false; history := history s |}.
  rewrite Hnet. reflexivity.
Qed.

(** The POST fails: the handler returns at once, before
    [EnableFollowRedirect], and the switch stays off. *)
Lemma processKmsiInterrupt_post_error (convergedResponse : ConvergedResponse)
    (e : error) :
  unmarshalEmbeddedJson w srcBodyStr = Ok (Some convergedResponse) ->
  NewRequestError w "POST" (fullUrl res (URLPost convergedResponse)) = None ->
  let req := kmsiPost res convergedResponse in
  transport w {| follow_redirect := false; history := history s |} req = inr e ->
  processKmsiInterrupt w res srcBodyStr s
  = (after s false (Exchange false req (inr e)),
     Err (wrap e "error retrieving KMSI results")).
Proof.
  intros Hcfg Hreq req Hnet.
  unfold processKmsiInterrupt, bind, lift, NewRequest, wrappedM, Do,
    DisableFollowRedirect, EnableFollowRedirect, ret.
  rewrite Hcfg. simpl. rewrite Hreq. simpl.
  name_call req {| follow_redirect := false; history := history s |}.
  rewrite Hnet. reflexivity.
Qed.

End Kmsi.

(** C1 fails on the code.  A session that follows redirects enters the KMSI
    handler with a well-formed page; the POST to [url_post] meets a transport
    error; the handler returns that error and the session no longer follows
    redirects. *)
Theorem processKmsiInterrupt_leaves_redirect_off :
  follow_redirect freshSession = true
  /\ snd (processKmsiInterrupt kmsiOffline (pageAt kmsiBody) kmsiBody freshSession)
     = Err "error retrieving KMSI results: dial tcp: i/o timeout"
  /\ follow_redirect
       (fst (processKmsiInterrupt kmsiOffline (pageAt kmsiBody) kmsiBody freshSession))
     = false.
Proof.
  split; [reflexivity|].
  rewrite (processKmsiInterrupt_post_error kmsiOffline (pageAt kmsiBody) kmsiBody
             freshSession kmsiConfig "dial tcp: i/o timeout");
    [split; reflexivity | reflexivity ..].
Qed.

(** ** The primary-auth handler *)

Section PrimaryAuth.

Variable w : World.
Variable loginDetails : LoginDetails.
Variables loginUrl refererUrl : string.
Variable convergedResponse : ConvergedResponse.
Variable s : Session.

Lemma fatalErrorCode_false :
  fatalErrorCode convergedResponse = false
  <-> SErrorCode convergedResponse = "" \/ SErrorCode convergedResponse = "50058".
Proof.
  unfold fatalErrorCode.
  destruct (String.eqb_spec (SErrorCode convergedResponse) "") as [->|H1];
    [simpl; tauto|].
  destruct (String.eqb_spec (SErrorCode convergedResponse) "50058") as [->|H2];
    simpl; [tauto|].
  split; [discriminate | tauto].
Qed.

(** Past the test of the error code the handler builds the POST and, unless
    [http.NewRequest] refuses the URL, sends it. *)
Lemma processAuthentication_proceeds :
  fatalErrorCode convergedResponse = false ->
  processAuthentication w loginDetails loginUrl refererUrl convergedResponse s
  = match NewRequestError w "POST" loginUrl with
    | Some e => (s, Err (wrap e "error building login request"))
    | None =>
        let req := passwordPost loginUrl refererUrl loginDetails convergedResponse in
        let reply := transport w s req in
        (after s (follow_redirect s) (Exchange (follow_redirect s) req reply),
         match reply with
         | inl res => Ok res
         | inr e => Err (wrap e "error retrieving login results")
         end)
    end.
Proof.
  intros Hgate. unfold processAuthentication. rewrite Hgate.
  unfold bind, lift, NewRequest, wrappedM, Do.
  destruct (NewRequestError w "POST" loginUrl); simpl; [reflexivity|].
  name_call (passwordPost loginUrl refererUrl loginDetails convergedResponse) s.
  destruct (transport w s _); reflexivity.
Qed.

(** C5: the primary-auth handler goes on to build and send the password POST
    exactly when [s_error_code] is empty or ["50058"].  For every other code
    it fails with the login error of that code and the session is as before:
    no request was made.  With an empty code or ["50058"] the POST with the
    password form goes to the login URL (a URL that [http.NewRequest] refuses
    is the one thing that can still stop it, with an error of its own). *)
Theorem processAuthentication_gate :
  let run := processAuthentication w loginDetails loginUrl refererUrl
               convergedResponse s in
  let code := SErrorCode convergedResponse in
  let req := passwordPost loginUrl refererUrl loginDetails convergedResponse in
  (run = (s, Err (LoginError code)) <-> code <> "" /\ code <> "50058")
  /\ (code = "" \/ code = "50058" <->
      run = match NewRequestError w "POST" loginUrl with
            | Some e => (s, Err (wrap e "error building login request"))
            | None =>
                (after s (follow_redirect s)
                   (Exchange (follow_redirect s) req (transport w s req)),
                 match transport w s req with
                 | inl res => Ok res
                 | inr e => Err (wrap e "error retrieving login results")
                 end)
            end).
Proof.
  intros run code req.
  destruct (fatalErrorCode convergedResponse) eqn:Hgate.
  - assert (code <> "" /\ code <> "50058") as Hcode.
    { split; intros Heq;
        (assert (fatalErrorCode convergedResponse = false) as Hf
           by (apply fatalErrorCode_false; auto)); congruence. }
    assert (run = (s, Err (LoginError code))) as Hrun.
    { unfold run, processAuthentication. rewrite Hgate. reflexivity. }
    split; [tauto|]. split; [tauto|].
    rewrite Hrun. destruct (NewRequestError w "POST" loginUrl) as [e|].
    + intros He. discriminate He.
    + intros [= Hs _]. apply (f_equal history) in Hs. simpl in Hs.
      apply (f_equal length) in Hs. rewrite length_app in Hs. simpl in Hs. lia.
  - pose proof (processAuthentication_proceeds Hgate) as Hrun. fold run in Hrun.
    apply fatalErrorCode_false in Hgate. fold code in Hgate.
    split.
    + split; [|intros [H1 H2]; destruct Hgate; contradiction].
      rewrite Hrun. destruct (NewRequestError w "POST" loginUrl) as [e|].
      * intros He. discriminate He.
      * intros [= Hs _]. apply (f_equal history) in Hs. simpl in Hs.
        apply (f_equal length) in Hs. rewrite length_app in Hs. simpl in Hs. lia.
    + split; [intros _; exact Hrun | intros _; exact Hgate].
Qed.

End PrimaryAuth.

Lemma processAuthentication_gate_witness :
  processAuthentication online login "https://login.microsoftonline.com/common/login"
    "https://login.microsoftonline.com/" badPasswordConfig freshSession
  = (freshSession, Err (LoginError "50126")).
Proof.
  apply (proj2 (proj1 (processAuthentication_gate online login
                         "https://login.microsoftonline.com/common/login"
                         "https://login.microsoftonline.com/" badPasswordConfig
                         freshSession))).
  split; discriminate.
Defined.

(** ** The MFA poll loop *)

Section PollLoop.

Variable w : World.
Variable idpAccount : IDPAccount.
Variable loginDetails : LoginDetails.
Variable convergedResponse : ConvergedResponse.

Lemma mfaExchanges_app (method : string) (h1 h2 : list event) :
  mfaExchanges w method (h1 ++ h2)%list
  = (mfaExchanges w method h1 ++ mfaExchanges w method h2)%list.
Proof.
  induction h1 as [|e h1 IH]; [reflexivity|].
  destruct e as [f req reply| | |]; simpl; try exact IH.
  destruct (ReqBody req); try exact IH.
  destruct (String.eqb (rq_Method r) method); simpl; [f_equal|]; exact IH.
Qed.

Lemma chained_lookup (xs : list (mfaRequest * option mfaResponse)) :
  forall prev,
    chained prev xs ->
    (forall req reply, xs !! 0%nat = Some (req, reply) -> sentTriple req = prev)
    /\ (forall i req mfaResp next reply,
          xs !! i = Some (req, Some mfaResp) ->
          xs !! S i = Some (next, reply) ->
          sentTriple next = receivedTriple mfaResp).
Proof.
  induction xs as [|[req0 reply0] rest IH]; intros prev Hc.
  - split; intros; discriminate.
  - destruct Hc as [Hsent Hrest]. split.
    + intros req reply [= <- <-]. exact Hsent.
    + intros i req mfaResp next reply Hi Hnext.
      destruct reply0 as [resp0|]; [|subst rest; discriminate].
      destruct (IH _ Hrest) as [Hfirst Hlater].
      destruct i as [|i].
      * injection Hi as <- <-. exact (Hfirst _ _ Hnext).
      * exact (Hlater i req mfaResp next reply Hi Hnext).
Qed.

(** The code or the notice before the request: no exchange, same tokens. *)
Lemma withVerifyCode_run (mfaReq : mfaRequest) (s : Session) :
  exists evs mfaReq',
    withVerifyCode w loginDetails mfaReq s
    = ({| follow_redirect := follow_redirect s; history := history s ++ evs |},
       Ok mfaReq')
    /\ (forall method, mfaExchanges w method evs = [])
    /\ sentTriple mfaReq' = sentTriple mfaReq
    /\ rq_Method mfaReq' = rq_Method mfaReq.
Proof.
  unfold withVerifyCode.
  destruct (_ || _).
  - destruct (String.eqb (MFAToken loginDetails) "").
    + exists [Prompted "Enter verification code"
                (StringRequired w s "Enter verification code")]. eexists.
      split; [reflexivity|]. repeat split.
    + exists []. eexists. unfold bind, ret. rewrite app_nil_r.
      split; [destruct s; reflexivity|]. repeat split.
  - exists []. eexists. unfold ret. rewrite app_nil_r.
    split; [destruct s; reflexivity|]. repeat split.
Qed.

Lemma approvalNotice_run (mfaReq : mfaRequest) (i : Z) (mfaResp : mfaResponse)
    (s : Session) :
  exists evs,
    approvalNotice mfaReq i mfaResp s
    = ({| follow_redirect := follow_redirect s; history := history s ++ evs |}, Ok tt)
    /\ (forall method, mfaExchanges w method evs = []).
Proof.
  unfold approvalNotice.
  destruct (_ && _).
  - destruct (rs_Entropy mfaResp =? 0); eexists [_]; split; reflexivity.
  - exists []. unfold ret. rewrite app_nil_r. split; [destruct s|]; reflexivity.
Qed.

(** One EndAuth call: at most one exchange, which carries the request, and a
    response that is returned is the one the reply decodes to. *)
Lemma processMfaEndAuth_run (mfaReq : mfaRequest) (s : Session) :
  rq_Method mfaReq = "EndAuth" ->
  exists evs,
    fst (processMfaEndAuth w mfaReq convergedResponse s)
    = {| follow_redirect := follow_redirect s; history := history s ++ evs |}
    /\ mfaExchanges w "BeginAuth" evs = []
    /\ match snd (processMfaEndAuth w mfaReq convergedResponse s) with
       | Ok mfaResp => mfaExchanges w "EndAuth" evs = [(mfaReq, Some mfaResp)]
       | Err _ => mfaExchanges w "EndAuth" evs = []
                  \/ mfaExchanges w "EndAuth" evs = [(mfaReq, None)]
       | _ => False
       end.
Proof.
  intros Hm. unfold processMfaEndAuth, bind, lift, NewRequest, wrappedM, Do.
  destruct (NewRequestError w "POST" (URLEndAuth convergedResponse)); simpl.
  - exists []. rewrite app_nil_r. split; [destruct s; reflexivity|]. auto.
  - match goal with
    | |- context [transport w s ?r] => set (req := r)
    end.
    exists [Exchange (follow_redirect s) req (transport w s req)].
    destruct (transport w s req) as [res|e] eqn:Hnet; simpl.
    + unfold fail, ret, lift.
      destruct (decodeMfa w (Body res)) as [e|mfaResp] eqn:Hdec; simpl;
        rewrite Hm; simpl; rewrite ?Hdec; auto.
    + rewrite Hm. simpl. auto.
Qed.

(** The loop keeps the chain: its first request carries the tokens of the
    response it starts from, and each later one those of the response before. *)
Lemma pollLoop_chained (n : nat) :
  forall (i : Z) (mfaResp : mfaResponse) (s : Session),
  exists evs,
    history (fst (pollLoop w loginDetails n i mfaResp convergedResponse s))
    = (history s ++ evs)%list
    /\ mfaExchanges w "BeginAuth" evs = []
    /\ chained (receivedTriple mfaResp) (mfaExchanges w "EndAuth" evs).
Proof.
  induction n as [|n IH]; intros i mfaResp s.
  - exists []. simpl. rewrite app_nil_r. auto.
  - simpl. unfold bind at 1.
    destruct (withVerifyCode_run (endAuthRequest mfaResp) s)
      as (evs1 & mfaReq & -> & Hno1 & Htriple & Hmethod).
    unfold bind at 1.
    set (s1 := {| follow_redirect := follow_redirect s;
                  history := history s ++ evs1 |}).
    destruct (approvalNotice_run mfaReq i mfaResp s1) as (evs2 & -> & Hno2).
    set (s2 := {| follow_redirect := follow_redirect s1;
                  history := history s1 ++ evs2 |}).
    destruct (processMfaEndAuth_run mfaReq s2 Hmethod) as (evs3 & Hs3 & Hb3 & Hr3).
    unfold bind, wrappedM.
    destruct (processMfaEndAuth w mfaReq convergedResponse s2) as [s3 r3].
    simpl in Hs3, Hr3. subst s3.
    assert (sentTriple mfaReq = receivedTriple mfaResp) as Hsent
      by (rewrite Htriple; reflexivity).
    destruct r3 as [mfaResp'|e| |]; simpl; try contradiction.
    + set (s3 := {| follow_redirect := follow_redirect s2;
                    history := history s2 ++ evs3 |}).
      assert (forall tail,
                 chained (receivedTriple mfaResp') (mfaExchanges w "EndAuth" tail) ->
                 mfaExchanges w "BeginAuth" tail = [] ->
                 mfaExchanges w "BeginAuth" (evs1 ++ evs2 ++ evs3 ++ tail)%list = []
                 /\ chained (receivedTriple mfaResp)
                      (mfaExchanges w "EndAuth" (evs1 ++ evs2 ++ evs3 ++ tail)%list))
        as Hglue.
      { intros tail Hc Hb. rewrite !mfaExchanges_app, !Hno1, !Hno2, Hb3, Hb, Hr3.
        simpl. auto. }
      destruct (negb (rs_ErrCode mfaResp' =? 0)); [|destruct (rs_Success mfaResp');
        [|destruct (negb (rs_Retry mfaResp'))]].
      * exists (evs1 ++ evs2 ++ evs3 ++ [])%list. simpl.
        rewrite app_nil_r, <- !app_assoc.
        split; [reflexivity|]. rewrite <- (app_nil_r evs3). apply Hglue; simpl; auto.
      * exists (evs1 ++ evs2 ++ evs3 ++ [])%list. simpl.
        rewrite app_nil_r, <- !app_assoc.
        split; [reflexivity|]. rewrite <- (app_nil_r evs3). apply Hglue; simpl; auto.
      * exists (evs1 ++ evs2 ++ evs3 ++ [])%list. simpl.
        rewrite app_nil_r, <- !app_assoc.
        split; [reflexivity|]. rewrite <- (app_nil_r evs3). apply Hglue; simpl; auto.
      * match goal with
        | |- context [pollLoop w loginDetails n ?j mfaResp' convergedResponse ?st] =>
            destruct (IH j mfaResp' st) as (evs4 & Hh4 & Hb4 & Hc4); rewrite Hh4
        end.
        simpl.
        match goal with
        | |- context [Slept ?x] => exists (evs1 ++ evs2 ++ evs3 ++ Slept x :: evs4)%list
        end.
        rewrite <- !app_assoc. split; [reflexivity|].
        apply Hglue; simpl; assumption.
    + exists (evs1 ++ evs2 ++ evs3)%list. simpl. rewrite <- !app_assoc.
      split; [reflexivity|].
      rewrite !mfaExchanges_app, !Hno1, !Hno2, Hb3. simpl.
      split; [reflexivity|].
      destruct Hr3 as [-> | ->]; simpl; auto.
Qed.

End PollLoop.

Section MfaDriver.

Variable w : World.
Variable idpAccount : IDPAccount.
Variable loginDetails : LoginDetails.
Variable convergedResponse : ConvergedResponse.

Lemma processMfaBeginAuth_run (mfas : list userProof) (s : Session) :
  exists evs,
    history (fst (processMfaBeginAuth w idpAccount mfas convergedResponse s))
    = (history s ++ evs)%list
    /\ mfaExchanges w "EndAuth" evs = []
    /\ match snd (processMfaBeginAuth w idpAccount mfas convergedResponse s) with
       | Ok mfaResp =>
           exists mfaReq, mfaExchanges w "BeginAuth" evs = [(mfaReq, Some mfaResp)]
       | _ => True
       end.
Proof.
  unfold processMfaBeginAuth, bind, lift, NewRequest, wrappedM, Do.
  destruct (selectMfa (acc_MFA idpAccount) mfas) as [mfa|e|msg|]; simpl;
    try solve [exists []; rewrite app_nil_r; auto].
  destruct (NewRequestError w "POST" (URLBeginAuth convergedResponse)); simpl;
    try solve [exists []; rewrite app_nil_r; auto].
  match goal with
  | |- context [transport w s ?r] => set (req := r)
  end.
  exists [Exchange (follow_redirect s) req (transport w s req)].
  destruct (transport w s req) as [res|e] eqn:Hnet; simpl; [|auto].
  unfold fail, ret, lift.
  destruct (decodeMfa w (Body res)) as [e|mfaResp] eqn:Hdec; simpl; [auto|].
  destruct (negb (rs_Success mfaResp)); simpl; [auto|].
  subst req. simpl. eauto.
Qed.

Lemma processMfaAuth_run (mfaResp : mfaResponse) (s : Session) :
  exists evs,
    history (fst (processMfaAuth w mfaResp convergedResponse s))
    = (history s ++ evs)%list
    /\ forall method, mfaExchanges w method evs = [].
Proof.
  unfold processMfaAuth, bind, lift, NewRequest, wrappedM, Do.
  destruct (NewRequestError w "POST" (URLPost convergedResponse)); simpl.
  - exists []. rewrite app_nil_r. auto.
  - match goal with
    | |- context [transport w s ?r] =>
        exists [Exchange (follow_redirect s) r (transport w s r)]
    end.
    destruct (transport w s _); simpl; split; reflexivity.
Qed.

(** What [processMfa] adds to the history: the EndAuth requests are chained
    from the response of the BeginAuth request. *)
Lemma processMfa_run (n : nat) (mfas : list userProof) (s : Session) :
  exists evs,
    history (fst (processMfa w idpAccount loginDetails n mfas convergedResponse s))
    = (history s ++ evs)%list
    /\ (mfaExchanges w "EndAuth" evs = []
        \/ exists mfaReq mfaResp,
             mfaExchanges w "BeginAuth" evs = [(mfaReq, Some mfaResp)]
             /\ chained (receivedTriple mfaResp) (mfaExchanges w "EndAuth" evs)).
Proof.
  unfold processMfa.
  destruct (length mfas =? 0)%nat.
  { exists []. simpl. rewrite app_nil_r. auto. }
  unfold bind at 1. unfold wrappedM at 1.
  destruct (processMfaBeginAuth_run mfas s) as (evs1 & Hh1 & He1 & Hb1).
  destruct (processMfaBeginAuth w idpAccount mfas convergedResponse s) as [s1 r1].
  simpl in Hh1, Hb1.
  destruct r1 as [mfaResp|e|msg|]; simpl;
    try (exists evs1; split; [exact Hh1 | left; exact He1]).
  destruct Hb1 as [mfaReq Hb1].
  unfold bind at 1.
  destruct (pollLoop_chained w loginDetails convergedResponse n 0 mfaResp s1)
    as (evs2 & Hh2 & Hb2 & Hc2).
  destruct (pollLoop w loginDetails n 0 mfaResp convergedResponse s1) as [s2 r2].
  simpl in Hh2.
  assert (mfaExchanges w "BeginAuth" (evs1 ++ evs2)%list = [(mfaReq, Some mfaResp)]
          /\ chained (receivedTriple mfaResp)
               (mfaExchanges w "EndAuth" (evs1 ++ evs2)%list)) as [Hb Hc].
  { rewrite !mfaExchanges_app, Hb1, Hb2, He1. simpl. auto. }
  destruct r2 as [mfaResp'|e|msg|]; simpl;
    try (exists (evs1 ++ evs2)%list; rewrite Hh2, Hh1, <- app_assoc;
         split; [reflexivity | right; eauto]).
  destruct (negb (rs_Success mfaResp')); simpl;
    try (exists (evs1 ++ evs2)%list; rewrite Hh2, Hh1, <- app_assoc;
         split; [reflexivity | right; eauto]).
  unfold wrappedM.
  destruct (processMfaAuth_run mfaResp' s2) as (evs3 & Hh3 & Hno3).
  destruct (processMfaAuth w mfaResp' convergedResponse s2) as [s3 r3].
  simpl in Hh3. simpl.
  exists (evs1 ++ evs2 ++ evs3)%list.
  rewrite Hh3, Hh2, Hh1, <- !app_assoc. split; [reflexivity|].
  right. exists mfaReq, mfaResp.
  rewrite !app_assoc, !(mfaExchanges_app _ _ _ evs3), !Hno3, !app_nil_r. auto.
Qed.

(** C8: in the history of a run of [processMfa], the triple (Ctx, FlowToken,
    SessionId) of the first EndAuth request is the triple of the BeginAuth
    response, and the triple of every later EndAuth request is the triple of
    the response to the EndAuth request before it. *)
Theorem processMfa_threads_tokens (n : nat) (mfas : list userProof) (s : Session) :
  let s' := fst (processMfa w idpAccount loginDetails n mfas convergedResponse s) in
  let evs := drop (length (history s)) (history s') in
  let polls := mfaExchanges w "EndAuth" evs in
  (forall mfaReq mfaResp req reply,
      mfaExchanges w "BeginAuth" evs !! 0%nat = Some (mfaReq, Some mfaResp) ->
      polls !! 0%nat = Some (req, reply) ->
      sentTriple req = receivedTriple mfaResp)
  /\ (forall i req mfaResp next reply,
        polls !! i = Some (req, Some mfaResp) ->
        polls !! S i = Some (next, reply) ->
        sentTriple next = receivedTriple mfaResp).
Proof.
  intros s' evs polls.
  destruct (processMfa_run n mfas s) as (evs' & Hh & Hcases).
  assert (evs = evs') as Hevs
    by (unfold evs, s'; rewrite Hh; apply drop_app_length).
  unfold polls. rewrite Hevs. clear Hevs polls evs.
  destruct Hcases as [Hnone | (mfaReq0 & mfaResp0 & Hb & Hc)].
  - rewrite Hnone. split; intros; discriminate.
  - destruct (chained_lookup _ _ Hc) as [Hfirst Hlater]. split.
    + intros mfaReq mfaResp req reply Hbegin Hpoll.
      rewrite Hb in Hbegin. injection Hbegin as _ <-.
      exact (Hfirst _ _ Hpoll).
    + exact Hlater.
Qed.

End MfaDriver.

Lemma processMfa_threads_tokens_witness :
  let polls :=
    mfaExchanges tfaWorld "EndAuth"
      (drop (length (history freshSession))
         (history (fst (processMfa tfaWorld account login 5
                          (ArrUserProofs tfaConfig) tfaConfig freshSession)))) in
  exists req next reply,
    polls !! 0%nat = Some (req, Some (mfaReply false true "c2" "f2" "s2"))
    /\ polls !! 1%nat = Some (next, reply)
    /\ sentTriple next = receivedTriple (mfaReply false true "c2" "f2" "s2").
Proof.
  eexists _, _, _. split; [reflexivity|]. split; [reflexivity|].
  eapply (proj2 (processMfa_threads_tokens tfaWorld account login tfaConfig 5
                   (ArrUserProofs tfaConfig) freshSession) 0%nat);
    reflexivity.
Defined.

(** ** Where request targets are resolved *)

Section UrlResolution.

Variable w : World.
Variable loginDetails : LoginDetails.
Variable s : Session.

(** [http.NewRequest] accepts every URL. *)
Hypothesis requests_build : forall method url, NewRequestError w method url = None.

Lemma fullUrl_resolve (res : Response) (urlFragment : string) :
  fullUrl res urlFragment = resolve res urlFragment.
Proof.
  unfold fullUrl, resolve.
  destruct urlFragment as [|c rest]; [reflexivity|].
  simpl. destruct (Ascii.eqb_spec "/"%char c) as [<-|Hne]; [reflexivity|].
  destruct c as [[] [] [] [] [] [] [] []]; try reflexivity; congruence.
Qed.

Lemma fullUrl_absolute (res : Response) (urlFragment : string) :
  strings.HasPrefix urlFragment "/" = false -> fullUrl res urlFragment = urlFragment.
Proof. unfold fullUrl. intros ->. reflexivity. Qed.

Lemma targetsAdded_one (follow f : bool) (req : Request)
    (reply : Response + error) :
  targetsAdded s (after s follow (Exchange f req reply)) = [Target req].
Proof.
  unfold targetsAdded, after. simpl.
  rewrite drop_app_length. reflexivity.
Qed.

(** The KMSI POST goes to the resolved [url_post]. *)
Lemma processKmsiInterrupt_target (res : Response) (srcBodyStr : string)
    (convergedResponse : ConvergedResponse) :
  unmarshalEmbeddedJson w srcBodyStr = Ok (Some convergedResponse) ->
  targetsAdded s (fst (processKmsiInterrupt w res srcBodyStr s))
  = [fullUrl res (URLPost convergedResponse)].
Proof.
  intros Hcfg.
  destruct (transport w {| follow_redirect := false; history := history s |}
              (kmsiPost res convergedResponse)) as [res'|e] eqn:Hnet.
  - rewrite (processKmsiInterrupt_posted w res srcBodyStr s convergedResponse res'
               Hcfg (requests_build _ _) Hnet).
    cbn [fst]. rewrite targetsAdded_one. reflexivity.
  - rewrite (processKmsiInterrupt_post_error w res srcBodyStr s convergedResponse e
               Hcfg (requests_build _ _) Hnet).
    cbn [fst]. rewrite targetsAdded_one. reflexivity.
Qed.

(** The password POST goes to the URL it is given, which
    [processConvergedSignIn] resolves from [url_post]. *)
Lemma processAuthentication_target (loginUrl refererUrl : string)
    (convergedResponse : ConvergedResponse) :
  fatalErrorCode convergedResponse = false ->
  targetsAdded s
    (fst (processAuthentication w loginDetails loginUrl refererUrl convergedResponse s))
  = [loginUrl].
Proof.
  intros Hgate.
  rewrite (processAuthentication_proceeds w loginDetails loginUrl refererUrl
             convergedResponse s Hgate), requests_build.
  cbn [fst]. rewrite targetsAdded_one. reflexivity.
Qed.

Lemma processConvergedSignIn_password (res : Response) (srcBodyStr : string)
    (convergedResponse : ConvergedResponse) (s1 : Session)
    (getCredentialTypeResponse : GetCredentialTypeResponse) :
  unmarshalEmbeddedJson w srcBodyStr = Ok (Some convergedResponse) ->
  requestGetCredentialType w loginDetails (UrlString (RequestURL res))
    convergedResponse s
  = (s1, Ok getCredentialTypeResponse) ->
  FederationRedirectURL getCredentialTypeResponse = "" ->
  processConvergedSignIn w loginDetails res srcBodyStr s
  = processAuthentication w loginDetails (fullUrl res (URLPost convergedResponse))
      (UrlString (RequestURL res)) convergedResponse s1.
Proof.
  intros Hcfg Hct Hfed.
  unfold processConvergedSignIn, bind at 1, lift. rewrite Hcfg. simpl.
  unfold bind at 1. simpl. unfold bind, wrappedM. rewrite Hct. simpl.
  rewrite Hfed. reflexivity.
Qed.

(** The ADFS form goes to its action, resolved against the ADFS page. *)
Lemma processADFSAuthentication_target (federationUrl : string) (res : Response)
    (formValues : Values) (formSubmitUrl : string) :
  transport w s {| Method := "GET"; Target := federationUrl; Header := [];
                   ReqBody := NoBody |} = inl res ->
  reSubmitFormData w (Body res) = Ok (formValues, formSubmitUrl) ->
  formSubmitUrl <> "" ->
  targetsAdded s (fst (processADFSAuthentication w loginDetails federationUrl s))
  = [federationUrl; fullUrl res formSubmitUrl].
Proof.
  intros Hget Hform Hne.
  unfold processADFSAuthentication, bind at 1, wrappedM, Get, Do.
  rewrite Hget. simpl. unfold bind at 1, lift. rewrite Hform. simpl.
  destruct (String.eqb_spec formSubmitUrl ""); [contradiction|].
  unfold bind, lift, NewRequest. rewrite requests_build. simpl.
  unfold targetsAdded.
  match goal with
  | |- context [transport w ?st ?r] => destruct (transport w st r)
  end; simpl; rewrite <- app_assoc, drop_app_length; reflexivity.
Qed.

(** The final POST of the MFA driver goes to [url_post] as the page gives it. *)
Lemma processMfaAuth_target (mfaResp : mfaResponse)
    (convergedResponse : ConvergedResponse) :
  targetsAdded s (fst (processMfaAuth w mfaResp convergedResponse s))
  = [URLPost convergedResponse].
Proof.
  unfold processMfaAuth, bind, lift, NewRequest, wrappedM, Do.
  rewrite requests_build. simpl. unfold targetsAdded.
  match goal with
  | |- context [transport w ?st ?r] => destruct (transport w st r)
  end; simpl; rewrite drop_app_length; reflexivity.
Qed.

(** The hidden form goes to its action as the page gives it. *)
Lemma reProcessForm_target (srcBodyStr : string) (formValues : Values)
    (formSubmitUrl : string) :
  reSubmitFormData w srcBodyStr = Ok (formValues, formSubmitUrl) ->
  formSubmitUrl <> "" ->
  targetsAdded s (fst (reProcessForm w srcBodyStr s)) = [formSubmitUrl].
Proof.
  intros Hform Hne.
  unfold reProcessForm, bind at 1, lift. rewrite Hform. simpl.
  destruct (String.eqb_spec formSubmitUrl ""); [contradiction|].
  unfold bind, lift, NewRequest, wrappedM, Do. rewrite requests_build. simpl.
  unfold targetsAdded.
  match goal with
  | |- context [transport w ?st ?r] => destruct (transport w st r)
  end; simpl; rewrite drop_app_length; reflexivity.
Qed.

(** C6, as the code has it: [fullUrl] is the resolution rule, and the
    handlers apply it to the [url_post] of the password POST and of the KMSI
    POST and to the action of the ADFS form.  The final POST of the MFA driver
    and the re-POST of the hidden form take their target as the page gives
    it, which is what the rule gives for a fragment that does not begin with
    [/]. *)
Theorem fullUrl_where_applied (res : Response) (srcBodyStr : string)
    (convergedResponse : ConvergedResponse) :
  unmarshalEmbeddedJson w srcBodyStr = Ok (Some convergedResponse) ->
  (forall current fragment, fullUrl current fragment = resolve current fragment)
  /\ targetsAdded s (fst (processKmsiInterrupt w res srcBodyStr s))
     = [resolve res (URLPost convergedResponse)]
  /\ (forall s1 getCredentialTypeResponse,
        requestGetCredentialType w loginDetails (UrlString (RequestURL res))
          convergedResponse s
        = (s1, Ok getCredentialTypeResponse) ->
        FederationRedirectURL getCredentialTypeResponse = "" ->
        fatalErrorCode convergedResponse = false ->
        processConvergedSignIn w loginDetails res srcBodyStr s
        = processAuthentication w loginDetails
            (resolve res (URLPost convergedResponse))
            (UrlString (RequestURL res)) convergedResponse s1)
  /\ (forall federationUrl adfs formValues formSubmitUrl,
        transport w s {| Method := "GET"; Target := federationUrl; Header := [];
                         ReqBody := NoBody |} = inl adfs ->
        reSubmitFormData w (Body adfs) = Ok (formValues, formSubmitUrl) ->
        formSubmitUrl <> "" ->
        targetsAdded s (fst (processADFSAuthentication w loginDetails federationUrl s))
        = [federationUrl; resolve adfs formSubmitUrl])
  /\ (forall mfaResp,
        targetsAdded s (fst (processMfaAuth w mfaResp convergedResponse s))
        = [URLPost convergedResponse]
        /\ (strings.HasPrefix (URLPost convergedResponse) "/" = false ->
            URLPost convergedResponse = resolve res (URLPost convergedResponse)))
  /\ (forall formValues formSubmitUrl,
        reSubmitFormData w (Body res) = Ok (formValues, formSubmitUrl) ->
        formSubmitUrl <> "" ->
        targetsAdded s (fst (reProcessForm w (Body res) s)) = [formSubmitUrl]
        /\ (strings.HasPrefix formSubmitUrl "/" = false ->
            formSubmitUrl = resolve res formSubmitUrl)).
Proof.
  intros Hcfg.
  split; [intros; apply fullUrl_resolve|].
  split; [rewrite <- fullUrl_resolve; eapply processKmsiInterrupt_target; eassumption|].
  split.
  { intros s1 ct Hct Hfed _. rewrite <- fullUrl_resolve.
    eapply processConvergedSignIn_password; eassumption. }
  split.
  { intros fed adfs fv action Hget Hform Hne. rewrite <- fullUrl_resolve.
    eapply processADFSAuthentication_target; eassumption. }
  split.
  { intros mfaResp. split; [apply processMfaAuth_target|].
    intros Habs. rewrite <- fullUrl_resolve, fullUrl_absolute; auto. }
  intros fv action Hform Hne. split; [eapply reProcessForm_target; eassumption|].
  intros Habs. rewrite <- fullUrl_resolve, fullUrl_absolute; auto.
Qed.

End UrlResolution.

Lemma fullUrl_where_applied_witness :
  targetsAdded freshSession
    (fst (processKmsiInterrupt kmsiOnline (pageAt kmsiBody) kmsiBody freshSession))
  = ["https://login.microsoftonline.com/kmsi"].
Proof.
  refine (proj1 (proj2 (fullUrl_where_applied kmsiOnline login freshSession _
                          (pageAt kmsiBody) kmsiBody kmsiConfig _)));
    reflexivity.
Defined.

(** C6, as stated, fails: the TFA page gives [urlPost] as a path; the final
    POST of the MFA driver goes to that path, not to the URL the rule makes
    of it.  The same holds for the action of a hidden form. *)
Lemma unresolved_targets :
  URLPost tfaConfig = "/common/SAS/ProcessAuth"
  /\ last (sentTargets
             (history (fst (processConvergedTFA tfaWorld account login 5
                              (pageAt tfaBody) tfaBody freshSession))))
     = Some "/common/SAS/ProcessAuth"
  /\ resolve (pageAt tfaBody) (URLPost tfaConfig)
     = "https://login.microsoftonline.com/common/SAS/ProcessAuth"
  /\ sentTargets (history (fst (reProcessForm relayWorld relayFormBody freshSession)))
     = ["/saml"]
  /\ resolve (pageAt relayFormBody) "/saml" = "https://login.microsoftonline.com/saml".
Proof. repeat split. Qed.

(** ** The loop of [Authenticate] *)

Section Orchestrator.

Variable w : World.
Variable idpAccount : IDPAccount.
Variable loginDetails : LoginDetails.


(** A ProofUp page without a skip URL comes back in the same way: the error
    the code wraps there is nil. *)
Lemma processConvergedProofUpRedirect_no_skip (res : Response)
    (srcBodyStr : string) (convergedResponse : ConvergedResponse) (s : Session) :
  unmarshalEmbeddedJson w srcBodyStr = Ok (Some convergedResponse) ->
  fatalErrorCode convergedResponse = false ->
  URLSkipMfaRegistration convergedResponse = "" ->
  processConvergedProofUpRedirect w res srcBodyStr s = (s, Ok res).
Proof.
  intros Hcfg Hgate Hskip.
  unfold processConvergedProofUpRedirect, bind, lift. rewrite Hcfg. simpl.
  rewrite Hgate, Hskip. reflexivity.
Qed.

Lemma afterHandler_leave (m : M Response) (s s' : Session) (e : exit) :
  afterHandler m s = (s', Ok (Leave e)) -> exists err, e = HandlerError err.
Proof.
  unfold afterHandler. destruct (m s) as [s1 [res|err|msg|]]; intros [= _ H];
    try discriminate; eauto.
Qed.

(** An iteration that leaves the loop leaves it in the way that goes with
    the page. *)
Lemma authStep_leave (n : nat) (res : Response) (s s' : Session) (e : exit) :
  authStep w idpAccount loginDetails n res s = (s', Ok (Leave e)) ->
  exitFrom w e res.
Proof.
  unfold authStep. destruct (classify (Body res)) eqn:Hkind;
    try (intros H; apply afterHandler_leave in H as [err ->]; simpl;
         rewrite Hkind; discriminate).
  - destruct (getSamlAssertion w (Body res)) as [a| | |] eqn:Hsaml; simpl.
    + destruct (String.eqb_spec a "") as [->|Hne]; simpl.
      * intros H; apply afterHandler_leave in H as [err ->]; simpl.
        rewrite Hkind. discriminate.
      * unfold ret. intros [= _ <-]. simpl. auto.
    + intros H; apply afterHandler_leave in H as [err ->]; simpl.
      rewrite Hkind. discriminate.
    + intros H; apply afterHandler_leave in H as [err ->]; simpl.
      rewrite Hkind. discriminate.
    + intros H; apply afterHandler_leave in H as [err ->]; simpl.
      rewrite Hkind. discriminate.
  - unfold unknownStep.
    destruct (strings.Contains (Body res) "$Config").
    + destruct (unmarshalEmbeddedJson w (Body res)) as [[c|]|err|msg|]; simpl;
        intros [= _ <-]; exact Hkind.
    + intros [= _ <-]. exact Hkind.
Qed.


(** Whenever the loop has ended, an iteration left it. *)
Lemma AuthProcessor_ended (n : nat) :
  forall (res : Response) (s s' : Session) (e : exit),
    AuthProcessor w idpAccount loginDetails n res s = (s', Ok e) ->
    exists m last s1,
      authStep w idpAccount loginDetails m last s1 = (s', Ok (Leave e)).
Proof.
  induction n as [|n IH]; intros res s s' e; simpl.
  - discriminate.
  - unfold bind.
    destruct (authStep w idpAccount loginDetails n res s) as [s1 [t|err|msg|]] eqn:Hstep;
      try discriminate.
    destruct t as [res'|e'].
    + apply IH.
    + unfold ret. intros [= <- <-]. eauto.
Qed.


(** A page the handler hands back unchanged, with the session unchanged,
    keeps the loop going for as long as one cares to count. *)
Lemma AuthProcessor_stuck (res : Response) (s : Session) :
  (forall n, authStep w idpAccount loginDetails n res s = (s, Ok (Next res))) ->
  forall n, AuthProcessor w idpAccount loginDetails n res s = (s, Unfinished).
Proof.
  intros Hstep n. induction n as [|n IH]; [reflexivity|].
  simpl. unfold bind. rewrite Hstep. exact IH.
Qed.










End Orchestrator.





(** * Further properties of the code *)

(** ** What the handlers leave of the session *)

Section Frame.

Variable w : World.
Variable idpAccount : IDPAccount.
Variable loginDetails : LoginDetails.

(** A relation on sessions that holds from a session to itself, composes,
    and holds across the recording of one more event, a question to the user
    perhaps excepted. *)
Variable R : Session -> Session -> Prop.
Hypothesis R_refl : forall s, R s s.
Hypothesis R_trans : forall s1 s2 s3, R s1 s2 -> R s2 s3 -> R s1 s3.
Hypothesis R_event :
  forall s e, isPrompt e = false ->
              R s {| follow_redirect := follow_redirect s;
                     history := history s ++ [e] |}.

(** Either the relation holds across a question to the user as well, or the
    MFA token was supplied. *)
Hypothesis R_prompt :
  MFAToken loginDetails <> ""
  \/ forall s e, R s {| follow_redirect := follow_redirect s;
                        history := history s ++ [e] |}.

Lemma respects_lift {A} (o : outcome A) : respects R (lift o).
Proof. intros s. apply R_refl. Qed.

Lemma respects_ret {A} (a : A) : respects R (ret a).
Proof. intros s. apply R_refl. Qed.

Lemma respects_fail {A} (e : error) : respects R (@fail A e).
Proof. intros s. apply R_refl. Qed.

Lemma respects_bind {A B} (m : M A) (k : A -> M B) :
  respects R m -> (forall a, respects R (k a)) -> respects R (bind m k).
Proof.
  intros Hm Hk s. unfold bind. specialize (Hm s).
  destruct (m s) as [s1 [a|e|msg|]]; simpl in *; try exact Hm.
  eapply R_trans; [exact Hm | apply Hk].
Qed.

Lemma respects_wrappedM {A} (m : M A) (msg : string) :
  respects R m -> respects R (wrappedM m msg).
Proof.
  intros Hm s. unfold wrappedM. specialize (Hm s).
  destruct (m s) as [s1 o]. exact Hm.
Qed.

Lemma respects_Do (req : Request) : respects R (Do w req).
Proof. intros s. unfold Do. apply R_event. reflexivity. Qed.

Lemma respects_Get (url : string) : respects R (Get w url).
Proof. apply respects_Do. Qed.

Lemma respects_record (e : event) : isPrompt e = false -> respects R (record e).
Proof. intros He s. apply R_event. exact He. Qed.

(** The one place that asks the user: only without a supplied token. *)
Lemma respects_withVerifyCode (mfaReq : mfaRequest) :
  respects R (withVerifyCode w loginDetails mfaReq).
Proof.
  unfold withVerifyCode.
  destruct (_ || _); [|apply respects_ret].
  apply respects_bind; [|intros ?; apply respects_ret].
  destruct (String.eqb_spec (MFAToken loginDetails) "") as [Hempty|Hgiven];
    [|apply respects_ret].
  destruct R_prompt as [Hne|Hany]; [contradiction|].
  intros s. apply Hany.
Qed.

Lemma respects_afterHandler (m : M Response) :
  respects R m -> respects R (afterHandler m).
Proof.
  intros Hm s. unfold afterHandler. specialize (Hm s).
  destruct (m s) as [s1 [res|e|msg|]]; exact Hm.
Qed.

(** Take a handler apart down to the calls above. *)
Ltac frame :=
  repeat match goal with
         | |- respects R (lift _) => apply respects_lift
         | |- respects R (ret _) => apply respects_ret
         | |- respects R (fail _) => apply respects_fail
         | |- respects R (Do _ _) => apply respects_Do
         | |- respects R (Get _ _) => apply respects_Get
         | |- respects R (record _) => apply respects_record; reflexivity
         | |- respects R (wrappedM _ _) => apply respects_wrappedM
         | |- respects R (afterHandler _) => apply respects_afterHandler
         | |- respects R (bind _ _) => apply respects_bind; [|intros ?]
         | |- respects R (if ?c then _ else _) => destruct c
         | |- respects R (match ?x with _ => _ end) => destruct x
         | |- respects R (let _ := _ in _) => cbv zeta
         end.

Lemma respects_requestGetCredentialType (refererUrl : string)
    (convergedResponse : ConvergedResponse) :
  respects R (requestGetCredentialType w loginDetails refererUrl convergedResponse).
Proof. unfold requestGetCredentialType. frame. Qed.

Lemma respects_processADFSAuthentication (federationUrl : string) :
  respects R (processADFSAuthentication w loginDetails federationUrl).
Proof. unfold processADFSAuthentication. frame. Qed.

Lemma respects_processAuthentication (loginUrl refererUrl : string)
    (convergedResponse : ConvergedResponse) :
  respects R (processAuthentication w loginDetails loginUrl refererUrl
                convergedResponse).
Proof. unfold processAuthentication. frame. Qed.

Lemma respects_processConvergedSignIn (res : Response) (srcBodyStr : string) :
  respects R (processConvergedSignIn w loginDetails res srcBodyStr).
Proof.
  unfold processConvergedSignIn. frame.
  - apply respects_requestGetCredentialType.
  - apply respects_processADFSAuthentication.
  - apply respects_processAuthentication.
Qed.

Lemma respects_processMfaBeginAuth (mfas : list userProof)
    (convergedResponse : ConvergedResponse) :
  respects R (processMfaBeginAuth w idpAccount mfas convergedResponse).
Proof. unfold processMfaBeginAuth. frame. Qed.

Lemma respects_processMfaEndAuth (mfaReqObj : mfaRequest)
    (convergedResponse : ConvergedResponse) :
  respects R (processMfaEndAuth w mfaReqObj convergedResponse).
Proof. unfold processMfaEndAuth. frame. Qed.

Lemma respects_processMfaAuth (mfaResp : mfaResponse)
    (convergedResponse : ConvergedResponse) :
  respects R (processMfaAuth w mfaResp convergedResponse).
Proof. unfold processMfaAuth. frame. Qed.

Lemma respects_pollLoop (n : nat) (convergedResponse : ConvergedResponse) :
  forall i mfaResp,
    respects R (pollLoop w loginDetails n i mfaResp convergedResponse).
Proof.
  induction n as [|n IH]; intros i mfaResp; simpl; [apply respects_lift|].
  apply respects_bind; [apply respects_withVerifyCode | intros mfaReq].
  apply respects_bind; [unfold approvalNotice, logPrint; frame | intros _].
  apply respects_bind;
    [apply respects_wrappedM, respects_processMfaEndAuth | intros mfaResp'].
  frame. unfold sleepSeconds. frame. apply IH.
Qed.

Lemma respects_processMfa (n : nat) (mfas : list userProof)
    (convergedResponse : ConvergedResponse) :
  respects R (processMfa w idpAccount loginDetails n mfas convergedResponse).
Proof.
  unfold processMfa. frame.
  - apply respects_processMfaBeginAuth.
  - apply respects_pollLoop.
  - apply respects_processMfaAuth.
Qed.

Lemma respects_processConvergedTFA (n : nat) (res : Response) (srcBodyStr : string) :
  respects R (processConvergedTFA w idpAccount loginDetails n res srcBodyStr).
Proof. unfold processConvergedTFA. frame. apply respects_processMfa. Qed.

Lemma respects_processSAMLRequest (res : Response) (srcBodyStr : string) :
  respects R (processSAMLRequest w res srcBodyStr).
Proof. unfold processSAMLRequest. frame. Qed.

Lemma respects_processConvergedProofUpRedirect (res : Response)
    (srcBodyStr : string) :
  respects R (processConvergedProofUpRedirect w res srcBodyStr).
Proof. unfold processConvergedProofUpRedirect. frame. Qed.

Lemma respects_reProcessForm (srcBodyStr : string) :
  respects R (reProcessForm w srcBodyStr).
Proof. unfold reProcessForm. frame. Qed.

(** With the relation also holding across a flip of the switch, the KMSI
    handler respects it too. *)
Lemma respects_processKmsiInterrupt (res : Response) (srcBodyStr : string) :
  (forall s b, R s {| follow_redirect := b; history := history s |}) ->
  respects R (processKmsiInterrupt w res srcBodyStr).
Proof.
  intros R_switch. unfold processKmsiInterrupt. frame.
  - intros s. apply R_switch.
  - intros s. apply R_switch.
Qed.

(** One iteration of the loop of [Authenticate]: on a page that is not a
    KMSI page, or with the relation holding across a flip of the switch. *)
Lemma respects_authStep (n : nat) (res : Response) :
  classify (Body res) <> KMSI
  \/ (forall s b, R s {| follow_redirect := b; history := history s |}) ->
  respects R (authStep w idpAccount loginDetails n res).
Proof.
  intros Hkind. unfold authStep.
  destruct (classify (Body res)).
  - apply respects_afterHandler, respects_processConvergedSignIn.
  - apply respects_afterHandler, respects_processConvergedProofUpRedirect.
  - destruct Hkind as [Hkind|R_switch]; [contradiction|].
    apply respects_afterHandler, respects_processKmsiInterrupt, R_switch.
  - apply respects_afterHandler, respects_processConvergedTFA.
  - apply respects_afterHandler, respects_processSAMLRequest.
  - frame. apply respects_reProcessForm.
  - intros s. destruct (unknownStep w (Body res)); apply R_refl.
Qed.

Lemma respects_AuthProcessor (n : nat) :
  (forall s b, R s {| follow_redirect := b; history := history s |}) ->
  forall res, respects R (AuthProcessor w idpAccount loginDetails n res).
Proof.
  intros R_switch. induction n as [|n IH]; intros res; simpl;
    [apply respects_lift|].
  apply respects_bind; [apply respects_authStep; right; exact R_switch|].
  intros [res'|e]; [apply IH | apply respects_ret].
Qed.

Lemma respects_Authenticate (n : nat) :
  (forall s b, R s {| follow_redirect := b; history := history s |}) ->
  respects R (Authenticate w idpAccount loginDetails n).
Proof.
  intros R_switch. unfold Authenticate. cbv zeta.
  apply respects_bind; [apply respects_wrappedM, respects_Get | intros res].
  apply respects_bind; [apply respects_AuthProcessor, R_switch | intros e].
  destruct e; frame.
Qed.

End Frame.

Lemma sameSwitch_event (s : Session) (e : event) :
  sameSwitch s {| follow_redirect := follow_redirect s;
                  history := history s ++ [e] |}.
Proof. reflexivity. Qed.

(** X1: the redirect switch is touched by the KMSI handler alone.  One
    iteration of the loop of [Authenticate] on a page of any other kind,
    whichever handler runs and however it ends, leaves the switch as it
    found it. *)
Theorem authStep_keeps_redirect_switch (w : World) (idpAccount : IDPAccount)
    (loginDetails : LoginDetails) (n : nat) (res : Response) (s : Session) :
  classify (Body res) <> KMSI ->
  follow_redirect (fst (authStep w idpAccount loginDetails n res s))
  = follow_redirect s.
Proof.
  intros Hkind.
  apply (respects_authStep w idpAccount loginDetails sameSwitch).
  - reflexivity.
  - unfold sameSwitch. intros s1 s2 s3 H12 H23. congruence.
  - intros s0 e _. apply sameSwitch_event.
  - right. intros s0 e. apply sameSwitch_event.
  - left. exact Hkind.
Qed.

Lemma authStep_keeps_redirect_switch_witness :
  follow_redirect
    (fst (authStep tfaWorld account login 5 (pageAt tfaBody) freshSession))
  = follow_redirect freshSession.
Proof.
  apply (authStep_keeps_redirect_switch tfaWorld account login 5 (pageAt tfaBody)
           freshSession).
  vm_compute. discriminate.
Defined.

(** The questions put to the user so far. *)
Lemma prompts_event (s : Session) (e : event) :
  isPrompt e = false ->
  List.filter isPrompt (history s ++ [e]) = List.filter isPrompt (history s).
Proof.
  intros He. rewrite List.filter_app. simpl. rewrite He. apply app_nil_r.
Qed.

(** X2: with an MFA token in the login details the user is never asked for
    anything: a whole run of [Authenticate], through whichever pages and
    however it ends, adds no prompt to the session. *)
Theorem Authenticate_never_prompts_with_token (w : World) (idpAccount : IDPAccount)
    (loginDetails : LoginDetails) (n : nat) (s : Session) :
  MFAToken loginDetails <> "" ->
  List.filter isPrompt (history (fst (Authenticate w idpAccount loginDetails n s)))
  = List.filter isPrompt (history s).
Proof.
  intros Htoken.
  apply (respects_Authenticate w idpAccount loginDetails
           (fun s s' => List.filter isPrompt (history s')
                        = List.filter isPrompt (history s))).
  - reflexivity.
  - intros s1 s2 s3 H12 H23. congruence.
  - intros s0 e He. apply prompts_event, He.
  - left. exact Htoken.
  - reflexivity.
Qed.

(** The run through a TFA page whose method asks for a code: the entry URL,
    BeginAuth, one EndAuth, the final POST, and the assertion.  Without a
    token the code is asked for at the prompt; with one it is sent as it is
    and nothing is asked. *)
Lemma Authenticate_never_prompts_with_token_witness :
  MFAToken login <> ""
  /\ snd (Authenticate otpWorld account login 5 freshSession) = Ok "BASE64=="
  /\ map Target
       (sentRequests (history (fst (Authenticate otpWorld account login 5 freshSession))))
     = [Target (entryRequest account);
        "https://login.microsoftonline.com/common/SAS/BeginAuth";
        "https://login.microsoftonline.com/common/SAS/EndAuth";
        "https://login.microsoftonline.com/common/SAS/ProcessAuth"]
  /\ map (fun x => (rq_AuthMethodID (fst x), rq_AdditionalAuthData (fst x)))
       (mfaExchanges otpWorld "EndAuth"
          (history (fst (Authenticate otpWorld account login 5 freshSession))))
     = [("PhoneAppOTP", "123456")]
  /\ List.filter isPrompt
       (history (fst (Authenticate otpWorld account loginWithoutToken 5 freshSession)))
     = [Prompted "Enter verification code" "123456"]
  /\ List.filter isPrompt
       (history (fst (Authenticate otpWorld account login 5 freshSession)))
     = List.filter isPrompt (history freshSession).
Proof.
  split; [discriminate|].
  split; [vm_compute; reflexivity|].
  split; [vm_compute; reflexivity|].
  split; [vm_compute; reflexivity|].
  split; [vm_compute; reflexivity|].
  apply (Authenticate_never_prompts_with_token otpWorld account login 5 freshSession).
  discriminate.
Defined.

(** ** What [Authenticate] returns *)

(** X3: [Authenticate] never returns an empty assertion with a nil error.
    An assertion it returns was read from the [SAMLResponse] input of a page
    that classifies as a hidden form. *)
Theorem Authenticate_assertion_from_hidden_form (w : World)
    (idpAccount : IDPAccount) (loginDetails : LoginDetails) (n : nat)
    (s s' : Session) (samlAssertion : string) :
  Authenticate w idpAccount loginDetails n s = (s', Ok samlAssertion) ->
  samlAssertion <> ""
  /\ exists last,
       classify (Body last) = HIDDEN_FORM
       /\ getSamlAssertion w (Body last) = Ok samlAssertion.
Proof.
  unfold Authenticate. cbv zeta. unfold bind at 1.
  destruct (wrappedM (Get w _) "error retrieving entry URL" s) as [s1 [res|e|msg|]];
    try discriminate.
  unfold bind.
  destruct (AuthProcessor w idpAccount loginDetails n res s1) as [s2 [e|err|msg|]]
    eqn:Hloop; try discriminate.
  destruct e as [a|err|err]; try discriminate.
  unfold ret. intros [= <- <-].
  destruct (AuthProcessor_ended w idpAccount loginDetails n res s1 s2 _ Hloop)
    as (m & last & s0 & Hleave).
  apply authStep_leave in Hleave. destruct Hleave as (Hkind & Hsaml & Hne).
  split; [exact Hne | exists last; auto].
Qed.

Lemma Authenticate_assertion_from_hidden_form_witness :
  "BASE64==" <> ""
  /\ exists last,
       classify (Body last) = HIDDEN_FORM
       /\ getSamlAssertion happyWorld (Body last) = Ok "BASE64==".
Proof.
  apply (Authenticate_assertion_from_hidden_form happyWorld account login 2
           freshSession (fst (Authenticate happyWorld account login 2 freshSession))
           "BASE64==").
  vm_compute. reflexivity.
Defined.

(** ** More on the relay of a SAMLRequest *)

Section RelayUrl.

Import strings.

Lemma HasPrefix_app (p x : string) : HasPrefix (p +:+ x) p = true.
Proof.
  induction p as [|c p IH]; [reflexivity|].
  rewrite app_cons. simpl. rewrite Ascii.eqb_refl. exact IH.
Qed.

Lemma HasPrefix_decompose (p : string) :
  forall s, HasPrefix s p = true -> exists post, s = p +:+ post.
Proof.
  induction p as [|c p IH]; intros s H.
  - exists s. reflexivity.
  - destruct s as [|d s]; [discriminate|]. simpl in H.
    destruct (Ascii.eqb_spec c d) as [<-|]; [|discriminate].
    destruct (IH s H) as [post ->]. exists post. reflexivity.
Qed.

(** Where [Index] finds the pattern, the pattern stands. *)
Lemma Index_decompose (p : string) :
  forall s, 0 <= Index s p ->
            exists pre post, s = pre +:+ p +:+ post /\ Index s p = len pre.
Proof.
  induction s as [|c s IH]; intros H.
  - rewrite Index_nil in *. destruct (HasPrefix "" p) eqn:Hp; [|lia].
    destruct (HasPrefix_decompose p "" Hp) as [post Heq].
    exists "", post. auto.
  - rewrite Index_cons in *. destruct (HasPrefix (String c s) p) eqn:Hp.
    + destruct (HasPrefix_decompose p _ Hp) as [post Heq].
      exists "", post. auto.
    + destruct (Z.ltb_spec (Index s p) 0) as [|Hge]; [lia|].
      destruct (IH Hge) as (pre & post & -> & Hidx).
      exists (String c pre), post. rewrite app_cons, len_cons, Hidx. auto.
Qed.

Lemma Contains_app (pre p post : string) : Contains (pre +:+ p +:+ post) p = true.
Proof.
  apply Contains_true_Index.
  induction pre as [|c pre IH].
  - rewrite app_nil_l.
    destruct (p +:+ post) as [|d rest] eqn:Heq.
    + rewrite Index_nil, <- Heq, HasPrefix_app. lia.
    + rewrite Index_cons, <- Heq, HasPrefix_app. lia.
  - rewrite app_cons, Index_cons.
    destruct (HasPrefix _ p); [lia|].
    destruct (Z.ltb_spec (Index (pre +:+ p +:+ post) p) 0); lia.
Qed.

Lemma Contains_cons (c : Ascii.ascii) (s p : string) :
  Contains s p = true -> Contains (String c s) p = true.
Proof.
  rewrite !Contains_true_Index, Index_cons. intros H.
  destruct (HasPrefix _ p); [lia|].
  destruct (Z.ltb_spec (Index s p) 0); lia.
Qed.

Lemma Split_not_nil (s : string) (sep : Ascii.ascii) :
  exists h t, Split s sep = h :: t.
Proof.
  destruct s as [|c s]; simpl; [eauto|].
  destruct (Ascii.eqb c sep); [eauto|].
  destruct (Split s sep); eauto.
Qed.

(** A run of bytes without the separator stays in the first piece. *)
Lemma Split_app_nosep (p x : string) (sep : Ascii.ascii) :
  Index p (String sep "") = -1 ->
  exists h t, Split x sep = h :: t /\ Split (p +:+ x) sep = (p +:+ h) :: t.
Proof.
  induction p as [|a p IH]; intros Hp.
  - destruct (Split_not_nil x sep) as (h & t & Hx). exists h, t. auto.
  - rewrite Index_byte_cons in Hp.
    destruct (Ascii.eqb sep a) eqn:Hsep; [discriminate|].
    destruct (Z.ltb_spec (Index p (String sep "")) 0) as [Hlt|]; [|lia].
    destruct (Index_bounds p (String sep "")) as [Hm|]; [|lia].
    destruct (IH Hm) as (h & t & Hx & Hpx).
    exists h, t. split; [exact Hx|].
    rewrite app_cons. simpl. rewrite Ascii.eqb_sym, Hsep, Hpx. reflexivity.
Qed.

(** A pattern without the separator that occurs in a string occurs in one of
    its pieces. *)
Lemma Split_keeps_pattern (p : string) (sep : Ascii.ascii) :
  Index p (String sep "") = -1 ->
  forall s, Contains s p = true ->
            exists v, v ∈ Split s sep /\ Contains v p = true.
Proof.
  intros Hp. induction s as [|c s IH]; intros Hc.
  - exists "". split; [apply list_elem_of_here | exact Hc].
  - destruct (HasPrefix (String c s) p) eqn:Hpre.
    + destruct (HasPrefix_decompose p _ Hpre) as [post ->].
      destruct (Split_app_nosep p post sep Hp) as (h & t & _ & ->).
      exists (p +:+ h). split; [apply list_elem_of_here|].
      apply (Contains_app "" p h).
    + assert (Contains s p = true) as Hs.
      { apply Contains_true_Index in Hc. rewrite Index_cons, Hpre in Hc.
        apply Contains_true_Index.
        destruct (Z.ltb_spec (Index s p) 0); lia. }
      destruct (IH Hs) as (v & Hin & Hv).
      simpl. destruct (Ascii.eqb c sep).
      * exists v. split; [apply list_elem_of_further, Hin | exact Hv].
      * destruct (Split s sep) as [|h t]; [apply elem_of_nil in Hin; contradiction|].
        apply elem_of_cons in Hin. destruct Hin as [->|Hin].
        -- exists (String c h). split; [apply list_elem_of_here|].
           apply Contains_cons, Hv.
        -- exists v. split; [apply list_elem_of_further, Hin | exact Hv].
Qed.

(** A byte that does not occur in [p] is found in [p +:+ post] after [p],
    if at all. *)
Lemma Index_byte_after (c : Ascii.ascii) (p post : string) :
  Index p (String c "") = -1 ->
  Index (p +:+ post) (String c "") = -1
  \/ len p <= Index (p +:+ post) (String c "").
Proof.
  induction p as [|a p IH]; intros Hp.
  - rewrite app_nil_l. destruct (Index_bounds post (String c "")) as [->|H];
      [auto | right; unfold len; simpl; lia].
  - rewrite app_cons, Index_byte_cons. rewrite Index_byte_cons in Hp.
    destruct (Ascii.eqb c a); [discriminate|].
    destruct (Z.ltb_spec (Index p (String c "")) 0) as [Hlt|]; [|lia].
    destruct (Index_bounds p (String c "")) as [Hm|]; [|lia].
    destruct (IH Hm) as [->|Hge]; [auto|].
    right. rewrite len_cons.
    destruct (Z.ltb_spec (Index (p +:+ post) (String c "")) 0);
      pose proof (len_nonneg p); lia.
Qed.

Lemma substring_skip (pre x : string) (m : nat) :
  String.substring (String.length pre) m (pre +:+ x) = String.substring 0 m x.
Proof.
  induction pre as [|c pre IH]; [reflexivity|].
  rewrite app_cons. simpl. exact IH.
Qed.

Lemma substring_keeps_prefix (p : string) :
  forall post m,
    (String.length p <= m)%nat ->
    HasPrefix (String.substring 0 m (p +:+ post)) p = true.
Proof.
  induction p as [|a p IH]; intros post m Hm; [reflexivity|].
  destruct m as [|m]; [simpl in Hm; lia|].
  rewrite app_cons. simpl. rewrite Ascii.eqb_refl.
  apply IH. simpl in Hm. lia.
Qed.

(** A slice that starts where [p] starts and is at least as long begins
    with [p]. *)
Lemma slice_keeps_prefix (pre p post u : string) (hi : Z) :
  slice (pre +:+ p +:+ post) (len pre) hi = Ok u ->
  len pre + len p <= hi ->
  HasPrefix u p = true.
Proof.
  unfold slice. intros H Hhi.
  destruct (_ && _); [|discriminate]. injection H as <-.
  unfold len at 1. rewrite Nat2Z.id, substring_skip.
  apply substring_keeps_prefix. unfold len in *. lia.
Qed.

(** Every URL the loop body takes from a segment begins with [https://]. *)
Lemma segmentUrl_https (v u : string) :
  segmentUrl v = Ok u -> HasPrefix u "https://" = true.
Proof.
  unfold segmentUrl. intros H.
  destruct (Index_bounds v "https://") as [Hm|Hge].
  - rewrite Hm in H. unfold slice_from in H.
    pose proof (slice_negative v (-1) (len v) ltac:(lia)) as Hp.
    destruct (slice v (-1) (len v)); discriminate.
  - destruct (Index_decompose "https://" v (proj1 Hge)) as (pre & post & -> & Hidx).
    rewrite Hidx, slice_from_app in H. cbn [obind] in H.
    set (e := if Index ("https://" +:+ post) squote =? -1
              then Index ("https://" +:+ post) dquote
              else Index ("https://" +:+ post) squote) in H.
    assert (e = -1 \/ 8 <= e) as [He|He].
    { unfold e.
      destruct (Index_byte_after "'" "https://" post eq_refl) as [Hs|Hs];
        fold squote in Hs.
      - rewrite Hs. simpl.
        exact (Index_byte_after (Ascii.ascii_of_nat 34) "https://" post eq_refl).
      - destruct (Z.eqb_spec (Index ("https://" +:+ post) squote) (-1)) as [Heq|];
          [rewrite Heq in Hs; unfold len in Hs; simpl in Hs; lia | right; exact Hs]. }
    + rewrite He in H.
      pose proof (slice_inverted (pre +:+ "https://" +:+ post) (len pre)
                    (len pre + -1) ltac:(lia)) as Hp.
      destruct (slice _ (len pre) (len pre + -1)); discriminate.
    + eapply slice_keeps_prefix; [exact H|].
      change (len "https://") with 8. lia.
Qed.

Lemma scanSegments_keeps_https (l : list string) :
  forall samlRequestUrl,
    HasPrefix samlRequestUrl "https://" = true ->
    match scanSegments l samlRequestUrl with
    | Ok u => HasPrefix u "https://" = true
    | Panic _ => True
    | _ => False
    end.
Proof.
  induction l as [|x l IH]; intros acc Hacc; simpl; [exact Hacc|].
  destruct (Contains x "SAMLRequest"); [|apply IH, Hacc].
  destruct (segmentUrl_Ok_or_Panic x) as [[u Hu]|[msg ->]]; simpl; [|exact I].
  rewrite Hu. simpl. apply IH. eapply segmentUrl_https, Hu.
Qed.

Lemma scanSegments_finds_https (l : list string) :
  forall samlRequestUrl,
    (exists v, v ∈ l /\ Contains v "SAMLRequest" = true) ->
    match scanSegments l samlRequestUrl with
    | Ok u => HasPrefix u "https://" = true
    | Panic _ => True
    | _ => False
    end.
Proof.
  induction l as [|x l IH]; intros acc (v & Hin & Hv).
  - apply elem_of_nil in Hin. contradiction.
  - apply elem_of_cons in Hin. simpl. destruct Hin as [<-|Hin].
    + rewrite Hv.
      destruct (segmentUrl_Ok_or_Panic v) as [[u Hu]|[msg ->]]; simpl; [|exact I].
      rewrite Hu. simpl. apply scanSegments_keeps_https.
      eapply segmentUrl_https, Hu.
    + destruct (Contains x "SAMLRequest"); [|apply IH; eauto].
      destruct (segmentUrl_Ok_or_Panic x) as [[u Hu]|[msg ->]]; simpl; [|exact I].
      rewrite Hu. simpl. apply IH. eauto.
Qed.

(** X4: on a page that contains [SAMLRequest], which is what brings a page to
    this handler, [processSAMLRequest] never returns its own error "unable to
    locate SAMLRequest URL".  Either a slice goes out of range and the call
    panics without a request, or the URL it fetches begins with [https://]
    and the result is that of the GET. *)
Theorem processSAMLRequest_panics_or_fetches_https (w : World) (res : Response)
    (srcBodyStr : string) (s : Session) :
  strings.Contains srcBodyStr "SAMLRequest" = true ->
  (exists msg, processSAMLRequest w res srcBodyStr s = (s, Panic msg))
  \/ (exists samlRequestUrl,
        HasPrefix samlRequestUrl "https://" = true
        /\ samlRequestUrlOf srcBodyStr = Ok samlRequestUrl
        /\ processSAMLRequest w res srcBodyStr s
           = wrappedM (Get w samlRequestUrl) "error retrieving SAMLRequest results" s).
Proof.
  intros Hc.
  pose proof (scanSegments_finds_https (Split srcBodyStr ";"%char) ""
                (Split_keeps_pattern "SAMLRequest" ";"%char eq_refl srcBodyStr Hc))
    as Hscan.
  unfold processSAMLRequest, bind, lift, samlRequestUrlOf.
  destruct (scanSegments (Split srcBodyStr ";"%char) "") as [u|e|msg|];
    try contradiction; [right | left; eauto].
  exists u. split; [exact Hscan|]. split; [reflexivity|].
  destruct (String.eqb_spec u "") as [->|Hne]; [discriminate Hscan | reflexivity].
Qed.

End RelayUrl.

Lemma processSAMLRequest_panics_or_fetches_https_witness :
  (exists msg, processSAMLRequest relayForever (pageAt relayBody) relayBody freshSession
               = (freshSession, Panic msg))
  \/ (exists samlRequestUrl,
        strings.HasPrefix samlRequestUrl "https://" = true
        /\ samlRequestUrlOf relayBody = Ok samlRequestUrl
        /\ processSAMLRequest relayForever (pageAt relayBody) relayBody freshSession
           = wrappedM (Get relayForever samlRequestUrl)
               "error retrieving SAMLRequest results" freshSession).
Proof.
  apply (processSAMLRequest_panics_or_fetches_https relayForever (pageAt relayBody)
           relayBody freshSession).
  vm_compute. reflexivity.
Defined.

(** ** Forms and assertions read from a page *)

Section Forms.

Variable w : World.

Lemma Find_app (a b : list Node) (name : string) :
  Find (a ++ b) name = (Find a name ++ Find b name)%list.
Proof. unfold Find. apply filter_app. Qed.

Lemma Find_cons_tag (n : Node) (l : list Node) :
  Find (n :: l) (tag n) = n :: Find l (tag n).
Proof. unfold Find. apply filter_cons_True. reflexivity. Qed.

Lemma elem_of_Find (m : Node) (l : list Node) (name : string) :
  m ∈ Find l name <-> tag m = name /\ m ∈ l.
Proof. unfold Find. rewrite list_elem_of_filter. reflexivity. Qed.

(** Elements that do not change what is observed of the accumulator leave
    the observation of a left fold as it was. *)
Lemma foldl_unobserved {A B C} (f : B -> A -> B) (g : B -> C) (l : list A) :
  (forall m, m ∈ l -> forall b, g (f b m) = g b) ->
  forall b, g (foldl f b l) = g b.
Proof.
  induction l as [|x l IH]; intros Hl b; [reflexivity|].
  simpl. rewrite IH.
  - apply Hl, list_elem_of_here.
  - intros m Hm. apply Hl, list_elem_of_further, Hm.
Qed.

(** X5: [getSamlAssertion] goes by the last [input] element named
    [SAMLResponse]: it returns the value of that element, the empty string
    when the element has no value, whatever earlier elements of that name
    hold.  A page without such an element gives the empty string, and so
    does a page that fails to parse, where the error is not nil. *)
Theorem getSamlAssertion_last_input (resBodyStr : string) (doc : list Node) :
  parseDocument w resBodyStr = inr doc ->
  (forall pre n post,
      doc = (pre ++ n :: post)%list ->
      tag n = "input" ->
      Attr n "name" = Some "SAMLResponse" ->
      (forall m, m ∈ post -> tag m = "input" ->
                 Attr m "name" <> Some "SAMLResponse") ->
      getSamlAssertion w resBodyStr = Ok (default "" (Attr n "value")))
  /\ ((forall m, m ∈ doc -> tag m = "input" ->
                 Attr m "name" <> Some "SAMLResponse") ->
      getSamlAssertion w resBodyStr = Ok "").
Proof.
  intros Hdoc. unfold getSamlAssertion. rewrite Hdoc.
  set (step := fun (samlAssertion : string) (s : Node) =>
                 match Attr s "name" with
                 | Some attrName =>
                     if String.eqb attrName "SAMLResponse"
                     then default "" (Attr s "value")
                     else samlAssertion
                 | None => samlAssertion
                 end).
  assert (forall l,
             (forall m, m ∈ l -> tag m = "input" ->
                        Attr m "name" <> Some "SAMLResponse") ->
             forall b, foldl step b (Find l "input") = b) as Hskip.
  { intros l Hl. apply (foldl_unobserved step id).
    intros m Hm b. apply elem_of_Find in Hm as [Htag Hin].
    unfold step, id. specialize (Hl m Hin Htag).
    destruct (Attr m "name") as [attrName|]; [|reflexivity].
    destruct (String.eqb_spec attrName "SAMLResponse"); [congruence | reflexivity]. }
  split.
  - intros pre n post -> Htag Hname Hpost. f_equal.
    rewrite Find_app, <- Htag, Find_cons_tag, Htag, foldl_app. simpl.
    rewrite (Hskip post Hpost). unfold step at 1. rewrite Hname. reflexivity.
  - intros Hnone. f_equal. apply Hskip, Hnone.
Qed.

(** X6: the fields [reSubmitFormData] collects.  For every name, the last
    [input] element that has this name and a value gives the field, later
    duplicates overwriting earlier ones; elements that lack a name or a
    value leave no trace, and a name that no element gives with a value is
    not a field. *)
Theorem reSubmitFormData_fields (resBodyStr : string) (doc : list Node)
    (name : string) :
  parseDocument w resBodyStr = inr doc ->
  exists formValues formSubmitUrl,
    reSubmitFormData w resBodyStr = Ok (formValues, formSubmitUrl)
    /\ (forall pre n post value,
          doc = (pre ++ n :: post)%list ->
          tag n = "input" ->
          Attr n "name" = Some name ->
          Attr n "value" = Some value ->
          (forall m, m ∈ post -> tag m = "input" -> Attr m "name" = Some name ->
                     Attr m "value" = None) ->
          formValues !! name = Some value)
    /\ ((forall m, m ∈ doc -> tag m = "input" -> Attr m "name" = Some name ->
                   Attr m "value" = None) ->
        formValues !! name = None).
Proof.
  intros Hdoc. unfold reSubmitFormData. rewrite Hdoc.
  set (step := fun (formValues : Values) (s : Node) =>
                 match Attr s "name" with
                 | Some name =>
                     match Attr s "value" with
                     | Some value => ValuesSet name value formValues
                     | None => formValues
                     end
                 | None => formValues
                 end).
  eexists _, _. split; [reflexivity|].
  assert (forall l,
             (forall m, m ∈ l -> tag m = "input" -> Attr m "name" = Some name ->
                        Attr m "value" = None) ->
             forall b : Values, foldl step b (Find l "input") !! name = b !! name)
    as Hskip.
  { intros l Hl. apply (foldl_unobserved step (fun b : Values => b !! name)).
    intros m Hm b. apply elem_of_Find in Hm as [Htag Hin].
    unfold step. specialize (Hl m Hin Htag).
    destruct (Attr m "name") as [k|]; [|reflexivity].
    destruct (Attr m "value") as [v|] eqn:Hv; [|reflexivity].
    unfold ValuesSet. apply lookup_insert_ne. intros ->.
    specialize (Hl eq_refl). discriminate. }
  split.
  - intros pre n post value -> Htag Hname Hvalue Hpost.
    rewrite Find_app, <- Htag, Find_cons_tag, Htag, foldl_app. simpl.
    rewrite (Hskip post Hpost). unfold step at 1. rewrite Hname, Hvalue.
    unfold ValuesSet. apply lookup_insert_eq.
  - intros Hnone. rewrite (Hskip doc Hnone). apply lookup_empty.
Qed.

(** X7: the submit target [reSubmitFormData] returns is the [action] of the
    last [form] element that has one, and the empty string, with a nil error,
    when no [form] element has an [action]. *)
Theorem reSubmitFormData_action (resBodyStr : string) (doc : list Node) :
  parseDocument w resBodyStr = inr doc ->
  (forall pre n post action,
      doc = (pre ++ n :: post)%list ->
      tag n = "form" ->
      Attr n "action" = Some action ->
      (forall m, m ∈ post -> tag m = "form" -> Attr m "action" = None) ->
      exists formValues, reSubmitFormData w resBodyStr = Ok (formValues, action))
  /\ ((forall m, m ∈ doc -> tag m = "form" -> Attr m "action" = None) ->
      exists formValues, reSubmitFormData w resBodyStr = Ok (formValues, "")).
Proof.
  intros Hdoc. unfold reSubmitFormData. rewrite Hdoc.
  set (step := fun (formSubmitUrl : string) (s : Node) =>
                 match Attr s "action" with
                 | Some action => action
                 | None => formSubmitUrl
                 end).
  assert (forall l,
             (forall m, m ∈ l -> tag m = "form" -> Attr m "action" = None) ->
             forall b, foldl step b (Find l "form") = b) as Hskip.
  { intros l Hl. apply (foldl_unobserved step id).
    intros m Hm b. apply elem_of_Find in Hm as [Htag Hin].
    unfold step, id. rewrite (Hl m Hin Htag). reflexivity. }
  split.
  - intros pre n post action Heq Htag Haction Hpost.
    eexists. do 2 f_equal. rewrite Heq.
    rewrite Find_app, <- Htag, Find_cons_tag, Htag, foldl_app. simpl.
    rewrite (Hskip post Hpost). unfold step at 1. rewrite Haction. reflexivity.
  - intros Hnone. eexists. do 2 f_equal. apply Hskip, Hnone.
Qed.

Lemma requestsAdded_app (s : Session) (follow : bool) (evs : list event) :
  requestsAdded s {| follow_redirect := follow; history := history s ++ evs |}
  = sentRequests evs.
Proof. unfold requestsAdded. simpl. rewrite drop_app_length. reflexivity. Qed.

Lemma requestsAdded_same (s : Session) : requestsAdded s s = [].
Proof. unfold requestsAdded. rewrite drop_all. reflexivity. Qed.

(** X8: the form [processADFSAuthentication] posts.  After the GET of the
    federation URL, the POST goes to the resolved action with the fields of
    the page, except that [UserName], [Password] and [AuthMethod] are set to
    the user name, the password and [FormsAuthentication], whatever the page
    gave for them. *)
Theorem processADFSAuthentication_overrides (loginDetails : LoginDetails)
    (federationUrl : string) (s : Session) (res : Response) (formValues : Values)
    (formSubmitUrl : string) :
  transport w s {| Method := "GET"; Target := federationUrl; Header := [];
                   ReqBody := NoBody |} = inl res ->
  reSubmitFormData w (Body res) = Ok (formValues, formSubmitUrl) ->
  formSubmitUrl <> "" ->
  NewRequestError w "POST" (fullUrl res formSubmitUrl) = None ->
  exists posted,
    requestsAdded s (fst (processADFSAuthentication w loginDetails federationUrl s))
    = [ {| Method := "GET"; Target := federationUrl; Header := [];
           ReqBody := NoBody |};
        {| Method := "POST"; Target := fullUrl res formSubmitUrl;
           Header := [("Content-Type", "application/x-www-form-urlencoded")];
           ReqBody := FormBody posted |} ]
    /\ posted !! "UserName" = Some (Username loginDetails)
    /\ posted !! "Password" = Some (Password loginDetails)
    /\ posted !! "AuthMethod" = Some "FormsAuthentication"
    /\ forall key, key <> "UserName" -> key <> "Password" -> key <> "AuthMethod" ->
                   posted !! key = formValues !! key.
Proof.
  intros Hget Hform Hne Hreq.
  exists (ValuesSet "AuthMethod" "FormsAuthentication"
            (ValuesSet "Password" (Password loginDetails)
               (ValuesSet "UserName" (Username loginDetails) formValues))).
  split.
  - unfold processADFSAuthentication, bind at 1, wrappedM, Get, Do.
    rewrite Hget. simpl. unfold bind at 1, lift. rewrite Hform. simpl.
    destruct (String.eqb_spec formSubmitUrl ""); [contradiction|].
    unfold bind, lift, NewRequest. rewrite Hreq. simpl.
    match goal with
    | |- context [transport w ?st ?r] => destruct (transport w st r)
    end; simpl; rewrite <- app_assoc, requestsAdded_app; reflexivity.
  - unfold ValuesSet.
    split; [rewrite !lookup_insert_ne by discriminate; apply lookup_insert_eq|].
    split; [rewrite lookup_insert_ne by discriminate; apply lookup_insert_eq|].
    split; [apply lookup_insert_eq|].
    intros key H1 H2 H3. rewrite !lookup_insert_ne by congruence. reflexivity.
Qed.

(** A page none of whose forms has an action gives the empty submit URL. *)
Lemma reSubmitFormData_no_action (resBodyStr : string) (doc : list Node) :
  parseDocument w resBodyStr = inr doc ->
  (forall m, m ∈ doc -> tag m = "form" -> Attr m "action" = None) ->
  exists formValues, reSubmitFormData w resBodyStr = Ok (formValues, "").
Proof.
  intros Hdoc Hnone. unfold reSubmitFormData. rewrite Hdoc.
  eexists. do 2 f_equal.
  apply (foldl_unobserved _ id).
  intros m Hm b. apply elem_of_Find in Hm as [Htag Hin].
  unfold id. rewrite (Hnone m Hin Htag). reflexivity.
Qed.

(** X9: a hidden form to post again needs an action.  On a page none of whose
    [form] elements has an [action], [reProcessForm] fails with "unable to
    locate hiddenform submit URL" and makes no request; on a page that does
    not parse it fails with the parser's error, wrapped, and makes no request
    either. *)
Theorem reProcessForm_needs_action (srcBodyStr : string) (s : Session) :
  (forall doc,
      parseDocument w srcBodyStr = inr doc ->
      (forall m, m ∈ doc -> tag m = "form" -> Attr m "action" = None) ->
      reProcessForm w srcBodyStr s
      = (s, Err "unable to locate hiddenform submit URL"))
  /\ (forall e,
        parseDocument w srcBodyStr = inl e ->
        reProcessForm w srcBodyStr s
        = (s, Err ("failed to parse hiddenform form: "
                   +:+ "failed to build document from response: " +:+ e))).
Proof.
  split.
  - intros doc Hdoc Hnone.
    destruct (reSubmitFormData_no_action srcBodyStr doc Hdoc Hnone) as [fv Hform].
    unfold reProcessForm, bind, lift. rewrite Hform. reflexivity.
  - intros e He. unfold reProcessForm, bind, lift, reSubmitFormData.
    rewrite He. reflexivity.
Qed.

End Forms.

Lemma getSamlAssertion_last_input_witness :
  getSamlAssertion adfsWorld adfsFormBody = Ok "new".
Proof.
  refine (proj1 (getSamlAssertion_last_input adfsWorld adfsFormBody adfsDocument _)
            (take 6 adfsDocument)
            {| tag := "input";
               attrs := [("name", "SAMLResponse"); ("value", "new")] |}
            [] _ _ _ _); try reflexivity.
  intros m Hm. apply elem_of_nil in Hm. contradiction.
Defined.

Lemma reSubmitFormData_fields_witness :
  exists formValues formSubmitUrl,
    reSubmitFormData adfsWorld adfsFormBody = Ok (formValues, formSubmitUrl)
    /\ formValues !! "UserName" = Some "second".
Proof.
  destruct (reSubmitFormData_fields adfsWorld adfsFormBody adfsDocument "UserName"
              eq_refl) as (formValues & formSubmitUrl & Hrun & Hlast & _).
  exists formValues, formSubmitUrl. split; [exact Hrun|].
  apply (Hlast (take 3 adfsDocument)
           {| tag := "input"; attrs := [("name", "UserName"); ("value", "second")] |}
           (drop 4 adfsDocument) "second"); try reflexivity.
  intros m Hm _ Hname. vm_compute in Hm.
  repeat (apply elem_of_cons in Hm as [->|Hm]; [try discriminate Hname|]).
  apply elem_of_nil in Hm. contradiction.
Defined.

Lemma reSubmitFormData_action_witness :
  exists formValues, reSubmitFormData adfsWorld adfsFormBody = Ok (formValues, "/adfs/ls").
Proof.
  refine (proj1 (reSubmitFormData_action adfsWorld adfsFormBody adfsDocument _)
            (take 2 adfsDocument)
            {| tag := "form"; attrs := [("action", "/adfs/ls")] |}
            (drop 3 adfsDocument) "/adfs/ls" _ _ _ _); try reflexivity.
  intros m Hm Htag. vm_compute in Hm.
  repeat (apply elem_of_cons in Hm as [->|Hm]; [try discriminate Htag|]).
  apply elem_of_nil in Hm. contradiction.
Defined.

Lemma processADFSAuthentication_overrides_witness :
  exists posted,
    requestsAdded freshSession
      (fst (processADFSAuthentication adfsWorld login "https://adfs.example/" freshSession))
    = [ {| Method := "GET"; Target := "https://adfs.example/"; Header := [];
           ReqBody := NoBody |};
        {| Method := "POST"; Target := fullUrl (pageAt adfsFormBody) "/adfs/ls";
           Header := [("Content-Type", "application/x-www-form-urlencoded")];
           ReqBody := FormBody posted |} ]
    /\ posted !! "UserName" = Some (Username login)
    /\ posted !! "Password" = Some (Password login)
    /\ posted !! "AuthMethod" = Some "FormsAuthentication"
    /\ forall key, key <> "UserName" -> key <> "Password" -> key <> "AuthMethod" ->
                   posted !! key
                   = (ValuesSet "SAMLResponse" "new"
                        (ValuesSet "SAMLResponse" "old"
                           (ValuesSet "UserName" "second"
                              (ValuesSet "UserName" "first" ∅)))) !! key.
Proof.
  apply (processADFSAuthentication_overrides adfsWorld login "https://adfs.example/"
           freshSession (pageAt adfsFormBody)
           (ValuesSet "SAMLResponse" "new"
              (ValuesSet "SAMLResponse" "old"
                 (ValuesSet "UserName" "second"
                    (ValuesSet "UserName" "first" ∅))))
           "/adfs/ls"); try reflexivity.
  discriminate.
Defined.

(** ** The end of the MFA driver *)

Section MfaEnd.

Variable w : World.
Variable idpAccount : IDPAccount.
Variable loginDetails : LoginDetails.
Variable convergedResponse : ConvergedResponse.






End MfaEnd.


(** ** The handlers of the sign-in, ProofUp and KMSI pages *)

Section PageHandlers.

Variable w : World.
Variable idpAccount : IDPAccount.
Variable loginDetails : LoginDetails.

Lemma requestGetCredentialType_Ok (refererUrl : string)
    (convergedResponse : ConvergedResponse) (s s1 : Session)
    (getCredentialTypeResponse : GetCredentialTypeResponse) :
  requestGetCredentialType w loginDetails refererUrl convergedResponse s
  = (s1, Ok getCredentialTypeResponse) ->
  exists res,
    s1 = after s (follow_redirect s)
           (Exchange (follow_redirect s)
              (credentialTypeProbe refererUrl loginDetails convergedResponse)
              (inl res))
    /\ decodeCredentialType w (Body res) = inr getCredentialTypeResponse.
Proof.
  unfold requestGetCredentialType, bind, lift, NewRequest, wrappedM, Do.
  destruct (NewRequestError w "POST" (URLGetCredentialType convergedResponse));
    simpl; [discriminate|].
  name_call (credentialTypeProbe refererUrl loginDetails convergedResponse) s.
  destruct (transport w s _) as [res|e]; simpl; [|discriminate].
  unfold fail, ret, lift.
  destruct (decodeCredentialType w (Body res)) as [e|ct] eqn:Hdec; [discriminate|].
  intros [= <- <-]. exists res. auto.
Qed.

(** X11: the error code of a sign-in page is looked at late.  The
    credential-type probe, which carries the user name, goes out first; only
    when it has been answered without a federation URL does a fatal code stop
    the handler, and when the answer names a federation URL the handler goes
    on to the ADFS sign-in without looking at the code at all. *)
Theorem processConvergedSignIn_probes_first (res : Response) (srcBodyStr : string)
    (convergedResponse : ConvergedResponse) (s s1 : Session)
    (getCredentialTypeResponse : GetCredentialTypeResponse) :
  unmarshalEmbeddedJson w srcBodyStr = Ok (Some convergedResponse) ->
  requestGetCredentialType w loginDetails (UrlString (RequestURL res))
    convergedResponse s
  = (s1, Ok getCredentialTypeResponse) ->
  requestsAdded s s1
  = [credentialTypeProbe (UrlString (RequestURL res)) loginDetails convergedResponse]
  /\ (FederationRedirectURL getCredentialTypeResponse = "" ->
      fatalErrorCode convergedResponse = true ->
      processConvergedSignIn w loginDetails res srcBodyStr s
      = (s1, Err (LoginError (SErrorCode convergedResponse))))
  /\ (FederationRedirectURL getCredentialTypeResponse <> "" ->
      processConvergedSignIn w loginDetails res srcBodyStr s
      = processADFSAuthentication w loginDetails
          (FederationRedirectURL getCredentialTypeResponse) s1).
Proof.
  intros Hcfg Hct.
  destruct (requestGetCredentialType_Ok _ _ _ _ _ Hct) as (probed & Hs1 & _).
  split; [|split].
  - rewrite Hs1. unfold after. rewrite requestsAdded_app. reflexivity.
  - intros Hfed Hfatal.
    rewrite (processConvergedSignIn_password w loginDetails s res srcBodyStr
               convergedResponse s1 getCredentialTypeResponse Hcfg Hct Hfed).
    unfold processAuthentication. rewrite Hfatal. reflexivity.
  - intros Hfed.
    unfold processConvergedSignIn, bind at 1, lift. rewrite Hcfg. simpl.
    unfold bind at 1. simpl. unfold bind, wrappedM. rewrite Hct. simpl.
    destruct (String.eqb_spec (FederationRedirectURL getCredentialTypeResponse) "");
      [contradiction | reflexivity].
Qed.

(** X12: a ProofUp page that offers no skip URL does not end the run.  The
    handler wraps a nil error in "skip MFA not possible", which is nil: it
    returns the page it was given with no error and without a request, the
    loop of [Authenticate] classifies the same page again, and no number of
    iterations ends it. *)
Theorem AuthProcessor_spins_on_proofup (res : Response)
    (convergedResponse : ConvergedResponse) (s : Session) (n : nat) :
  classify (Body res) = PROOFUP_REDIRECT ->
  unmarshalEmbeddedJson w (Body res) = Ok (Some convergedResponse) ->
  fatalErrorCode convergedResponse = false ->
  URLSkipMfaRegistration convergedResponse = "" ->
  processConvergedProofUpRedirect w res (Body res) s = (s, Ok res)
  /\ AuthProcessor w idpAccount loginDetails n res s = (s, Unfinished).
Proof.
  intros Hkind Hcfg Hgate Hskip.
  pose proof (processConvergedProofUpRedirect_no_skip w res (Body res)
                convergedResponse s Hcfg Hgate Hskip) as Hrun.
  split; [exact Hrun|].
  apply AuthProcessor_stuck. intros m.
  unfold authStep. rewrite Hkind. unfold afterHandler. rewrite Hrun. reflexivity.
Qed.

(** X13: the switch after the KMSI handler does not depend on the switch
    before it.  When the page has a config and the request can be built, the
    POST goes out with redirects off, and afterwards redirects are followed
    exactly when the POST came back without a transport error. *)
Theorem processKmsiInterrupt_switch (res : Response) (srcBodyStr : string)
    (convergedResponse : ConvergedResponse) (s : Session) :
  unmarshalEmbeddedJson w srcBodyStr = Ok (Some convergedResponse) ->
  NewRequestError w "POST" (fullUrl res (URLPost convergedResponse)) = None ->
  let run := processKmsiInterrupt w res srcBodyStr s in
  (exists reply,
      history (fst run)
      = (history s ++ [Exchange false (kmsiPost res convergedResponse) reply])%list)
  /\ follow_redirect (fst run) = is_Ok (snd run).
Proof.
  intros Hcfg Hreq run. unfold run.
  destruct (transport w {| follow_redirect := false; history := history s |}
              (kmsiPost res convergedResponse)) as [res'|e] eqn:Hnet.
  - rewrite (processKmsiInterrupt_posted w res srcBodyStr s convergedResponse res'
               Hcfg Hreq Hnet).
    split; [eexists|]; reflexivity.
  - rewrite (processKmsiInterrupt_post_error w res srcBodyStr s convergedResponse e
               Hcfg Hreq Hnet).
    split; [eexists|]; reflexivity.
Qed.

(** X14: where the marker occurs, [unmarshalEmbeddedJson] decodes what
    follows its first occurrence, all of it: the page is cut right after the
    eight bytes of [$Config=], and the cut-off text, with whatever trails the
    JSON value, goes to the decoder, whose verdict is returned. *)
Theorem unmarshalEmbeddedJson_first_marker (resBodyStr : string) :
  strings.Contains resBodyStr "$Config=" = true ->
  exists pre rest,
    resBodyStr = pre +:+ "$Config=" +:+ rest
    /\ strings.Index resBodyStr "$Config=" = strings.len pre
    /\ unmarshalEmbeddedJson w resBodyStr
       = match decodeConverged w rest with
         | inl e => Err e
         | inr v => Ok v
         end.
Proof.
  intros Hc. apply Contains_true_Index in Hc.
  destruct (Index_decompose "$Config=" resBodyStr Hc) as (pre & rest & Heq & Hidx).
  exists pre, rest. split; [exact Heq|]. split; [exact Hidx|].
  subst resBodyStr. apply unmarshalEmbeddedJson_marker, Hidx.
Qed.

End PageHandlers.

Lemma processConvergedSignIn_probes_first_witness :
  processConvergedSignIn signInWorld login (pageAt signInBody) signInBody freshSession
  = (fst (requestGetCredentialType signInWorld login
            (UrlString (RequestURL (pageAt signInBody))) badPasswordConfig
            freshSession),
     Err (LoginError "50126")).
Proof.
  refine (proj1 (proj2 (processConvergedSignIn_probes_first signInWorld login
                          (pageAt signInBody) signInBody badPasswordConfig
                          freshSession _ {| FederationRedirectURL := "" |} _ _))
            _ _); reflexivity.
Defined.

Lemma AuthProcessor_spins_on_proofup_witness :
  processConvergedProofUpRedirect proofUpWorld (pageAt proofUpBody) proofUpBody
    freshSession
  = (freshSession, Ok (pageAt proofUpBody))
  /\ AuthProcessor proofUpWorld account login 1000 (pageAt proofUpBody) freshSession
     = (freshSession, Unfinished).
Proof.
  apply (AuthProcessor_spins_on_proofup proofUpWorld account login
           (pageAt proofUpBody) signedOutConfig freshSession 1000);
    vm_compute; reflexivity.
Defined.

Lemma processKmsiInterrupt_switch_witness :
  (exists reply,
      history (fst (processKmsiInterrupt kmsiOnline (pageAt kmsiBody) kmsiBody
                      {| follow_redirect := false; history := [] |}))
      = [Exchange false (kmsiPost (pageAt kmsiBody) kmsiConfig) reply])
  /\ follow_redirect
       (fst (processKmsiInterrupt kmsiOnline (pageAt kmsiBody) kmsiBody
               {| follow_redirect := false; history := [] |}))
     = is_Ok (snd (processKmsiInterrupt kmsiOnline (pageAt kmsiBody) kmsiBody
                     {| follow_redirect := false; history := [] |})).
Proof.
  apply (processKmsiInterrupt_switch kmsiOnline (pageAt kmsiBody) kmsiBody kmsiConfig
           {| follow_redirect := false; history := [] |}); reflexivity.
Defined.

Lemma unmarshalEmbeddedJson_first_marker_witness :
  exists pre rest,
    kmsiBody = pre +:+ "$Config=" +:+ rest
    /\ strings.Index kmsiBody "$Config=" = strings.len pre
    /\ unmarshalEmbeddedJson kmsiOnline kmsiBody
       = match decodeConverged kmsiOnline rest with
         | inl e => Err e
         | inr v => Ok v
         end.
Proof.
  apply (unmarshalEmbeddedJson_first_marker kmsiOnline kmsiBody).
  vm_compute. reflexivity.
Defined.

(** ** The pace of the poll loop *)

Section PollPace.

Variable w : World.
Variable loginDetails : LoginDetails.
Variable convergedResponse : ConvergedResponse.

Lemma withVerifyCode_asked (mfaReq : mfaRequest) (s : Session) :
  exists asked mfaReq',
    withVerifyCode w loginDetails mfaReq s
    = ({| follow_redirect := follow_redirect s; history := history s ++ asked |},
       Ok mfaReq')
    /\ (asked = [] \/ exists prompt answer, asked = [Prompted prompt answer]).
Proof.
  unfold withVerifyCode.
  destruct (_ || _).
  - destruct (String.eqb (MFAToken loginDetails) "").
    + eexists [_], _. split; [reflexivity|]. right. eauto.
    + exists []. eexists. unfold bind, ret. rewrite app_nil_r.
      split; [destruct s; reflexivity | auto].
  - exists []. eexists. unfold ret. rewrite app_nil_r.
    split; [destruct s; reflexivity | auto].
Qed.

Lemma approvalNotice_noticed (mfaReq : mfaRequest) (i : Z) (mfaResp : mfaResponse)
    (s : Session) :
  exists noticed,
    approvalNotice mfaReq i mfaResp s
    = ({| follow_redirect := follow_redirect s; history := history s ++ noticed |},
       Ok tt)
    /\ (noticed = [] \/ (i = 0 /\ exists line, noticed = [Logged line])).
Proof.
  unfold approvalNotice.
  destruct (String.eqb (rq_AuthMethodID mfaReq) "PhoneAppNotification"); simpl.
  - destruct (Z.eqb_spec i 0) as [->|].
    + destruct (rs_Entropy mfaResp =? 0); eexists [_];
        (split; [reflexivity | right; eauto]).
    + exists []. unfold ret. rewrite app_nil_r.
      split; [destruct s; reflexivity | auto].
  - exists []. unfold ret. rewrite app_nil_r.
    split; [destruct s; reflexivity | auto].
Qed.

Lemma processMfaEndAuth_exchanged (mfaReq : mfaRequest) (s : Session) :
  exists exchanged,
    fst (processMfaEndAuth w mfaReq convergedResponse s)
    = {| follow_redirect := follow_redirect s; history := history s ++ exchanged |}
    /\ (exchanged = []
        \/ exists follow req reply, exchanged = [Exchange follow req reply]).
Proof.
  unfold processMfaEndAuth, bind, lift, NewRequest, wrappedM, Do.
  destruct (NewRequestError w "POST" (URLEndAuth convergedResponse)); simpl.
  - exists []. rewrite app_nil_r. split; [destruct s; reflexivity | auto].
  - match goal with
    | |- context [transport w s ?r] =>
        exists [Exchange (follow_redirect s) r (transport w s r)]
    end.
    split; [|right; eauto].
    destruct (transport w s _) as [res|e]; simpl; [|reflexivity].
    unfold fail, ret, lift. destruct (decodeMfa w (Body res)); reflexivity.
Qed.

(** What the loop adds to the history is a trace of the shape [pollTrace]. *)
Lemma pollLoop_trace (n : nat) :
  forall (i : Z) (mfaResp : mfaResponse) (s : Session),
  exists evs,
    history (fst (pollLoop w loginDetails n i mfaResp convergedResponse s))
    = (history s ++ evs)%list
    /\ pollTrace convergedResponse n i evs.
Proof.
  induction n as [|n IH]; intros i mfaResp s.
  - exists []. simpl. rewrite app_nil_r. split; [reflexivity | constructor].
  - simpl. unfold bind at 1.
    destruct (withVerifyCode_asked (endAuthRequest mfaResp) s)
      as (asked & mfaReq & -> & Hasked).
    unfold bind at 1.
    match goal with
    | |- context [approvalNotice mfaReq i mfaResp ?st] =>
        destruct (approvalNotice_noticed mfaReq i mfaResp st)
          as (noticed & -> & Hnoticed)
    end.
    unfold bind, wrappedM.
    match goal with
    | |- context [processMfaEndAuth w mfaReq convergedResponse ?st] =>
        destruct (processMfaEndAuth_exchanged mfaReq st) as (exchanged & Hs3 & Hex);
        destruct (processMfaEndAuth w mfaReq convergedResponse st) as [s3 r3]
    end.
    simpl in Hs3. subst s3.
    assert (exists evs,
               history s ++ evs
               = ((history s ++ asked) ++ noticed) ++ exchanged
               /\ pollTrace convergedResponse (S n) i evs)%list as Hstop.
    { exists (asked ++ noticed ++ exchanged)%list.
      split; [rewrite <- !app_assoc; reflexivity | constructor; assumption]. }
    destruct r3 as [r|e|msg|]; simpl;
      try (destruct Hstop as (evs & Heq & Htr); exists evs; split;
           [symmetry; exact Heq | exact Htr]).
    destruct (negb (rs_ErrCode r =? 0)); [|destruct (rs_Success r);
      [|destruct (negb (rs_Retry r))]]; simpl;
      try (destruct Hstop as (evs & Heq & Htr); exists evs; split;
           [symmetry; exact Heq | exact Htr]).
    match goal with
    | |- context [pollLoop w loginDetails n ?j r convergedResponse ?st] =>
        destruct (IH j r st) as (rest & Hh & Htr); rewrite Hh
    end.
    simpl.
    exists (asked ++ noticed ++ exchanged
            ++ Slept (pollPause convergedResponse (rs_AuthMethodID r)) :: rest)%list.
    split; [rewrite <- !app_assoc; reflexivity|].
    apply poll_again; assumption.
Qed.

(** In a trace whose config names no polling interval, every sleep lasts
    zero seconds. *)
Lemma pollTrace_no_interval (n : nat) (i : Z) (evs : list event) :
  (forall method, OPerAuthPollingInterval convergedResponse !! method = None) ->
  pollTrace convergedResponse n i evs ->
  forall pause, Slept pause ∈ evs -> pause = 0.
Proof.
  intros Hnone Htr. induction Htr as
    [i|n i asked noticed exchanged Ha Hn He
     |n i asked noticed exchanged method rest Ha Hn He Htr IH];
    intros pause Hin.
  - apply elem_of_nil in Hin. contradiction.
  - rewrite !elem_of_app in Hin.
    destruct Hin as [Hin|[Hin|Hin]];
      [destruct Ha as [->|(? & ? & ->)]
      |destruct Hn as [->|(_ & ? & ->)]
      |destruct He as [->|(? & ? & ? & ->)]];
      try (apply elem_of_nil in Hin; contradiction);
      apply list_elem_of_singleton in Hin; discriminate.
  - rewrite !elem_of_app, elem_of_cons in Hin.
    destruct Hin as [Hin|[Hin|[Hin|[Hin|Hin]]]];
      [destruct Ha as [->|(? & ? & ->)]
      |destruct Hn as [->|(_ & ? & ->)]
      |destruct He as [->|(? & ? & ? & ->)]
      | |];
      try (apply elem_of_nil in Hin; contradiction);
      try (apply list_elem_of_singleton in Hin; discriminate).
    + injection Hin as ->. unfold pollPause. rewrite Hnone. reflexivity.
    + apply IH, Hin.
Qed.

(** In a trace short enough for the counter not to come round to zero again,
    a notice is logged only while the counter is zero, and once at most. *)
Lemma pollTrace_notices (n : nat) (i : Z) (evs : list event) :
  pollTrace convergedResponse n i evs ->
  0 <= i ->
  i + Z.of_nat n <= 2 ^ 63 ->
  (length (List.filter isLogged evs) <= if (i =? 0)%Z then 1 else 0)%nat.
Proof.
  intros Htr. induction Htr as
    [i|n i asked noticed exchanged Ha Hn He
     |n i asked noticed exchanged method rest Ha Hn He Htr IH];
    intros Hi Hrange.
  - simpl. lia.
  - rewrite !List.filter_app, !length_app.
    destruct Ha as [->|(? & ? & ->)]; destruct He as [->|(? & ? & ? & ->)];
      (destruct Hn as [->|(Hi0 & ? & ->)]; simpl;
       [destruct (i =? 0); lia | rewrite Hi0; simpl; lia]).
  - assert (length (List.filter isLogged rest) = 0)%nat as Hrest.
    { destruct n as [|n].
      - inversion Htr. reflexivity.
      - assert (int_succ i = i + 1) as Hsucc.
        { unfold int_succ. destruct (Z.ltb_spec (i + 1) (2 ^ 63)); lia. }
        rewrite Hsucc in IH.
        assert (0 <= i + 1) as H1 by lia.
        assert (i + 1 + Z.of_nat (S n) <= 2 ^ 63) as H2 by lia.
        specialize (IH H1 H2).
        destruct (Z.eqb_spec (i + 1) 0); lia. }
    rewrite !List.filter_app, !length_app. simpl. rewrite Hrest.
    destruct Ha as [->|(? & ? & ->)]; destruct He as [->|(? & ? & ? & ->)];
      (destruct Hn as [->|(Hi0 & ? & ->)]; simpl;
       [destruct (i =? 0); lia | rewrite Hi0; simpl; lia]).
Qed.

(** X15: a page config without a polling interval for the method makes the
    poll loop a tight one: whenever the loop goes round, the sleep before the
    next EndAuth request lasts zero seconds. *)
Theorem pollLoop_no_interval_no_pause (n : nat) (i : Z) (mfaResp : mfaResponse)
    (s : Session) :
  (forall method, OPerAuthPollingInterval convergedResponse !! method = None) ->
  forall pause,
    Slept pause
    ∈ drop (length (history s))
        (history (fst (pollLoop w loginDetails n i mfaResp convergedResponse s))) ->
    pause = 0.
Proof.
  intros Hnone pause.
  destruct (pollLoop_trace n i mfaResp s) as (evs & -> & Htr).
  rewrite drop_app_length. eapply pollTrace_no_interval; eassumption.
Qed.

(** X16: the notice that a phone approval is required is logged at most once
    in a run of the poll loop from counter zero, as long as the loop makes no
    more than 2^63 iterations (after which the 64-bit counter would be back
    at zero). *)
Theorem pollLoop_one_notice (n : nat) (mfaResp : mfaResponse) (s : Session) :
  Z.of_nat n <= 2 ^ 63 ->
  (length
     (List.filter isLogged
        (drop (length (history s))
           (history (fst (pollLoop w loginDetails n 0 mfaResp convergedResponse s)))))
   <= 1)%nat.
Proof.
  intros Hn.
  destruct (pollLoop_trace n 0 mfaResp s) as (evs & -> & Htr).
  rewrite drop_app_length.
  apply (pollTrace_notices n 0 evs Htr); lia.
Qed.

End PollPace.

Lemma pollLoop_no_interval_no_pause_witness :
  Slept 0
  ∈ drop (length (history afterBegin))
      (history (fst (pollLoop tfaWorld login 5 0 (mfaReply true false "c1" "f1" "s1")
                       tfaConfig afterBegin)))
  /\ forall pause,
       Slept pause
       ∈ drop (length (history afterBegin))
           (history (fst (pollLoop tfaWorld login 5 0
                            (mfaReply true false "c1" "f1" "s1") tfaConfig
                            afterBegin))) ->
       pause = 0.
Proof.
  split.
  - vm_compute. do 2 apply list_elem_of_further. apply list_elem_of_here.
  - apply (pollLoop_no_interval_no_pause tfaWorld login tfaConfig 5 0
             (mfaReply true false "c1" "f1" "s1") afterBegin).
    intros method. apply lookup_empty.
Defined.

Lemma pollLoop_one_notice_witness :
  (length
     (List.filter isLogged
        (drop (length (history afterBegin))
           (history (fst (pollLoop tfaWorld login 5 0
                            (mfaReply true false "c1" "f1" "s1") tfaConfig
                            afterBegin)))))
   <= 1)%nat.
Proof.
  apply (pollLoop_one_notice tfaWorld login tfaConfig 5
           (mfaReply true false "c1" "f1" "s1") afterBegin).
  vm_compute. discriminate.
Defined.

(** ** The first request of a run *)

Lemma grows_event (s : Session) (e : event) :
  grows s {| follow_redirect := follow_redirect s; history := history s ++ [e] |}.
Proof. exists [e]. reflexivity. Qed.

Lemma grows_trans (s1 s2 s3 : Session) : grows s1 s2 -> grows s2 s3 -> grows s1 s3.
Proof.
  intros [evs1 H1] [evs2 H2]. exists (evs1 ++ evs2)%list.
  rewrite H2, H1, app_assoc. reflexivity.
Qed.

(** X17: every run of [Authenticate] opens with one GET of the entry URL,
    built from the account URL and the application id; everything else it
    requests comes after.  When that GET fails, nothing else is requested and
    the error comes back wrapped in "error retrieving entry URL". *)
Theorem Authenticate_entry_request (w : World) (idpAccount : IDPAccount)
    (loginDetails : LoginDetails) (n : nat) (s : Session) :
  (exists later,
      requestsAdded s (fst (Authenticate w idpAccount loginDetails n s))
      = entryRequest idpAccount :: later)
  /\ (forall e,
        transport w s (entryRequest idpAccount) = inr e ->
        Authenticate w idpAccount loginDetails n s
        = (after s (follow_redirect s)
             (Exchange (follow_redirect s) (entryRequest idpAccount) (inr e)),
           Err ("error retrieving entry URL: " +:+ e))).
Proof.
  split.
  - unfold Authenticate. cbv zeta. unfold bind at 1, wrappedM, Get, Do.
    fold (entryRequest idpAccount).
    set (s1 := {| follow_redirect := follow_redirect s;
                  history := history s
                             ++ [Exchange (follow_redirect s) (entryRequest idpAccount)
                                   (transport w s (entryRequest idpAccount))] |}).
    assert (forall s2, grows s1 s2 ->
                       exists later,
                         requestsAdded s s2 = entryRequest idpAccount :: later)
      as Hlater.
    { intros s2 [evs Hevs]. exists (sentRequests evs).
      unfold requestsAdded. rewrite Hevs. unfold s1. simpl.
      rewrite <- app_assoc, drop_app_length. reflexivity. }
    destruct (transport w s (entryRequest idpAccount)) as [res|e]; simpl.
    + apply Hlater.
      match goal with
      | |- grows s1 (fst (?m s1)) =>
          assert (respects grows m) as Hm; [|apply Hm]
      end.
      apply (respects_bind grows grows_trans).
      * apply (respects_AuthProcessor w idpAccount loginDetails grows).
        -- intros s0. exists []. rewrite app_nil_r. reflexivity.
        -- apply grows_trans.
        -- intros s0 e _. apply grows_event.
        -- right. intros s0 e. apply grows_event.
        -- intros s0 b. exists []. simpl. rewrite app_nil_r. reflexivity.
      * intros [a|err|err]; intros s0; exists []; simpl; rewrite app_nil_r;
          reflexivity.
    + apply Hlater. exists []. rewrite app_nil_r. reflexivity.
  - intros e He.
    unfold Authenticate. cbv zeta. unfold bind at 1, wrappedM, Get, Do.
    fold (entryRequest idpAccount). rewrite He. reflexivity.
Qed.

(** ** Calls that cannot panic *)

Section Calm.

Variable w : World.
Variable idpAccount : IDPAccount.
Variable loginDetails : LoginDetails.

Lemma calm_lift {A} (o : outcome A) : is_Panic o = false -> calm (lift o).
Proof. intros H s. exact H. Qed.

Lemma calm_ret {A} (a : A) : calm (ret a).
Proof. intros s. reflexivity. Qed.

Lemma calm_fail {A} (e : error) : calm (@fail A e).
Proof. intros s. reflexivity. Qed.

Lemma calm_bind {A B} (m : M A) (k : A -> M B) :
  calm m -> (forall a, calm (k a)) -> calm (bind m k).
Proof.
  intros Hm Hk s. unfold bind. specialize (Hm s).
  destruct (m s) as [s1 [a|e|msg|]]; simpl in *; try reflexivity;
    [apply Hk | discriminate].
Qed.

Lemma calm_wrappedM {A} (m : M A) (msg : string) : calm m -> calm (wrappedM m msg).
Proof.
  intros Hm s. unfold wrappedM. specialize (Hm s).
  destruct (m s) as [s1 [a|e|p|]]; simpl in *; congruence.
Qed.

Lemma calm_Do (req : Request) : calm (Do w req).
Proof. intros s. unfold Do. simpl. destruct (transport w s req); reflexivity. Qed.

Lemma calm_record (e : event) : calm (record e).
Proof. intros s. reflexivity. Qed.

Lemma calm_promptString (prompt : string) : calm (promptString w prompt).
Proof. intros s. reflexivity. Qed.

Lemma NewRequest_no_panic (method url msg : string) (body : payload) :
  is_Panic (wrapped (NewRequest w method url body) msg) = false.
Proof. unfold NewRequest. destruct (NewRequestError w method url); reflexivity. Qed.

Lemma reSubmitFormData_no_panic (resBodyStr msg : string) :
  is_Panic (wrapped (reSubmitFormData w resBodyStr) msg) = false.
Proof.
  unfold reSubmitFormData. destruct (parseDocument w resBodyStr); reflexivity.
Qed.

(** Take a call apart down to the calls above. *)
Ltac calm :=
  repeat match goal with
         | |- calm (lift (wrapped (NewRequest _ _ _ _) _)) =>
             apply calm_lift, NewRequest_no_panic
         | |- calm (lift (wrapped (reSubmitFormData _ _) _)) =>
             apply calm_lift, reSubmitFormData_no_panic
         | |- calm (ret _) => apply calm_ret
         | |- calm (fail _) => apply calm_fail
         | |- calm (Do _ _) => apply calm_Do
         | |- calm (Get _ _) => apply calm_Do
         | |- calm (record _) => apply calm_record
         | |- calm (logPrint _) => apply calm_record
         | |- calm (sleepSeconds _) => apply calm_record
         | |- calm (promptString _ _) => apply calm_promptString
         | |- calm (wrappedM _ _) => apply calm_wrappedM
         | |- calm (bind _ _) => apply calm_bind; [|intros ?]
         | |- calm (if ?c then _ else _) => destruct c
         | |- calm (match ?x with _ => _ end) => destruct x
         | |- calm (let _ := _ in _) => cbv zeta
         end.

Lemma calm_processMfaEndAuth (mfaReqObj : mfaRequest)
    (convergedResponse : ConvergedResponse) :
  calm (processMfaEndAuth w mfaReqObj convergedResponse).
Proof. unfold processMfaEndAuth. calm. Qed.

Lemma calm_processMfaAuth (mfaResp : mfaResponse)
    (convergedResponse : ConvergedResponse) :
  calm (processMfaAuth w mfaResp convergedResponse).
Proof. unfold processMfaAuth. calm. Qed.

Lemma calm_pollLoop (n : nat) (convergedResponse : ConvergedResponse) :
  forall i mfaResp, calm (pollLoop w loginDetails n i mfaResp convergedResponse).
Proof.
  induction n as [|n IH]; intros i mfaResp; simpl.
  - apply calm_lift. reflexivity.
  - apply calm_bind; [unfold withVerifyCode; calm | intros mfaReq].
    apply calm_bind; [unfold approvalNotice; calm | intros _].
    apply calm_bind;
      [apply calm_wrappedM, calm_processMfaEndAuth | intros mfaResp'].
    calm. apply IH.
Qed.

(** With a proof to choose from, BeginAuth does not panic. *)
Lemma calm_processMfaBeginAuth (mfa : userProof) (mfas : list userProof)
    (convergedResponse : ConvergedResponse) :
  calm (processMfaBeginAuth w idpAccount (mfa :: mfas) convergedResponse).
Proof.
  unfold processMfaBeginAuth.
  apply calm_bind; [apply calm_lift; reflexivity | intros chosen].
  calm.
Qed.

(** X18: the handlers that do not read the embedded config cannot panic.
    [processMfa] tests for an empty list before [mfas[0]] is read, so an
    empty list of proofs gives the error "MFA not found" and every other list
    a response, an error, or a loop still polling; the same holds for the
    ADFS sign-in, the password POST and the re-POST of a hidden form,
    whatever the network, the decoders and the parser return. *)
Theorem handlers_without_config_never_panic (n : nat) (mfas : list userProof)
    (convergedResponse : ConvergedResponse) (url referer body : string)
    (s : Session) :
  is_Panic (snd (processMfa w idpAccount loginDetails n mfas convergedResponse s))
  = false
  /\ (mfas = [] ->
      processMfa w idpAccount loginDetails n mfas convergedResponse s
      = (s, Err "MFA not found"))
  /\ is_Panic (snd (processADFSAuthentication w loginDetails url s)) = false
  /\ is_Panic (snd (processAuthentication w loginDetails url referer
                      convergedResponse s)) = false
  /\ is_Panic (snd (reProcessForm w body s)) = false.
Proof.
  split; [|split; [|split; [|split]]].
  - revert s.
    change (calm (processMfa w idpAccount loginDetails n mfas convergedResponse)).
    unfold processMfa. destruct mfas as [|mfa mfas]; simpl; [apply calm_fail|].
    apply calm_bind; [apply calm_wrappedM, calm_processMfaBeginAuth | intros r0].
    apply calm_bind; [apply calm_pollLoop | intros r1].
    calm. apply calm_processMfaAuth.
  - intros ->. reflexivity.
  - revert s. change (calm (processADFSAuthentication w loginDetails url)).
    unfold processADFSAuthentication. calm.
  - revert s.
    change (calm (processAuthentication w loginDetails url referer convergedResponse)).
    unfold processAuthentication. calm.
  - revert s. change (calm (reProcessForm w body)).
    unfold reProcessForm. calm.
Qed.

End Calm.
